(** * Dockster: the multi-source extraction pipeline of [app.py]

    A shallow embedding of the extraction and export code of [app.py]
    (the response parser written inline in the three extraction paths, the
    PDF and DOCX extractors, the image branch of [main], the render,
    flat-text and CSV export loops of [main], and the model listing),
    with the properties of the specification stated and settled against
    it, followed by further properties of the same code.

    Conventions of the embedding.
    - A Python [str] is a [string] whose characters are the code points
      below 256 (Latin-1), so [len], [find], [rfind], slicing and [lower]
      act as Python does on text within that range.
    - A value produced by [json.loads] is a [py]: [None], [bool], [int],
      [float], [str], [list] and [dict] (an association list in insertion
      order, looked up by first match).
    - Python statements run in a state-and-exception monad [M]: the state
      holds the mutable locals of the function and the Streamlit output,
      and survives a raised exception, as Python objects do.
    - The libraries the program calls ([json.loads], the model API,
      [PIL.Image.open], [str] of a value, pandas' serialisers, the
      refusals of [st.dataframe]) are variables of the sections below,
      each with every outcome the call has in the program: [json.loads]
      returns a value or raises one of three exceptions, a page of a PDF
      is rendered or its rasterisation raises, a relationship of a DOCX
      has a target part or is external.  A reference decoder for JSON is
      given so that concrete replies can be run. *)

From Stdlib Require Import String Ascii List ZArith Lia Bool Arith DecimalString DecimalNat.
Import ListNotations.
Local Open Scope list_scope.
Local Open Scope string_scope.

(** ** Python strings *)

Module PyStr.

(** [s.find(c)] for a one-character [c]: the lowest index, or [-1]. *)
Fixpoint find_from (c : ascii) (s : string) (i : Z) : Z :=
  match s with
  | EmptyString => (-1)%Z
  | String a s' => if Ascii.eqb a c then i else find_from c s' (i + 1)%Z
  end.

Definition find (s : string) (c : ascii) : Z := find_from c s 0%Z.

(** [s.rfind(c)]: the highest index, or [-1]. *)
Fixpoint rfind_from (c : ascii) (s : string) (i last : Z) : Z :=
  match s with
  | EmptyString => last
  | String a s' =>
      rfind_from c s' (i + 1)%Z (if Ascii.eqb a c then i else last)
  end.

Definition rfind (s : string) (c : ascii) : Z := rfind_from c s 0%Z (-1)%Z.

Definition len (s : string) : Z := Z.of_nat (String.length s).

(** A slice bound as Python normalises it: a negative bound counts from
    the end, and every bound is clamped to [0 .. len]. *)
Definition norm_index (n i : Z) : Z :=
  if (i <? 0)%Z then Z.max 0 (i + n) else Z.min i n.

(** [s[a:b]] *)
Definition slice (s : string) (a b : Z) : string :=
  let a' := norm_index (len s) a in
  let b' := norm_index (len s) b in
  substring (Z.to_nat a') (Z.to_nat (b' - a')) s.

(** [s[a:]] *)
Definition slice_from (s : string) (a : Z) : string := slice s a (len s).

(** [c in s] for a one-character [c]. *)
Fixpoint contains (c : ascii) (s : string) : bool :=
  match s with
  | EmptyString => false
  | String a s' => Ascii.eqb a c || contains c s'
  end.

(** [sub in s]: [sub] occurs in [s] as a substring. *)
Fixpoint is_substring (sub s : string) : bool :=
  String.prefix sub s ||
  match s with
  | EmptyString => false
  | String _ s' => is_substring sub s'
  end.

(** [str(n)] for a natural number [n], as an f-string prints it. *)
Definition of_nat (n : nat) : string := NilZero.string_of_uint (Nat.to_uint n).

(** [c * n] for a one-character [c]. *)
Fixpoint repeat (c : ascii) (n : nat) : string :=
  match n with
  | O => EmptyString
  | S n' => String c (repeat c n')
  end.

(** [sep.join(l)] *)
Fixpoint join (sep : string) (l : list string) : string :=
  match l with
  | [] => ""
  | [x] => x
  | x :: l' => x ++ sep ++ join sep l'
  end.

(** [str.lower] on one code point below 256: the capital letters are
    [A-Z] (65 to 90) and, in the upper half, 192 to 222 but for the
    multiplication sign 215; the small letter of each is 32 above it. *)
Definition lower_char (c : ascii) : ascii :=
  let n := nat_of_ascii c in
  if ((65 <=? n)%nat && (n <=? 90)%nat)
     || ((192 <=? n)%nat && (n <=? 222)%nat && negb (n =? 215)%nat)
  then ascii_of_nat (n + 32) else c.

Fixpoint map_chars (f : ascii -> ascii) (s : string) : string :=
  match s with
  | EmptyString => EmptyString
  | String a s' => String (f a) (map_chars f s')
  end.

(** [s.lower()] *)
Definition lower (s : string) : string := map_chars lower_char s.

(** [s.replace(a, b)] for one-character [a] and [b]. *)
Definition replace (a b : ascii) (s : string) : string :=
  map_chars (fun c => if Ascii.eqb c a then b else c) s.

Fixpoint filter_chars (p : ascii -> bool) (s : string) : string :=
  match s with
  | EmptyString => EmptyString
  | String a s' => if p a then String a (filter_chars p s') else filter_chars p s'
  end.

End PyStr.

(** [json_text s] is [s] with every apostrophe read as a double quote:
    the way the JSON texts of the examples are written down. *)
Definition json_text (s : string) : string :=
  PyStr.replace "'"%char "034"%char s.

(** ** Python values *)

(** A [float] decoded from a JSON number: the decimal value
    [(-1)^neg * m * 10^e] of the literal, which the binary64 conversion
    rounds to the nearest float, or one of the literals [Infinity],
    [-Infinity] and [NaN] that [json.loads] also accepts. *)
Inductive pyfloat : Type :=
| FDec (neg : bool) (m : N) (e : Z)
| FInf (neg : bool)
| FNan.

#[local] Set Warnings "-register-all".

Inductive py : Type :=
| PNone
| PBool (b : bool)
| PInt (z : Z)
| PFloat (f : pyfloat)
| PStr (s : string)
| PList (l : list py)
| PDict (d : list (string * py)).

(** [f != 0.0]: a decimal rounds to zero exactly when its magnitude is at
    most [2^-1075], half of the least positive binary64 value. *)
Definition float_nonzero (f : pyfloat) : bool :=
  match f with
  | FDec _ m e =>
      negb (N.eqb m 0) &&
      ((0 <=? e)%Z || (10 ^ (- e) <? Z.of_N m * 2 ^ 1075)%Z)
  | FInf _ => true
  | FNan => true
  end.

(** [bool(v)]: the truth test of [if v:]. *)
Definition truthy (v : py) : bool :=
  match v with
  | PNone => false
  | PBool b => b
  | PInt z => negb (Z.eqb z 0)
  | PFloat f => float_nonzero f
  | PStr s => negb (String.eqb s "")
  | PList l => match l with [] => false | _ => true end
  | PDict d => match d with [] => false | _ => true end
  end.

(** [d.get(key, default)] on the entries of a dict. *)
Fixpoint dict_get (d : list (string * py)) (key : string) (default : py) : py :=
  match d with
  | [] => default
  | (k, v) :: d' => if String.eqb k key then v else dict_get d' key default
  end.

(** ** Exceptions, Streamlit output and the statement monad *)

(** The exceptions the modelled code can raise, each with the text that
    [str(e)] prints. The handlers of the program are
    [except json.JSONDecodeError], which catches the first of them only
    (a plain [ValueError] is not one), and [except Exception], which
    catches them all. *)
Inductive exn : Type :=
| JSONDecodeError (msg : string)
| AttributeError (msg : string)
| TypeError (msg : string)
| ValueError (msg : string)
| IndexError (msg : string)
| KeyError (msg : string)
| ImageError (msg : string)
| RecursionError (msg : string).

Definition exn_str (e : exn) : string :=
  match e with
  | JSONDecodeError m | AttributeError m | TypeError m
  | ValueError m | IndexError m | KeyError m | ImageError m
  | RecursionError m => m
  end.

Definition is_JSONDecodeError (e : exn) : bool :=
  match e with JSONDecodeError _ => true | _ => false end.

(** A decoded bitmap ([PIL.Image]) and the bytes of a document part. *)
Definition image := string.
Definition blob := string.

(** [{'title': ..., 'data': ...}] *)
Record table_info : Type := mk_table { title : string; data : py }.

(** A [pandas.DataFrame]: its column labels and its rows of cells. *)
Record frame : Type := mk_frame { columns : list py; rows : list (list py) }.

(** What the program sends to the outside: the calls to the model API and
    the Streamlit elements, in the order they are issued. *)
Inductive event : Type :=
| ApiCall (prompt : string) (img : image)
| StStatus (msg : string)
| StError (msg : string)
| StWarning (msg : string)
| StInfo (msg : string)
| StSuccess (msg : string)
| StMarkdown (msg : string)
| StHeader (msg : string)
| StTextArea (label : string) (value : py)
| StDataframe (df : frame)
| StJson (v : py)
| StDownload (label : string) (content : string) (file_name : string) (mime : string).

Inductive outcome (A : Type) : Type :=
| Ret (a : A)
| Raise (e : exn).
Arguments Ret {A} a.
Arguments Raise {A} e.

(** A statement over locals of type [V]: it runs from the current locals
    and output and ends with a value or a raised exception; what it did to
    the locals and the output before raising stays done. *)
Definition M (V A : Type) : Type :=
  V -> list event -> outcome A * V * list event.

Definition ret {V A} (a : A) : M V A := fun v ui => (Ret a, v, ui).

Definition bind {V A B} (m : M V A) (k : A -> M V B) : M V B :=
  fun v ui =>
    match m v ui with
    | (Ret a, v', ui') => k a v' ui'
    | (Raise e, v', ui') => (Raise e, v', ui')
    end.

Definition raise {V A} (e : exn) : M V A := fun v ui => (Raise e, v, ui).

Definition emit {V} (ev : event) : M V unit :=
  fun v ui => (Ret tt, v, (ui ++ [ev])%list).

Definition get_locals {V} : M V V := fun v ui => (Ret v, v, ui).

Definition modify {V} (f : V -> V) : M V unit := fun v ui => (Ret tt, f v, ui).

(** [try: body  except <catches> as e: handler] *)
Definition try_except {V A} (body : M V A) (catches : exn -> bool)
    (handler : exn -> M V A) : M V A :=
  fun v ui =>
    match body v ui with
    | (Raise e, v', ui') =>
        if catches e then handler e v' ui' else (Raise e, v', ui')
    | r => r
    end.

(** [if c: body] with no [else]. *)
Definition when {V} (c : bool) (body : M V unit) : M V unit :=
  if c then body else ret tt.

Declare Scope py_scope.
Delimit Scope py_scope with py.
Notation "x <- m ;; k" := (bind m (fun x => k))
  (at level 61, m at next level, right associativity) : py_scope.
Notation "m ;; k" := (bind m (fun _ => k))
  (at level 61, right associativity) : py_scope.
Local Open Scope py_scope.

(** [for i, x in enumerate(xs, start): body(i, x)] *)
Fixpoint for_enumerate {V X} (start : nat) (xs : list X)
    (body : nat -> X -> M V unit) : M V unit :=
  match xs with
  | [] => ret tt
  | x :: xs' => body start x ;; for_enumerate (S start) xs' body
  end.

(** ** The libraries the program calls *)

(** The result of [json.loads] on a text: the value; [JSONDecodeError]
    for a text that is not JSON; [ValueError] for an integer literal of
    more digits than [int] converts (4300 by default); [RecursionError]
    for a nesting deeper than the interpreter allows. *)
Inductive loads_result : Type :=
| Decoded (v : py)
| DecodeError (msg : string)
| DigitsLimit (msg : string)
| NestingLimit (msg : string).

(** The result of [model.generate_content(...).text]: the reply, or an
    exception with its text. *)
Inductive api_result : Type :=
| ApiText (reply : string)
| ApiFail (msg : string).

(** ** A reference decoder for [json.loads]

    A recursive-descent decoder of the JSON grammar that [json.loads]
    accepts, on 8-bit text: white space is space, tab, line feed and
    carriage return; a string may not hold a raw control character; a
    number without fraction and exponent is an [int], any other a
    [float]; a repeated key keeps its first position and its last value;
    anything after the value but white space is an error; an integer
    literal of more than 4300 digits is refused with [ValueError] where
    the scan meets it. An escape [\uXXXX] above [\u00ff] has no value in
    8-bit text and is reported as not decodable; the message of a
    [JSONDecodeError] is coarser than CPython's; nesting is followed to
    any depth, where CPython gives up with [RecursionError] at a depth
    that depends on the interpreter. The pipeline is stated over any
    decoder; this one runs the concrete replies. *)
Module JsonRef.

Definition is_ws (c : ascii) : bool :=
  match nat_of_ascii c with
  | 32 | 9 | 10 | 13 => true
  | _ => false
  end.

Fixpoint skip_ws (s : string) : string :=
  match s with
  | String c s' => if is_ws c then skip_ws s' else s
  | EmptyString => s
  end.

Definition digit_of (c : ascii) : option N :=
  let n := N_of_ascii c in
  if (48 <=? n)%N && (n <=? 57)%N then Some (n - 48)%N else None.

Definition hex_of (c : ascii) : option N :=
  let n := N_of_ascii c in
  if (48 <=? n)%N && (n <=? 57)%N then Some (n - 48)%N
  else if (97 <=? n)%N && (n <=? 102)%N then Some (n - 87)%N
  else if (65 <=? n)%N && (n <=? 70)%N then Some (n - 55)%N
  else None.

(** The digits at the head of [s]: their value, their count, the rest. *)
Fixpoint take_digits (s : string) (acc : N) (count : nat) : N * nat * string :=
  match s with
  | String c s' =>
      match digit_of c with
      | Some d => take_digits s' (acc * 10 + d)%N (S count)
      | None => (acc, count, s)
      end
  | EmptyString => (acc, count, s)
  end.

(** The body of a string after its opening quote, up to the closing one. *)
Fixpoint string_body (s : string) (acc : string) : option (string * string) :=
  match s with
  | EmptyString => None
  | String c s' =>
      if Ascii.eqb c "034"%char then Some (acc, s')
      else if Ascii.eqb c "\"%char then
        match s' with
        | EmptyString => None
        | String e s'' =>
            let simple (x : ascii) := string_body s'' (acc ++ String x "") in
            if Ascii.eqb e "034"%char then simple "034"%char
            else if Ascii.eqb e "\"%char then simple "\"%char
            else if Ascii.eqb e "/"%char then simple "/"%char
            else if Ascii.eqb e "b"%char then simple (ascii_of_nat 8)
            else if Ascii.eqb e "f"%char then simple (ascii_of_nat 12)
            else if Ascii.eqb e "n"%char then simple (ascii_of_nat 10)
            else if Ascii.eqb e "r"%char then simple (ascii_of_nat 13)
            else if Ascii.eqb e "t"%char then simple (ascii_of_nat 9)
            else if Ascii.eqb e "u"%char then
              match s'' with
              | String h1 (String h2 (String h3 (String h4 rest))) =>
                  match hex_of h1, hex_of h2, hex_of h3, hex_of h4 with
                  | Some a, Some b, Some c', Some d =>
                      let code := (((a * 16 + b) * 16 + c') * 16 + d)%N in
                      if (code <? 256)%N
                      then string_body rest (acc ++ String (ascii_of_N code) "")
                      else None
                  | _, _, _, _ => None
                  end
              | _ => None
              end
            else None
        end
      else if (N_of_ascii c <? 32)%N then None
      else string_body s' (acc ++ String c "")
  end.

(** What a scanner finds at the head of a text: a value and the rest of
    the text; a text that is not JSON there; or an integer literal of
    [digits] digits, more than [int] converts. *)
Inductive parsed (A : Type) : Type :=
| Got (a : A) (rest : string)
| Bad
| TooLong (digits : nat).
Arguments Got {A} a rest.
Arguments Bad {A}.
Arguments TooLong {A} digits.

(** [sys.int_info.default_max_str_digits] *)
Definition max_str_digits : nat := 4300.

(** A number at the head of [s], which starts with a digit; [neg] tells
    whether a minus sign came before. A literal without fraction and
    exponent goes through [int], which refuses more than
    [max_str_digits] digits; any other goes through [float]. *)
Definition number (neg : bool) (s : string) : parsed py :=
  let '(int_part, n_int, rest) :=
    match s with
    | String "0"%char s' => (0%N, 1%nat, s')
    | _ => take_digits s 0%N 0%nat
    end in
  match n_int with
  | O => Bad
  | _ =>
      let '(frac, n_frac, rest1) :=
        match rest with
        | String "."%char r =>
            let '(f, n, r') := take_digits r int_part 0%nat in
            match n with
            | O => (int_part, 0%nat, rest)
            | _ => (f, n, r')
            end
        | _ => (int_part, 0%nat, rest)
        end in
      let '(has_exp, exp, rest2) :=
        match rest1 with
        | String c r =>
            if Ascii.eqb c "e"%char || Ascii.eqb c "E"%char then
              let '(sign, r1) :=
                match r with
                | String "-"%char r1 => ((-1)%Z, r1)
                | String "+"%char r1 => (1%Z, r1)
                | _ => (1%Z, r)
                end in
              let '(x, n, r2) := take_digits r1 0%N 0%nat in
              match n with
              | O => (false, 0%Z, rest1)
              | _ => (true, (sign * Z.of_N x)%Z, r2)
              end
            else (false, 0%Z, rest1)
        | _ => (false, 0%Z, rest1)
        end in
      match n_frac, has_exp with
      | O, false =>
          if (max_str_digits <? n_int)%nat then TooLong n_int
          else Got (PInt (if neg then (- Z.of_N int_part)%Z
                          else Z.of_N int_part)) rest2
      | _, _ => Got (PFloat (FDec neg frac (exp - Z.of_nat n_frac)%Z)) rest2
      end
  end.

(** [s] starts with [lit]: the rest after it. *)
Fixpoint literal (lit s : string) : option string :=
  match lit, s with
  | EmptyString, _ => Some s
  | String a lit', String b s' => if Ascii.eqb a b then literal lit' s' else None
  | _, _ => None
  end.

(** A dict assignment [d[k] = v]. *)
Fixpoint dict_set (d : list (string * py)) (k : string) (v : py)
  : list (string * py) :=
  match d with
  | [] => [(k, v)]
  | (k', v') :: d' =>
      if String.eqb k' k then (k', v) :: d' else (k', v') :: dict_set d' k v
  end.

(** The value at the head of [s] (white space already skipped) and the
    rest; [elements] reads an array after its first value position and
    [members] an object after its opening brace. *)
Fixpoint value (fuel : nat) (s : string) : parsed py :=
  match fuel with
  | O => Bad
  | S fuel' =>
      match s with
      | EmptyString => Bad
      | String c s' =>
          if Ascii.eqb c "034"%char then
            match string_body s' "" with
            | Some (str, rest) => Got (PStr str) rest
            | None => Bad
            end
          else if Ascii.eqb c "{"%char then
            match skip_ws s' with
            | String "}"%char rest => Got (PDict []) rest
            | s1 =>
                match members fuel' s1 [] with
                | Got d rest => Got (PDict d) rest
                | Bad => Bad
                | TooLong n => TooLong n
                end
            end
          else if Ascii.eqb c "["%char then
            match skip_ws s' with
            | String "]"%char rest => Got (PList []) rest
            | s1 =>
                match elements fuel' s1 [] with
                | Got l rest => Got (PList l) rest
                | Bad => Bad
                | TooLong n => TooLong n
                end
            end
          else if Ascii.eqb c "-"%char then
            match literal "Infinity" s' with
            | Some rest => Got (PFloat (FInf true)) rest
            | None => number true s'
            end
          else
            match literal "null" s, literal "true" s, literal "false" s,
                  literal "NaN" s, literal "Infinity" s with
            | Some rest, _, _, _, _ => Got PNone rest
            | _, Some rest, _, _, _ => Got (PBool true) rest
            | _, _, Some rest, _, _ => Got (PBool false) rest
            | _, _, _, Some rest, _ => Got (PFloat FNan) rest
            | _, _, _, _, Some rest => Got (PFloat (FInf false)) rest
            | _, _, _, _, _ => number false s
            end
      end
  end
with elements (fuel : nat) (s : string) (acc : list py) : parsed (list py) :=
  match fuel with
  | O => Bad
  | S fuel' =>
      match value fuel' s with
      | Got v rest =>
          match skip_ws rest with
          | String "]"%char rest' => Got (acc ++ [v])%list rest'
          | String ","%char rest' => elements fuel' (skip_ws rest') (acc ++ [v])%list
          | _ => Bad
          end
      | Bad => Bad
      | TooLong n => TooLong n
      end
  end
with members (fuel : nat) (s : string) (acc : list (string * py))
  : parsed (list (string * py)) :=
  match fuel with
  | O => Bad
  | S fuel' =>
      match s with
      | String "034"%char s' =>
          match string_body s' "" with
          | Some (key, rest) =>
              match skip_ws rest with
              | String ":"%char rest1 =>
                  match value fuel' (skip_ws rest1) with
                  | Got v rest2 =>
                      match skip_ws rest2 with
                      | String "}"%char rest' => Got (dict_set acc key v) rest'
                      | String ","%char rest' =>
                          members fuel' (skip_ws rest') (dict_set acc key v)
                      | _ => Bad
                      end
                  | Bad => Bad
                  | TooLong n => TooLong n
                  end
              | _ => Bad
              end
          | None => Bad
          end
      | _ => Bad
      end
  end.

(** [json.loads(s)] *)
Definition loads (s : string) : loads_result :=
  match value (2 * String.length s + 2) (skip_ws s) with
  | Got v rest =>
      match skip_ws rest with
      | EmptyString => Decoded v
      | _ => DecodeError "Extra data"
      end
  | Bad => DecodeError "Expecting value"
  | TooLong n =>
      DigitsLimit ("Exceeds the limit (4300 digits) for integer string conversion: value has "
                     ++ PyStr.of_nat n
                     ++ " digits; use sys.set_int_max_str_digits() to increase the limit")
  end.

End JsonRef.

(** [os.path.splitext(p)[1]]: the extension of the last path component,
    from its last dot; a component made of leading dots only has none. *)
Module OsPath.

Fixpoint all_dots (s : string) : bool :=
  match s with
  | EmptyString => true
  | String a s' => Ascii.eqb a "."%char && all_dots s'
  end.

Definition splitext_ext (p : string) : string :=
  let sepIndex := PyStr.rfind p "/"%char in
  let dotIndex := PyStr.rfind p "."%char in
  if (sepIndex <? dotIndex)%Z
     && negb (all_dots (PyStr.slice p (sepIndex + 1) dotIndex))
  then PyStr.slice_from p dotIndex
  else "".

End OsPath.

Definition nl : string := String (ascii_of_nat 10) "".

(** The target of a relationship of a Word document: a part of the
    package, with its blob, or a resource outside the package (a
    hyperlink, a linked picture), for which [rel.target_part] raises
    [ValueError]. *)
Inductive rel_target : Type :=
| Internal (part : blob)
| External.

(** A relationship: [rel.target_ref], the part name or the address it
    refers to, and its target. *)
Record relationship : Type := mk_rel {
  target_ref : string;
  target : rel_target
}.

(** A paragraph-and-table view of a Word document: the text of each
    paragraph, the cell texts of each native table, and the relationships
    of the document part in the order [rels.values()] gives them. *)
Record document : Type := mk_document {
  paragraphs : list string;
  tables : list (list (list string));
  rels : list relationship
}.

(** A page of a PDF as lines 121-122 meet it: the bitmap that
    [get_pixmap] and [Image.open] make of it, or the exception one of
    the two raises. *)
Inductive raster : Type :=
| Rendered (img : image)
| RenderError (e : exn).

(** An upload: its name and what [Image.open], [fitz.open] (its pages)
    and [docx.Document] read from its byte stream. Only the reading
    chosen by the extension is used. *)
Record uploaded_file : Type := mk_upload {
  name : string;
  opened_image : image;
  opened_pdf : list raster;
  opened_docx : document
}.

(** Locals of [extract_data_from_pdf]. *)
Record pdf_locals : Type := mk_pdf {
  aggregated_text : string;
  aggregated_tables : list table_info
}.

(** Locals of [extract_data_from_docx]. *)
Record docx_locals : Type := mk_docx {
  full_text : list string;
  all_tables_data : list table_info
}.

(** Locals of the extraction step of [main]. *)
Record main_locals : Type := mk_main {
  text_result : py;
  table_result : list table_info
}.

(** A call: the callee runs on locals of its own and on the caller's
    output; its locals are dropped when it returns or raises. *)
Definition call {V W A} (init : W) (body : M W A) : M V A :=
  fun v ui =>
    match body init ui with
    | (r, _, ui') => (r, v, ui')
    end.

(** [if response_text: body(response_text)] for a reply that is a [str]
    or [None]. *)
Definition if_text {V} (response_text : option string)
    (body : string -> M V unit) : M V unit :=
  match response_text with
  | Some text => when (negb (String.eqb text "")) (body text)
  | None => ret tt
  end.

Definition prompt_template : string :=
  "Extract all text and the primary table from this image as a JSON object with 'text' and 'table' keys. The 'table' value should be a list of lists.".

Definition prompt_for_embeds : string :=
  "This image was embedded in a document. Analyze it for tables. Provide output as a JSON object with 'text' and 'table' keys. The 'table' should be a list of lists.".

Section Pipeline.

(** [json.loads] *)
Variable json_loads : string -> loads_result.
(** [GenerativeModel('gemini-2.5-flash').generate_content([prompt, image]).text] *)
Variable generate_content : string -> image -> api_result.
(** [Image.open(io.BytesIO(blob))]: the bitmap, or the text of the exception. *)
Variable Image_open : blob -> string + image.
(** [str(v)] for a value [v] that is not a [str]. *)
Variable str_of : py -> string.

(** [f"{v}"] *)
Definition format_value (v : py) : string :=
  match v with
  | PStr s => s
  | _ => str_of v
  end.

Definition loads {V} (s : string) : M V py :=
  match json_loads s with
  | Decoded v => ret v
  | DecodeError msg => raise (JSONDecodeError msg)
  | DigitsLimit msg => raise (ValueError msg)
  | NestingLimit msg => raise (RecursionError msg)
  end.

(** [data.get(key, default)] *)
Definition get {V} (data : py) (key : string) (default : py) : M V py :=
  match data with
  | PDict d => ret (dict_get d key default)
  | _ => raise (AttributeError "object has no attribute 'get'")
  end.

(** [get_gemini_response(image, prompt)], lines 46-56. *)
Definition get_gemini_response {V} (img : image) (prompt : string)
  : M V (option string) :=
  emit (ApiCall prompt img) ;;
  match generate_content prompt img with
  | ApiText reply => ret (Some reply)
  | ApiFail msg =>
      emit (StError ("An error occurred with the Gemini API: " ++ msg)) ;;
      ret None
  end.

(** The response parser, as lines 88-94 and 128-135 write it: the slice
    from the first [{] to the last [}] decoded, and its [text] and [table]
    entries; [None] when a brace is missing. *)
Definition parse_response {V} (response_text : string)
  : M V (option (py * py)) :=
  let start_index := PyStr.find response_text "{"%char in
  let end_index := PyStr.rfind response_text "}"%char in
  if negb (start_index =? -1)%Z && negb (end_index =? -1)%Z then
    let json_string := PyStr.slice response_text start_index (end_index + 1) in
    data <- loads json_string ;;
    text <- get data "text" (PStr "") ;;
    table <- get data "table" (PList []) ;;
    ret (Some (text, table))
  else ret None.

(** *** [extract_data_from_pdf], lines 107-145 *)

Definition page_section (page_num : nat) (page_text : py) : string :=
  nl ++ nl ++ "--- Page " ++ PyStr.of_nat (page_num + 1) ++ " ---" ++ nl
     ++ format_value page_text.

Definition page_table_entry (page_num : nat) (page_table : py) : table_info :=
  mk_table ("Table from Page " ++ PyStr.of_nat (page_num + 1)) page_table.

(** Lines 121-122, outside every [try]. *)
Definition rasterise {V} (page : raster) : M V image :=
  match page with
  | Rendered img => ret img
  | RenderError e => raise e
  end.

Definition pdf_page (prompt : string) (page_num : nat) (page : raster)
  : M pdf_locals unit :=
  emit (StStatus ("Analyzing page " ++ PyStr.of_nat (page_num + 1) ++ "...")) ;;
  image <- rasterise page ;;
  response_text <- get_gemini_response image prompt ;;
  if_text response_text (fun response_text =>
    try_except
      (parsed <- parse_response response_text ;;
       match parsed with
       | Some (page_text, page_table) =>
           when (truthy page_text)
             (modify (fun v =>
                mk_pdf (aggregated_text v ++ page_section page_num page_text)
                       (aggregated_tables v))) ;;
           when (truthy page_table)
             (modify (fun v =>
                mk_pdf (aggregated_text v)
                       (aggregated_tables v
                          ++ [page_table_entry page_num page_table])))
       | None => ret tt
       end)
      is_JSONDecodeError
      (fun _ =>
         emit (StWarning ("Could not parse data from page "
                            ++ PyStr.of_nat (page_num + 1) ++ ". Skipping.")))).

Definition extract_data_from_pdf {V} (pdf_document : list raster)
    (prompt : string) : M V (string * list table_info) :=
  call (mk_pdf "" [])
    (emit (StStatus ("Processing "
                       ++ PyStr.of_nat (List.length pdf_document)
                       ++ " pages...")) ;;
     for_enumerate 0 pdf_document (pdf_page prompt) ;;
     emit (StStatus "PDF processing complete!") ;;
     v <- get_locals ;;
     ret (aggregated_text v, aggregated_tables v)).

(** *** [extract_data_from_docx], lines 58-104 *)

Definition native_table_entry (i : nat) (table : list (list string))
  : table_info :=
  mk_table ("Native Table " ++ PyStr.of_nat (i + 1))
           (PList (map (fun row => PList (map PStr row)) table)).

(** [enumerate] of the native tables, lines 68-70. *)
Fixpoint native_tables (i : nat) (ts : list (list (list string)))
  : list table_info :=
  match ts with
  | [] => []
  | t :: ts' => native_table_entry i t :: native_tables (S i) ts'
  end.

Definition undefined_target_part : exn :=
  ValueError "target_part property on _Relationship is undefined when target mode is External".

(** The list comprehension of lines 73-77: [rel.target_part] of every
    relationship whose [target_ref] contains ["image"], in order; it
    raises at the first such relationship that is external. *)
Fixpoint target_parts (rs : list relationship) : exn + list blob :=
  match rs with
  | [] => inr []
  | rel :: rs' =>
      if PyStr.is_substring "image" (target_ref rel) then
        match target rel with
        | Internal part =>
            match target_parts rs' with
            | inr parts => inr (part :: parts)
            | inl e => inl e
            end
        | External => inl undefined_target_part
        end
      else target_parts rs'
  end.

Definition image_parts (doc : document) : exn + list blob :=
  target_parts (rels doc).

Definition image_text_section (i : nat) (img_text : py) : string :=
  nl ++ "--- Text from Embedded Image " ++ PyStr.of_nat (i + 1) ++ " ---" ++ nl
     ++ format_value img_text.

Definition image_table_entry (i : nat) (img_table : py) : table_info :=
  mk_table ("Table from Embedded Image " ++ PyStr.of_nat (i + 1)) img_table.

Definition docx_image (prompt : string) (i : nat) (part : blob)
  : M docx_locals unit :=
  emit (StStatus ("Analyzing embedded image " ++ PyStr.of_nat (i + 1) ++ "...")) ;;
  try_except
    (img <- match Image_open part with
            | inr img => ret img
            | inl msg => raise (ImageError msg)
            end ;;
     response_text <- get_gemini_response img prompt ;;
     if_text response_text (fun response_text =>
       parsed <- parse_response response_text ;;
       match parsed with
       | Some (img_text, img_table) =>
           when (truthy img_text)
             (modify (fun v =>
                mk_docx (full_text v ++ [image_text_section i img_text])
                        (all_tables_data v))) ;;
           when (truthy img_table)
             (modify (fun v =>
                mk_docx (full_text v)
                        (all_tables_data v ++ [image_table_entry i img_table])))
       | None => ret tt
       end))
    (fun _ => true)
    (fun e =>
       emit (StWarning ("Could not process embedded image "
                          ++ PyStr.of_nat (i + 1)
                          ++ ". It might be a non-standard format. Error: "
                          ++ exn_str e))).

Definition extract_data_from_docx {V} (doc : document) (prompt : string)
  : M V (string * list table_info) :=
  call (mk_docx (paragraphs doc) (native_tables 0 (tables doc)))
    (image_parts <- match image_parts doc with
                    | inr parts => ret parts
                    | inl e => raise e
                    end ;;
     when (match image_parts with [] => false | _ => true end)
       (emit (StStatus ("Found "
                          ++ PyStr.of_nat (List.length image_parts)
                          ++ " embedded images. Analyzing...")) ;;
        for_enumerate 0 image_parts (docx_image prompt) ;;
        emit (StStatus "Image analysis complete!")) ;;
     v <- get_locals ;;
     ret (PyStr.join nl (full_text v), all_tables_data v)).

(** *** The extraction step of [main], lines 177-203 *)

Definition file_extension (f : uploaded_file) : string :=
  PyStr.lower (OsPath.splitext_ext (name f)).

Definition image_extensions : list string := [".jpg"; ".jpeg"; ".png"].

Definition mem_string (s : string) (l : list string) : bool :=
  existsb (String.eqb s) l.

(** The image branch, lines 182-192. *)
Definition main_image (f : uploaded_file) : M main_locals unit :=
  response_text <- get_gemini_response (opened_image f) prompt_template ;;
  if_text response_text (fun response_text =>
    try_except
      (let start_index := PyStr.find response_text "{"%char in
       let end_index := PyStr.rfind response_text "}"%char in
       when (negb (start_index =? -1)%Z && negb (end_index =? -1)%Z)
         (data <- loads (PyStr.slice response_text start_index (end_index + 1)) ;;
          text <- get data "text" (PStr "") ;;
          modify (fun v => mk_main text (table_result v)) ;;
          table <- get data "table" PNone ;;
          when (truthy table)
            (table' <- get data "table" PNone ;;
             modify (fun v =>
               mk_main (text_result v) [mk_table "Table from Image" table']))))
      is_JSONDecodeError
      (fun _ => emit (StError "Failed to decode JSON from API."))).

(** Lines 177-203: the dispatch on the extension and the hand-over of the
    result; it returns [extracted_text] and [extracted_tables] as stored in
    the session state. *)
Definition main_extract (f : uploaded_file) : M unit (py * list table_info) :=
  call (mk_main (PStr "") [])
    ((if mem_string (file_extension f) image_extensions then main_image f
      else if String.eqb (file_extension f) ".pdf" then
        r <- extract_data_from_pdf (opened_pdf f) prompt_template ;;
        modify (fun _ => mk_main (PStr (fst r)) (snd r))
      else if String.eqb (file_extension f) ".docx" then
        r <- extract_data_from_docx (opened_docx f) prompt_for_embeds ;;
        modify (fun _ => mk_main (PStr (fst r)) (snd r))
      else ret tt) ;;
     emit (StSuccess "Data extracted successfully!") ;;
     v <- get_locals ;;
     ret (text_result v, table_result v)).

End Pipeline.

(** ** Rendering and export, lines 205-260 of [main] *)

(** [len(v)] *)
Definition py_len {V} (v : py) : M V nat :=
  match v with
  | PStr s => ret (String.length s)
  | PList l => ret (List.length l)
  | PDict d => ret (List.length d)
  | _ => raise (TypeError "object has no len()")
  end.

(** [v[1:]] *)
Definition py_slice_from1 {V} (v : py) : M V py :=
  match v with
  | PStr s => ret (PStr (PyStr.slice_from s 1))
  | PList l => ret (PList (tl l))
  | PDict _ => raise (TypeError "unhashable type: 'slice'")
  | _ => raise (TypeError "object is not subscriptable")
  end.

(** [v[0]] *)
Definition py_item0 {V} (v : py) : M V py :=
  match v with
  | PStr (String c _) => ret (PStr (String c ""))
  | PStr EmptyString => raise (IndexError "string index out of range")
  | PList (x :: _) => ret x
  | PList [] => raise (IndexError "list index out of range")
  | PDict _ => raise (KeyError "0")
  | _ => raise (TypeError "object is not subscriptable")
  end.

(** [table_rows and len(table_rows) > 1] as a condition. *)
Definition rows_gt1 {V} (table_rows : py) : M V bool :=
  if truthy table_rows then
    n <- py_len table_rows ;; ret (1 <? n)%nat
  else ret false.

(** The character class [[a-z0-9_]]. *)
Definition in_class (c : ascii) : bool :=
  let n := nat_of_ascii c in
  ((97 <=? n)%nat && (n <=? 122)%nat)
  || ((48 <=? n)%nat && (n <=? 57)%nat)
  || (n =? 95)%nat.

(** [re.sub(r'[^a-z0-9_]+', '', s)]: scanning from the left, a character
    of the class is copied; a character outside it opens a match, which
    runs over every following character outside the class and is replaced
    by the empty string. *)
Fixpoint re_sub (s : string) : string :=
  match s with
  | EmptyString => EmptyString
  | String c s' =>
      if in_class c then String c (re_sub s') else re_sub_match s'
  end
with re_sub_match (s : string) : string :=
  match s with
  | EmptyString => EmptyString
  | String c s' =>
      if in_class c then String c (re_sub s') else re_sub_match s'
  end.

(** Line 250. *)
Definition safe_filename (t : table_info) : string :=
  re_sub (PyStr.replace " "%char "_"%char (PyStr.lower (title t))).

(** The sanitiser of line 250 with its substitution read as a filter. *)
Definition filter_filename (title : string) : string :=
  PyStr.filter_chars in_class
    (PyStr.map_chars (fun c => if Ascii.eqb c " "%char then "_"%char else c)
       (PyStr.map_chars PyStr.lower_char title)).

(** The file name as the specification words it: the title
    lower-cased (each capital of the first string replaced by the small
    letter at its place in the second; a letter beyond [z] is removed by
    the last step whatever its case), every space replaced by an
    underscore, and every character removed that is not one of the small
    letters, the digits and the underscore. *)
Fixpoint small_letter (capitals smalls : string) (c : ascii) : ascii :=
  match capitals, smalls with
  | String u capitals', String l smalls' =>
      if Ascii.eqb c u then l else small_letter capitals' smalls' c
  | _, _ => c
  end.

Definition spec_filename (title : string) : string :=
  PyStr.filter_chars
    (fun c => PyStr.contains c "abcdefghijklmnopqrstuvwxyz0123456789_")
    (PyStr.map_chars (fun c => if Ascii.eqb c " "%char then "_"%char else c)
       (PyStr.map_chars
          (small_letter "ABCDEFGHIJKLMNOPQRSTUVWXYZ" "abcdefghijklmnopqrstuvwxyz")
          title)).

(** *** pandas *)

Module Pandas.

Fixpoint as_rows (l : list py) : option (list (list py)) :=
  match l with
  | [] => Some []
  | PList r :: l' =>
      match as_rows l' with
      | Some rs => Some (r :: rs)
      | None => None
      end
  | _ => None
  end.

(** A plain value: not a list and not a dict. *)
Definition scalar (v : py) : bool :=
  match v with
  | PList _ | PDict _ => false
  | _ => true
  end.

(** Column labels given as a list of plain values; a list that holds
    lists builds an index of another kind. *)
Definition as_labels (v : py) : option (list py) :=
  match v with
  | PList l => if forallb scalar l then Some l else None
  | _ => None
  end.

Definition width (rs : list (list py)) : nat :=
  fold_right (fun r w => Nat.max (List.length r) w) 0%nat rs.

(** A short row is filled with [None] up to the width of the frame. *)
Definition pad (w : nat) (r : list py) : list py :=
  r ++ List.repeat PNone (w - List.length r).

Definition range_labels (w : nat) : list py :=
  map (fun i => PInt (Z.of_nat i)) (seq 0 w).

Definition columns_mismatch (given found : nat) : exn :=
  ValueError (PyStr.of_nat given ++ " columns passed, passed data had "
                ++ PyStr.of_nat found ++ " columns").

Section Constructor.

(** The constructor on the shapes of data not described below. *)
Variable DataFrame_other : py -> option py -> exn + frame.

(** [pd.DataFrame(data)] and [pd.DataFrame(data, columns=labels)]:
    - a scalar ([bool], [int], [float], [str]) is refused;
    - an empty list gives the empty frame;
    - a list of lists gives one row per list, as wide as the longest,
      short rows filled with [None]; labels given as a list of plain
      values must be as many as the frame is wide. *)
Definition DataFrame (data : py) (labels : option py) : exn + frame :=
  match data with
  | PBool _ | PInt _ | PFloat _ | PStr _ =>
      inl (ValueError "DataFrame constructor not properly called!")
  | PList [] =>
      match labels with
      | None => inr (mk_frame [] [])
      | Some _ => DataFrame_other data labels
      end
  | PList l =>
      match as_rows l with
      | Some rs =>
          let w := width rs in
          match labels with
          | None => inr (mk_frame (range_labels w) (map (pad w) rs))
          | Some c =>
              match as_labels c with
              | Some names =>
                  if (List.length names =? w)%nat
                  then inr (mk_frame names (map (pad w) rs))
                  else inl (columns_mismatch (List.length names) w)
              | None => DataFrame_other data labels
              end
          end
      | None => DataFrame_other data labels
      end
  | PNone | PDict _ => DataFrame_other data labels
  end.

End Constructor.

End Pandas.

Section Exporting.

Variable DataFrame_other : py -> option py -> exn + frame.
(** What [st.dataframe(df)] raises, if anything. *)
Variable dataframe_refused : frame -> option exn.
(** [df.to_string(index=False, header=False)] *)
Variable to_string : frame -> string.
(** [df.to_csv(index=False).encode('utf-8')] *)
Variable to_csv : frame -> string.
Variable str_of : py -> string.

Definition DataFrame {V} (data : py) (labels : option py) : M V frame :=
  match Pandas.DataFrame DataFrame_other data labels with
  | inr df => ret df
  | inl e => raise e
  end.

Definition rule : string := PyStr.repeat "="%char 20.

(** [st.dataframe(df)]: the element is shown, or the call raises, as it
    does for a frame that Arrow refuses (two columns of one name). *)
Definition st_dataframe {V} (df : frame) : M V unit :=
  match dataframe_refused df with
  | None => emit (StDataframe df)
  | Some e => raise e
  end.

(** One table of the display loop, lines 214-227. *)
Definition render_table (table_info : table_info) : M string unit :=
  emit (StMarkdown ("**" ++ title table_info ++ "**")) ;;
  try_except
    (let table_rows := data table_info in
     many <- rows_gt1 table_rows ;;
     if many then
       body <- py_slice_from1 table_rows ;;
       head <- py_item0 table_rows ;;
       df <- DataFrame body (Some head) ;;
       st_dataframe df
     else if truthy table_rows then
       df <- DataFrame table_rows None ;;
       st_dataframe df
     else emit (StInfo "Table is empty."))
    (fun _ => true)
    (fun _ =>
       emit (StWarning "Could not format table. Displaying raw data.") ;;
       emit (StJson (data table_info))).

(** Lines 206-229. *)
Definition render_results (extracted_text : py)
    (tables_data : list table_info) : M string unit :=
  emit (StMarkdown "---") ;;
  emit (StHeader "Extracted Results") ;;
  emit (StHeader "Extracted Text") ;;
  emit (StTextArea "Text Content" extracted_text) ;;
  match tables_data with
  | [] => emit (StInfo "No tables were found in the file.")
  | _ =>
      emit (StHeader "Extracted Tables") ;;
      for_enumerate 0 tables_data (fun _ t => render_table t)
  end.

Definition table_heading (t : table_info) : string :=
  nl ++ nl ++ nl ++ title t ++ nl ++ rule ++ nl.

(** One table of the flat-text loop, lines 237-238. *)
Definition txt_table (table_info : table_info) : M string unit :=
  modify (fun txt_content => (txt_content ++ table_heading table_info)%string) ;;
  df <- DataFrame (data table_info) None ;;
  modify (fun txt_content => (txt_content ++ to_string df)%string).

(** Lines 231-240; [txt_content] is the local of the statement. *)
Definition flat_text_export (extracted_text : py)
    (tables_data : list table_info) : M string unit :=
  emit (StMarkdown "---") ;;
  emit (StHeader "Download Data") ;;
  modify (fun _ =>
    "Extracted Text" ++ nl ++ rule ++ nl
      ++ match extracted_text with PStr s => s | v => str_of v end) ;;
  for_enumerate 0 tables_data (fun _ t => txt_table t) ;;
  txt_content <- get_locals ;;
  emit (StDownload "Download All as TXT" txt_content
                   "extracted_content.txt" "text/plain").

(** One table of the CSV loop, lines 246-260. *)
Definition csv_table (table_info : table_info) : M string unit :=
  try_except
    (let table_rows := data table_info in
     many <- rows_gt1 table_rows ;;
     when many
       (body <- py_slice_from1 table_rows ;;
        head <- py_item0 table_rows ;;
        df <- DataFrame body (Some head) ;;
        emit (StDownload ("Download '" ++ title table_info ++ "'")
                         (to_csv df)
                         (safe_filename table_info ++ ".csv")
                         "text/csv")))
    (fun _ => true)
    (fun _ =>
       emit (StWarning ("Could not generate CSV for '"
                          ++ title table_info ++ "'."))).

(** Lines 242-260. *)
Definition csv_export (tables_data : list table_info) : M string unit :=
  match tables_data with
  | [] => ret tt
  | _ =>
      emit (StMarkdown "---") ;;
      emit (StHeader "Download Individual Tables as CSV") ;;
      for_enumerate 0 tables_data (fun _ t => csv_table t)
  end.

(** Lines 205-260 for a session that holds a result. *)
Definition main_results (extracted_text : py)
    (tables_data : list table_info) : M string unit :=
  render_results extracted_text tables_data ;;
  flat_text_export extracted_text tables_data ;;
  csv_export tables_data.

End Exporting.

(** ** The contribution of one unit, read off the code

    What a reply yields once parsed, and what a page or an embedded image
    adds to the accumulators: the pure content of one turn of the loops,
    used to state the properties of whole documents. *)

Section Contribution.

Variable json_loads : string -> loads_result.
Variable str_of : py -> string.

(** The outcome of the parser on a reply; it touches neither locals nor
    output. *)
Definition unit_fields (response_text : string) : outcome (option (py * py)) :=
  fst (fst (parse_response (V := unit) json_loads response_text tt [])).

(** Lines 137-140 on the locals. *)
Definition add_page (page_num : nat) (fields : py * py) (v : pdf_locals)
  : pdf_locals :=
  mk_pdf
    (aggregated_text v
       ++ (if truthy (fst fields)
           then page_section str_of page_num (fst fields) else ""))
    (aggregated_tables v
       ++ (if truthy (snd fields)
           then [page_table_entry page_num (snd fields)] else []))%list.

(** Lines 96-99 on the locals. *)
Definition add_image (i : nat) (fields : py * py) (v : docx_locals)
  : docx_locals :=
  mk_docx
    (full_text v
       ++ (if truthy (fst fields)
           then [image_text_section str_of i (fst fields)] else []))%list
    (all_tables_data v
       ++ (if truthy (snd fields)
           then [image_table_entry i (snd fields)] else []))%list.

End Contribution.

(** ** Statements about whole documents *)

(** A reply that holds a well-formed JSON object between its first [{]
    and its last [}], and the [text] and [table] fields of that object. *)
Definition valid_reply (json_loads : string -> loads_result)
    (r : string) (fields : py * py) : Prop :=
  exists (pre mid post : string) (d : list (string * py)),
    PyStr.contains "{"%char pre = false /\
    PyStr.contains "}"%char post = false /\
    r = pre ++ String "{"%char mid ++ String "}"%char post /\
    json_loads (String "{"%char mid ++ "}") = Decoded (PDict d) /\
    fields = (dict_get d "text" (PStr ""), dict_get d "table" (PList [])).

(** The page sections of the fields of pages [n], [n+1], ...: one per
    page whose text is non-empty, in page order. *)
Fixpoint pdf_sections (str_of : py -> string) (n : nat)
    (fields : list (py * py)) : string :=
  match fields with
  | [] => ""
  | f :: fields' =>
      (if truthy (fst f) then page_section str_of n (fst f) else "")
        ++ pdf_sections str_of (S n) fields'
  end.

(** The table entries of the fields of pages [n], [n+1], ...: one per
    page whose table is non-empty, in page order. *)
Fixpoint pdf_entries (n : nat) (fields : list (py * py)) : list table_info :=
  match fields with
  | [] => []
  | f :: fields' =>
      ((if truthy (snd f) then [page_table_entry n (snd f)] else [])
         ++ pdf_entries (S n) fields')%list
  end.

(** The entries of embedded images [i], [i+1], ...: one for each image
    that yielded a table, in enumeration order. *)
Fixpoint image_entries (i : nat) (picks : list (option py)) : list table_info :=
  match picks with
  | [] => []
  | Some table :: picks' => image_table_entry i table :: image_entries (S i) picks'
  | None :: picks' => image_entries (S i) picks'
  end.

(** A decoder that answers a text opening with [{] by a dict or an error,
    and the empty text by an error, as [json.loads] does. *)
Definition decodes_objects (json_loads : string -> loads_result) : Prop :=
  (forall (s : string) (v : py),
      json_loads (String "{"%char s) = Decoded v -> exists d, v = PDict d)
  /\ (forall v : py, json_loads "" <> Decoded v).


(** An entry derived from a model reply, by its title. *)
Definition model_derived (t : table_info) : bool :=
  String.prefix "Table from" (title t).

(** The output of one turn of the PDF loop before the reply is parsed,
    and the warning of line 142. *)
Definition page_events (prompt : string) (page_num : nat) (page : image)
  : list event :=
  [StStatus ("Analyzing page " ++ PyStr.of_nat (page_num + 1) ++ "...");
   ApiCall prompt page].

Definition page_warning (page_num : nat) : event :=
  StWarning ("Could not parse data from page "
               ++ PyStr.of_nat (page_num + 1) ++ ". Skipping.").

(** The status line of one turn of the DOCX loop, the warning of line
    101 and the error message of line 55. *)
Definition image_status (i : nat) : event :=
  StStatus ("Analyzing embedded image " ++ PyStr.of_nat (i + 1) ++ "...").

Definition image_warning (i : nat) (msg : string) : event :=
  StWarning ("Could not process embedded image " ++ PyStr.of_nat (i + 1)
               ++ ". It might be a non-standard format. Error: " ++ msg).

Definition api_error (msg : string) : event :=
  StError ("An error occurred with the Gemini API: " ++ msg).

(** A reply with both braces whose slice [json.loads] refuses. *)
Definition parse_failure (json_loads : string -> loads_result)
    (r : string) (msg : string) : Prop :=
  PyStr.find r "{"%char <> (-1)%Z /\
  PyStr.rfind r "}"%char <> (-1)%Z /\
  json_loads (PyStr.slice r (PyStr.find r "{"%char) (PyStr.rfind r "}"%char + 1))
    = DecodeError msg.

(** The exception that [json.loads] raises on the text between the braces
    of a reply and that [except json.JSONDecodeError] lets through, if
    any: [ValueError] or [RecursionError]. *)
Definition reply_escapes (json_loads : string -> loads_result)
    (r : string) : option exn :=
  if negb (PyStr.find r "{"%char =? -1)%Z
     && negb (PyStr.rfind r "}"%char =? -1)%Z
  then
    match json_loads (PyStr.slice r (PyStr.find r "{"%char)
                                  (PyStr.rfind r "}"%char + 1)) with
    | DigitsLimit msg => Some (ValueError msg)
    | NestingLimit msg => Some (RecursionError msg)
    | _ => None
    end
  else None.

(** The same for the reply to a page or to an embedded image: a failed
    call raises nothing. *)
Definition call_escapes (json_loads : string -> loads_result)
    (reply : api_result) : option exn :=
  match reply with
  | ApiText r => reply_escapes json_loads r
  | ApiFail _ => None
  end.

(** The concatenation of one section for every page [n], [n+1], ... *)
Fixpoint all_sections (str_of : py -> string) (n : nat)
    (fields : list (py * py)) : string :=
  match fields with
  | [] => ""
  | f :: fields' =>
      page_section str_of n (fst f) ++ all_sections str_of (S n) fields'
  end.

(** An entry derived from a model reply holds non-empty data. *)
Definition nonempty_if_model_derived (t : table_info) : Prop :=
  model_derived t = true -> truthy (data t) = true.

(** The reply of scenario A and the object it holds. *)
Definition scenario_reply : string :=
  (json_text "Here: {'text':'Hello','table':[['A','B'],['1','2']]} thanks").

Definition scenario_object : string :=
  (json_text "{'text':'Hello','table':[['A','B'],['1','2']]}").

Definition scenario_table : py :=
  PList [PList [PStr "A"; PStr "B"]; PList [PStr "1"; PStr "2"]].

(** Every table picked from an embedded image is non-empty. *)
Definition picks_nonempty (picks : list (option py)) : Prop :=
  Forall (fun o => match o with Some t => truthy t = true | None => True end)
         picks.


(** The frame pandas builds from rows of cells under given labels. *)
Definition frame_of_rows (labels : list py) (rs : list (list py)) : frame :=
  mk_frame labels (map (Pandas.pad (Pandas.width rs)) rs).

(** The frame pandas builds from rows of cells with no labels given. *)
Definition frame_of_data (rs : list (list py)) : frame :=
  frame_of_rows (Pandas.range_labels (Pandas.width rs)) rs.

(** A table whose data is a list of rows, each a list of cells. *)
Definition table_of_rows (t : table_info) (rs : list (list py)) : Prop :=
  exists rows, data t = PList rows /\ Pandas.as_rows rows = Some rs.

(** The download button of one CSV file and the warning of line 260. *)
Definition csv_download (to_csv : frame -> string) (t : table_info)
    (df : frame) : event :=
  StDownload ("Download '" ++ title t ++ "'") (to_csv df)
             (safe_filename t ++ ".csv") "text/csv".

Definition csv_warning (t : table_info) : event :=
  StWarning ("Could not generate CSV for '" ++ title t ++ "'.").

(** Every download button of an output carries the file name [name]. *)
Definition downloads_named (name : string) (evs : list event) : Prop :=
  Forall (fun ev => match ev with
                    | StDownload _ _ file_name _ => file_name = name
                    | _ => True
                    end) evs.

(** No download button in an output. *)
Definition no_download (evs : list event) : bool :=
  forallb (fun ev => match ev with StDownload _ _ _ _ => false | _ => true end)
          evs.

(** The sections the flat-text loop appends for tables of rows. *)
Fixpoint txt_sections (to_string : frame -> string) (ts : list table_info)
    (rss : list (list (list py))) : string :=
  match ts, rss with
  | t :: ts', rs :: rss' =>
      table_heading t ++ to_string (frame_of_data rs)
        ++ txt_sections to_string ts' rss'
  | _, _ => ""
  end.

(** The head of the flat-text document, line 234. *)
Definition txt_head (str_of : py -> string) (extracted_text : py) : string :=
  "Extracted Text" ++ nl ++ rule ++ nl
    ++ match extracted_text with PStr s => s | v => str_of v end.

(** Stand-ins for the library parameters in concrete runs: a model that
    replies with the text of the image it is shown, an [Image.open] that
    refuses the blob ["bad"], and serialisers that print nothing. *)
Definition echo_model : string -> image -> api_result :=
  fun _ img => ApiText img.

Definition open_unless_bad : blob -> string + image :=
  fun b => if String.eqb b "bad" then inl "cannot identify image file" else inr b.

Definition no_str : py -> string := fun _ => "".

Definition no_other : py -> option py -> exn + frame :=
  fun _ _ => inl (ValueError "shape outside the model").


(** A reply whose [table] field is a text, and the upload it answers. *)
Definition text_table_reply : string :=
  (json_text "{'text':'x','table':'abc'}").

Definition scan_png (img : image) : uploaded_file :=
  mk_upload "scan.png" img [] (mk_document [] [] []).

(** A two-page PDF whose second page has a table and an empty text. *)
Definition two_pages : list image :=
  [(json_text "{'text':'one'}"); (json_text "{'text':'','table':[['a']]}")].



(** ** Per-unit picks, read off the loops

    What one page or one embedded image contributes, as a function of the
    libraries' answers: the fields of its reply when the call succeeded
    and the reply parsed, nothing otherwise. *)

Section Picks.

Variable json_loads : string -> loads_result.
Variable generate_content : string -> image -> api_result.
Variable Image_open : blob -> string + image.
Variable str_of : py -> string.

(** The fields a reply contributes: none for a failed call, an empty
    reply, a reply without braces or one the parser raises on. *)
Definition reply_pick (reply : api_result) : option (py * py) :=
  match reply with
  | ApiText r =>
      if String.eqb r "" then None
      else match unit_fields json_loads r with
           | Ret (Some fields) => Some fields
           | _ => None
           end
  | ApiFail _ => None
  end.

Definition page_pick (prompt : string) (page : image) : option (py * py) :=
  reply_pick (generate_content prompt page).

(** The reply to a page settles: the call failed, or [json.loads] decodes
    the text between the braces of the reply or refuses it as JSON. *)
Definition settles (prompt : string) (page : image) : Prop :=
  call_escapes json_loads (generate_content prompt page) = None.

Definition image_pick (prompt : string) (part : blob) : option (py * py) :=
  match Image_open part with
  | inr img => reply_pick (generate_content prompt img)
  | inl _ => None
  end.

(** A value as an f-string prints it. *)
Definition shown (v : py) : string :=
  match v with
  | PStr s => s
  | _ => str_of v
  end.

(** The page sections of picks [n], [n+1], ...: a page that contributed
    nothing still takes its number. *)
Fixpoint picked_sections (n : nat) (picks : list (option (py * py))) : string :=
  match picks with
  | [] => ""
  | Some f :: picks' =>
      (if truthy (fst f)
       then nl ++ nl ++ "--- Page " ++ PyStr.of_nat (n + 1) ++ " ---" ++ nl
               ++ shown (fst f)
       else "")
        ++ picked_sections (S n) picks'
  | None :: picks' => picked_sections (S n) picks'
  end.

Fixpoint picked_entries (n : nat) (picks : list (option (py * py)))
  : list table_info :=
  match picks with
  | [] => []
  | Some f :: picks' =>
      ((if truthy (snd f)
        then [mk_table ("Table from Page " ++ PyStr.of_nat (n + 1)) (snd f)]
        else [])
         ++ picked_entries (S n) picks')%list
  | None :: picks' => picked_entries (S n) picks'
  end.

(** The text sections and the table entries of embedded images [i],
    [i+1], ... *)
Fixpoint picked_image_sections (i : nat) (picks : list (option (py * py)))
  : list string :=
  match picks with
  | [] => []
  | Some f :: picks' =>
      ((if truthy (fst f)
        then [(nl ++ "--- Text from Embedded Image " ++ PyStr.of_nat (i + 1)
                  ++ " ---" ++ nl ++ shown (fst f))%string]
        else [])
         ++ picked_image_sections (S i) picks')%list
  | None :: picks' => picked_image_sections (S i) picks'
  end.

Fixpoint picked_image_entries (i : nat) (picks : list (option (py * py)))
  : list table_info :=
  match picks with
  | [] => []
  | Some f :: picks' =>
      ((if truthy (snd f)
        then [mk_table ("Table from Embedded Image " ++ PyStr.of_nat (i + 1))
                       (snd f)]
        else [])
         ++ picked_image_entries (S i) picks')%list
  | None :: picks' => picked_image_entries (S i) picks'
  end.

Definition table_pick (pick : option (py * py)) : option py :=
  match pick with
  | Some f => if truthy (snd f) then Some (snd f) else None
  | None => None
  end.

(** What one turn of the PDF loop shows after its status line and call. *)
Definition page_message (prompt : string) (n : nat) (page : image)
  : list event :=
  match generate_content prompt page with
  | ApiFail msg => [api_error msg]
  | ApiText r =>
      if String.eqb r "" then []
      else match unit_fields json_loads r with
           | Raise _ => [page_warning n]
           | Ret _ => []
           end
  end.

(** The output of the PDF loop over pages [n], [n+1], ... *)
Fixpoint pages_output (prompt : string) (n : nat) (pages : list image)
  : list event :=
  match pages with
  | [] => []
  | page :: pages' =>
      (page_events prompt n page ++ page_message prompt n page
         ++ pages_output prompt (S n) pages')%list
  end.

(** The warnings of the PDF loop over pages [n], [n+1], ...: one for each
    page whose reply the parser raised on, with the number of the page. *)
Fixpoint failed_warnings (prompt : string) (n : nat) (pages : list image)
  : list event :=
  match pages with
  | [] => []
  | page :: pages' =>
      ((match generate_content prompt page with
        | ApiText r =>
            if String.eqb r "" then []
            else match unit_fields json_loads r with
                 | Raise _ => [page_warning n]
                 | Ret _ => []
                 end
        | ApiFail _ => []
        end) ++ failed_warnings prompt (S n) pages')%list
  end.

(** What one turn of the DOCX loop shows after its status line. *)
Definition image_message (prompt : string) (i : nat) (part : blob)
  : list event :=
  match Image_open part with
  | inl msg => [image_warning i msg]
  | inr img =>
      ApiCall prompt img
      :: match generate_content prompt img with
         | ApiFail msg => [api_error msg]
         | ApiText r =>
             if String.eqb r "" then []
             else match unit_fields json_loads r with
                  | Raise e => [image_warning i (exn_str e)]
                  | Ret _ => []
                  end
         end
  end.

(** The output of the DOCX loop over parts [i], [i+1], ... *)
Fixpoint images_output (prompt : string) (i : nat) (parts : list blob)
  : list event :=
  match parts with
  | [] => []
  | part :: parts' =>
      (image_status i :: image_message prompt i part
         ++ images_output prompt (S i) parts')%list
  end.

(** The bitmaps of the parts that [Image.open] accepts, in order. *)
Fixpoint opened_images (parts : list blob) : list image :=
  match parts with
  | [] => []
  | part :: parts' =>
      match Image_open part with
      | inr img => img :: opened_images parts'
      | inl _ => opened_images parts'
      end
  end.

End Picks.

(** The calls to the model API in an output, in order. *)
Definition calls_of (ui : list event) : list event :=
  filter (fun ev => match ev with ApiCall _ _ => true | _ => false end) ui.

(** The warnings in an output, in order. *)
Definition warnings_of (ui : list event) : list event :=
  filter (fun ev => match ev with StWarning _ => true | _ => false end) ui.

(** An upload under another name. *)
Definition rename (f : uploaded_file) (new_name : string) : uploaded_file :=
  mk_upload new_name (opened_image f) (opened_pdf f) (opened_docx f).



(** What the display loop and the CSV loop show for one table, taken
    alone. *)
Definition render_events (DataFrame_other : py -> option py -> exn + frame)
    (dataframe_refused : frame -> option exn)
    (t : table_info) : list event :=
  snd (render_table DataFrame_other dataframe_refused t "" []).

Definition csv_events (DataFrame_other : py -> option py -> exn + frame)
    (to_csv : frame -> string) (t : table_info) : list event :=
  snd (csv_table DataFrame_other to_csv t "" []).

(** The download buttons of an output. *)
Definition downloads_of (ui : list event) : list event :=
  filter (fun ev => match ev with StDownload _ _ _ _ => true | _ => false end) ui.

(** Every character of [s] satisfies [p]. *)
Fixpoint all_chars (p : ascii -> bool) (s : string) : bool :=
  match s with
  | EmptyString => true
  | String a s' => p a && all_chars p s'
  end.

(** A code point below 128. *)
Definition is_ascii (c : ascii) : bool := (nat_of_ascii c <? 128)%nat.

(** The file names of the CSV downloads of a table list. *)
Definition csv_names (ts : list table_info) : list string :=
  map (fun t => safe_filename t ++ ".csv") ts.

(** A list of names taken in increasing order of index from [n] on. *)
Inductive names_from (name : nat -> string) : nat -> list string -> Prop :=
| names_done (n : nat) : names_from name n []
| names_skip (n : nat) (l : list string) :
    names_from name (S n) l -> names_from name n l
| names_take (n : nat) (l : list string) :
    names_from name (S n) l -> names_from name n (name n :: l).

Definition page_csv_name (n : nat) : string :=
  "table_from_page_" ++ PyStr.of_nat (n + 1) ++ ".csv".

Definition native_csv_name (i : nat) : string :=
  "native_table_" ++ PyStr.of_nat (i + 1) ++ ".csv".

Definition image_csv_name (i : nat) : string :=
  "table_from_embedded_image_" ++ PyStr.of_nat (i + 1) ++ ".csv".

(** *** [list_available_models], lines 27-44 *)

(** A model as [genai.list_models()] yields it. *)
Record model_info : Type := mk_model {
  model_name : string;
  model_description : string;
  supported_generation_methods : list string
}.

(** ['generateContent' in m.supported_generation_methods] *)
Definition supports_generation (m : model_info) : bool :=
  mem_string "generateContent" (supported_generation_methods m).

(** [pd.DataFrame(models_list)] for the uniform dicts of line 36. *)
Definition models_frame (ms : list model_info) : frame :=
  mk_frame [PStr "Model Name"; PStr "Description"]
           (map (fun m => [PStr (model_name m); PStr (model_description m)]) ms).

(** [list_models] is what iterating [genai.list_models()] gives: the
    models, or the exception it raises; the table is shown after the
    loop, so an exception in mid-iteration shows the same as one at the
    start. *)
Definition list_available_models {V} (list_models : exn + list model_info)
  : M V unit :=
  try_except
    (emit (StInfo "Fetching available models...") ;;
     models <- match list_models with
               | inr ms => ret ms
               | inl e => raise e
               end ;;
     match filter supports_generation models with
     | [] =>
         emit (StWarning
                 "No models supporting 'generateContent' were found for your API key.")
     | models_list => emit (StDataframe (models_frame models_list))
     end)
    (fun _ => true)
    (fun e =>
       emit (StError ("Could not retrieve the model list: " ++ exn_str e))).

(** pandas builds, or refuses, the frame of the data of a table. *)
Definition frame_built (DataFrame_other : py -> option py -> exn + frame)
    (t : table_info) : Prop :=
  exists df, Pandas.DataFrame DataFrame_other (data t) None = inr df.

Definition frame_refused (DataFrame_other : py -> option py -> exn + frame)
    (t : table_info) : Prop :=
  exists e, Pandas.DataFrame DataFrame_other (data t) None = inl e.

(** Inputs of concrete runs: three pages whose middle reply is not
    JSON, an upload the dispatcher does not know, and a Word document of
    two paragraphs and two native tables without images. *)
Definition three_pages : list image :=
  [json_text "{'text':'one','table':[['a'],['b']]}";
   "{ bad }";
   json_text "{'text':'three','table':[['c']]}"].


Definition plain_docx : document :=
  mk_document ["Title"; "Body"] [[["A"; "B"]; ["1"; "2"]]; [["x"]]] [].

(** The places, counted from [i], of the units that yielded something:
    the numbers their entries carry. *)
Fixpoint positions {A : Type} (i : nat) (picks : list (option A)) : list nat :=
  match picks with
  | [] => []
  | Some _ :: picks' => i :: positions (S i) picks'
  | None :: picks' => positions (S i) picks'
  end.

(** What the units yielded, in order. *)
Fixpoint yielded {A : Type} (picks : list (option A)) : list A :=
  match picks with
  | [] => []
  | Some a :: picks' => a :: yielded picks'
  | None :: picks' => yielded picks'
  end.

(** A Word document with one native table and a hyperlink to a picture
    on the web: an external relationship whose address holds ["image"]. *)
Definition linked_docx : document :=
  mk_document ["See the picture."] [[["A"; "B"]; ["1"; "2"]]]
              [mk_rel "https://example.com/image.png" External].

(** Scenario C: one native table of two rows and one embedded image,
    whose reply, under [echo_model], is the blob itself. *)
Definition scenario_docx : document :=
  mk_document ["Report"] [[["A"; "B"]; ["1"; "2"]]]
    [mk_rel "media/image1.png"
            (Internal (json_text "{'text':'seen','table':[['x','y'],['3','4']]}"))].

(** A reply whose object holds an integer of 4301 digits. *)
Definition long_int_reply : string :=
  json_text "{'text':" ++ PyStr.repeat "1"%char 4301 ++ "}".

(** Printing stand-ins for concrete runs: a cell as its text; the rows
    of a frame one per line, the cells separated by a space
    ([grid_print]); the column labels and then the rows, one per line,
    the cells separated by a comma and an absent cell left empty
    ([csv_print]). *)
Definition cell_print (v : py) : string :=
  match v with
  | PStr s => s
  | PNone => "None"
  | PBool true => "True"
  | PBool false => "False"
  | PInt z => NilZero.string_of_int (Z.to_int z)
  | _ => "?"
  end.

Definition grid_print (df : frame) : string :=
  PyStr.join nl (map (fun r => PyStr.join " " (map cell_print r)) (rows df)).

Definition csv_line (cells : list py) : string :=
  PyStr.join "," (map (fun v => match v with PNone => "" | _ => cell_print v end)
                      cells) ++ nl.

Definition csv_print (df : frame) : string :=
  csv_line (columns df) ++ String.concat "" (map csv_line (rows df)).

(** The sections of the flat text for the native tables [i], [i+1],
    ...: three line feeds, the title, a rule of twenty [=], and the
    frame of the cell texts as [to_string] prints it. *)
Fixpoint native_sections (to_string : frame -> string) (i : nat)
    (ts : list (list (list string))) : string :=
  match ts with
  | [] => ""
  | t :: ts' =>
      let rows := map (map PStr) t in
      let w := Pandas.width rows in
      nl ++ nl ++ nl ++ "Native Table " ++ PyStr.of_nat (i + 1) ++ nl
         ++ "====================" ++ nl
         ++ to_string (mk_frame (map (fun k => PInt (Z.of_nat k)) (seq 0 w))
                                (map (Pandas.pad w) rows))
         ++ native_sections to_string (S i) ts'
  end.

(** An [st.dataframe] that shows every frame. *)
Definition shows_all : frame -> option exn := fun _ => None.


(** * Properties *)

(** ** Searching and slicing *)

Section StringFacts.

Variable c : ascii.

Lemma contains_app (s t : string) :
  PyStr.contains c (s ++ t) = PyStr.contains c s || PyStr.contains c t.
Proof.
  induction s as [|a s IH]; simpl; [reflexivity|].
  rewrite IH. now rewrite orb_assoc.
Qed.

Lemma find_from_absent (s : string) (i : Z) :
  PyStr.contains c s = false -> PyStr.find_from c s i = (-1)%Z.
Proof.
  revert i. induction s as [|a s IH]; simpl; intros i H; [reflexivity|].
  apply orb_false_iff in H as [Ha Hs]. rewrite Ha. now apply IH.
Qed.

Lemma find_from_present (s : string) (i : Z) :
  (0 <= i)%Z -> PyStr.contains c s = true -> (0 <= PyStr.find_from c s i)%Z.
Proof.
  revert i. induction s as [|a s IH]; simpl; intros i Hi H; [discriminate|].
  destruct (Ascii.eqb a c); [exact Hi|]. apply IH; [lia|exact H].
Qed.

Lemma find_from_first (pre rest : string) (i : Z) :
  PyStr.contains c pre = false ->
  PyStr.find_from c (pre ++ String c rest) i = (i + PyStr.len pre)%Z.
Proof.
  unfold PyStr.len. revert i.
  induction pre as [|a pre IH]; simpl String.length; intros i H.
  - simpl. rewrite Ascii.eqb_refl. lia.
  - simpl in H. apply orb_false_iff in H as [Ha Hp].
    simpl. rewrite Ha, IH by exact Hp. lia.
Qed.

Lemma rfind_from_absent (s : string) (i last : Z) :
  PyStr.contains c s = false -> PyStr.rfind_from c s i last = last.
Proof.
  revert i last. induction s as [|a s IH]; simpl; intros i last H; [reflexivity|].
  apply orb_false_iff in H as [Ha Hs]. rewrite Ha. now apply IH.
Qed.

Lemma rfind_from_present (s : string) (i last : Z) :
  (0 <= i)%Z -> PyStr.contains c s = true ->
  (0 <= PyStr.rfind_from c s i last)%Z.
Proof.
  revert i last. induction s as [|a s IH]; simpl; intros i last Hi H;
    [discriminate|].
  destruct (PyStr.contains c s) eqn:Hs.
  - apply IH; [lia|reflexivity].
  - rewrite orb_false_r in H. rewrite H.
    rewrite rfind_from_absent by exact Hs. exact Hi.
Qed.

Lemma rfind_from_last (pre post : string) (i last : Z) :
  PyStr.contains c post = false ->
  PyStr.rfind_from c (pre ++ String c post) i last = (i + PyStr.len pre)%Z.
Proof.
  unfold PyStr.len. revert i last.
  induction pre as [|a pre IH]; simpl String.length; intros i last H.
  - simpl. rewrite Ascii.eqb_refl, rfind_from_absent by exact H. lia.
  - simpl. rewrite IH by exact H. lia.
Qed.

End StringFacts.

(** [find] answers [-1] exactly when the character does not occur. *)
Lemma find_minus_one (s : string) (c : ascii) :
  PyStr.find s c = (-1)%Z <-> PyStr.contains c s = false.
Proof.
  unfold PyStr.find. split.
  - destruct (PyStr.contains c s) eqn:H; [|reflexivity].
    pose proof (find_from_present c s 0 ltac:(lia) H). lia.
  - apply find_from_absent.
Qed.

Lemma rfind_minus_one (s : string) (c : ascii) :
  PyStr.rfind s c = (-1)%Z <-> PyStr.contains c s = false.
Proof.
  unfold PyStr.rfind. split.
  - destruct (PyStr.contains c s) eqn:H; [|reflexivity].
    pose proof (rfind_from_present c s 0 (-1) ltac:(lia) H). lia.
  - apply rfind_from_absent.
Qed.

Lemma string_app_nil_r (s : string) : s ++ "" = s.
Proof. induction s; simpl; [reflexivity|]. now rewrite IHs. Qed.

Lemma string_app_assoc (s t u : string) : (s ++ t) ++ u = s ++ t ++ u.
Proof. induction s; simpl; [reflexivity|]. now rewrite IHs. Qed.

Lemma string_length_app (s t : string) :
  String.length (s ++ t) = (String.length s + String.length t)%nat.
Proof. induction s; simpl; [reflexivity|]. now rewrite IHs. Qed.

Lemma substring_middle (pre x post : string) :
  substring (String.length pre) (String.length x) (pre ++ x ++ post) = x.
Proof.
  induction pre as [|a pre IH]; simpl; [|exact IH].
  induction x as [|b x IHx]; simpl.
  - destruct post; reflexivity.
  - now rewrite IHx.
Qed.

(** A slice whose bounds lie inside the text is the text between them. *)
Lemma slice_middle (pre x post : string) :
  PyStr.slice (pre ++ x ++ post)
              (PyStr.len pre) (PyStr.len pre + PyStr.len x) = x.
Proof.
  unfold PyStr.slice, PyStr.norm_index, PyStr.len.
  rewrite !string_length_app.
  set (p := String.length pre). set (n := String.length x).
  set (q := String.length post).
  replace ((Z.of_nat p <? 0)%Z) with false by (symmetry; apply Z.ltb_ge; lia).
  replace ((Z.of_nat p + Z.of_nat n <? 0)%Z) with false
    by (symmetry; apply Z.ltb_ge; lia).
  rewrite !Z.min_l by lia.
  replace (Z.to_nat (Z.of_nat p + Z.of_nat n - Z.of_nat p)) with n by lia.
  rewrite Nat2Z.id. apply substring_middle.
Qed.

(** The text from the first [{] to the last [}], as the parser cuts it. *)
Lemma braces_slice (pre mid post : string) :
  PyStr.contains "{"%char pre = false ->
  PyStr.contains "}"%char post = false ->
  let s := pre ++ String "{"%char mid ++ String "}"%char post in
  PyStr.find s "{"%char = PyStr.len pre /\
  PyStr.rfind s "}"%char = (PyStr.len pre + PyStr.len mid + 1)%Z /\
  PyStr.slice s (PyStr.find s "{"%char) (PyStr.rfind s "}"%char + 1)
    = String "{"%char mid ++ "}".
Proof.
  intros Hpre Hpost s.
  assert (Hf : PyStr.find s "{"%char = PyStr.len pre).
  { unfold PyStr.find, s.
    change (String "{"%char mid ++ String "}"%char post)
      with (String "{"%char (mid ++ String "}"%char post)).
    rewrite find_from_first by exact Hpre. lia. }
  assert (Hr : PyStr.rfind s "}"%char = (PyStr.len pre + PyStr.len mid + 1)%Z).
  { unfold PyStr.rfind, s.
    replace (pre ++ String "{"%char mid ++ String "}"%char post)
      with ((pre ++ String "{"%char mid) ++ String "}"%char post).
    - rewrite rfind_from_last by exact Hpost.
      unfold PyStr.len. rewrite string_length_app. simpl String.length. lia.
    - clear. induction pre; simpl; [reflexivity|]. now rewrite IHpre. }
  split; [exact Hf|]. split; [exact Hr|].
  rewrite Hf, Hr.
  replace s with (pre ++ (String "{"%char mid ++ "}") ++ post).
  - replace (PyStr.len pre + PyStr.len mid + 1 + 1)%Z
      with (PyStr.len pre + PyStr.len (String "{"%char mid ++ "}"))%Z.
    + apply slice_middle.
    + unfold PyStr.len. simpl String.length. rewrite string_length_app.
      simpl String.length. lia.
  - unfold s. f_equal. simpl. f_equal.
    clear. induction mid; simpl; [reflexivity|]. now rewrite IHmid.
Qed.

(** ** The response parser *)

Ltac run_monad :=
  unfold when, if_text, try_except, call, modify, get_locals, emit, raise,
    bind, ret in *;
  cbn beta iota in *.

Lemma len_nonneg (s : string) : (0 <= PyStr.len s)%Z.
Proof. unfold PyStr.len. lia. Qed.

Lemma braces_found (pre mid post : string) :
  PyStr.contains "{"%char pre = false ->
  PyStr.contains "}"%char post = false ->
  let s := pre ++ String "{"%char mid ++ String "}"%char post in
  negb (PyStr.find s "{"%char =? -1)%Z && negb (PyStr.rfind s "}"%char =? -1)%Z
    = true.
Proof.
  intros Hpre Hpost s.
  destruct (braces_slice pre mid post Hpre Hpost) as (Hf & Hr & _).
  fold s in Hf, Hr. rewrite Hf, Hr.
  pose proof (len_nonneg pre). pose proof (len_nonneg mid).
  apply andb_true_iff. split; apply negb_true_iff, Z.eqb_neq; lia.
Qed.

Lemma braces_missing (s : string) :
  PyStr.contains "{"%char s = false \/ PyStr.contains "}"%char s = false ->
  negb (PyStr.find s "{"%char =? -1)%Z && negb (PyStr.rfind s "}"%char =? -1)%Z
    = false.
Proof.
  intros [H|H].
  - apply find_minus_one in H. rewrite H. reflexivity.
  - apply rfind_minus_one in H. rewrite H. apply andb_false_r.
Qed.

Lemma text_nonempty (pre rest : string) (c : ascii) :
  negb (String.eqb (pre ++ String c rest) "") = true.
Proof. destruct pre; reflexivity. Qed.

(** C1. For every reply that holds a well-formed JSON object between its
    first [{] and its last [}] (no [{] before it, no [}] after it, and
    [json.loads] decodes the text between them to a dict), the parser of
    the PDF and DOCX paths returns the dict's [text] entry, [""] when
    absent, and its [table] entry, [[]] when absent; the image branch of
    [main] stores the same [text] entry as the result text and wraps the
    [table] entry, when there is a non-empty one, as the one table of the
    result. *)
Theorem response_parser_returns_fields
    (json_loads : string -> loads_result)
    (generate_content : string -> image -> api_result)
    (pre mid post : string) (d : list (string * py)) :
  PyStr.contains "{"%char pre = false ->
  PyStr.contains "}"%char post = false ->
  json_loads (String "{"%char mid ++ "}") = Decoded (PDict d) ->
  let s := pre ++ String "{"%char mid ++ String "}"%char post in
  (forall (V : Type) (v : V) (ui : list event),
      parse_response json_loads s v ui
      = (Ret (Some (dict_get d "text" (PStr ""), dict_get d "table" (PList []))),
         v, ui))
  /\ (forall (f : uploaded_file) (v : main_locals) (ui : list event),
      generate_content prompt_template (opened_image f) = ApiText s ->
      main_image json_loads generate_content f v ui
      = (Ret tt,
         mk_main (dict_get d "text" (PStr ""))
                 (if truthy (dict_get d "table" PNone)
                  then [mk_table "Table from Image" (dict_get d "table" PNone)]
                  else table_result v),
         (ui ++ [ApiCall prompt_template (opened_image f)])%list)).
Proof.
  intros Hpre Hpost Hjson s.
  pose proof (braces_found pre mid post Hpre Hpost) as Hb.
  destruct (braces_slice pre mid post Hpre Hpost) as (_ & _ & Hs).
  assert (Hne : negb (String.eqb s "") = true) by apply text_nonempty.
  fold s in Hb, Hs. clearbody s. split.
  - intros V v ui. unfold parse_response. rewrite Hb, Hs.
    unfold loads. rewrite Hjson. reflexivity.
  - intros f v ui Hapi. unfold main_image, get_gemini_response.
    run_monad. rewrite Hapi. cbn beta iota.
    rewrite Hne, Hb, Hs. unfold loads. rewrite Hjson. cbn.
    destruct v as [t0 tr0]; cbn.
    destruct (truthy (dict_get d "table" PNone)); reflexivity.
Qed.

(** C4. For every reply with no [{] or no [}], the parser returns
    nothing and raises nothing, and the image branch of [main] leaves the
    result at its initial empty text and empty table list, with no
    message shown. *)
Theorem response_parser_no_braces
    (json_loads : string -> loads_result)
    (generate_content : string -> image -> api_result)
    (s : string) :
  PyStr.contains "{"%char s = false \/ PyStr.contains "}"%char s = false ->
  (forall (V : Type) (v : V) (ui : list event),
      parse_response json_loads s v ui = (Ret None, v, ui))
  /\ (forall (f : uploaded_file) (ui : list event),
      generate_content prompt_template (opened_image f) = ApiText s ->
      main_image json_loads generate_content f (mk_main (PStr "") []) ui
      = (Ret tt, mk_main (PStr "") [],
         (ui ++ [ApiCall prompt_template (opened_image f)])%list)).
Proof.
  intros H. pose proof (braces_missing s H) as Hb. split.
  - intros V v ui. unfold parse_response. rewrite Hb. reflexivity.
  - intros f ui Hapi. unfold main_image, get_gemini_response.
    run_monad. rewrite Hapi. cbn beta iota.
    destruct (negb (s =? "")); [|reflexivity].
    rewrite Hb. reflexivity.
Qed.

(** ** One turn of the extraction loops *)

Section Turns.

Variable json_loads : string -> loads_result.
Variable generate_content : string -> image -> api_result.
Variable Image_open : blob -> string + image.
Variable str_of : py -> string.

Lemma parse_response_pure (V : Type) (r : string) (v : V) (ui : list event) :
  parse_response json_loads r v ui = (unit_fields json_loads r, v, ui).
Proof.
  unfold unit_fields, parse_response, loads, get. run_monad.
  destruct (negb (PyStr.find r "{"%char =? -1)%Z
            && negb (PyStr.rfind r "}"%char =? -1)%Z); [|reflexivity].
  destruct (json_loads _) as [data|msg|msg|msg]; [|reflexivity..].
  destruct data; reflexivity.
Qed.

(** A page that does not render stops the loop after its status line. *)
Lemma pdf_page_unrendered (prompt : string) (n : nat) (e : exn)
    (v : pdf_locals) (ui : list event) :
  pdf_page json_loads generate_content str_of prompt n (RenderError e) v ui
  = (Raise e, v,
     (ui ++ [StStatus ("Analyzing page " ++ PyStr.of_nat (n + 1) ++ "...")])%list).
Proof. reflexivity. Qed.

(** Every way a turn of the PDF loop can go on a page that renders. *)
Lemma pdf_page_run (prompt : string) (n : nat) (page : image)
    (v : pdf_locals) (ui : list event) :
  pdf_page json_loads generate_content str_of prompt n (Rendered page) v ui =
  match generate_content prompt page with
  | ApiFail msg =>
      (Ret tt, v,
       (ui ++ page_events prompt n page
           ++ [StError ("An error occurred with the Gemini API: " ++ msg)])%list)
  | ApiText r =>
      if String.eqb r "" then (Ret tt, v, (ui ++ page_events prompt n page)%list)
      else
        match unit_fields json_loads r with
        | Ret (Some fields) =>
            (Ret tt, add_page str_of n fields v,
             (ui ++ page_events prompt n page)%list)
        | Ret None => (Ret tt, v, (ui ++ page_events prompt n page)%list)
        | Raise e =>
            if is_JSONDecodeError e
            then (Ret tt, v,
                  (ui ++ page_events prompt n page ++ [page_warning n])%list)
            else (Raise e, v, (ui ++ page_events prompt n page)%list)
        end
  end.
Proof.
  unfold pdf_page, rasterise, get_gemini_response, page_events, page_warning.
  run_monad.
  destruct (generate_content prompt page) as [r|msg]; cbn beta iota.
  - rewrite <- !app_assoc. cbn [app].
    destruct (String.eqb r ""); cbn [negb]; unfold when; cbn beta iota;
      [reflexivity|].
    rewrite parse_response_pure.
    destruct (unit_fields json_loads r) as [[[t b]|]|e]; cbn beta iota.
    + unfold add_page. destruct v as [txt tbl].
      cbn [fst snd aggregated_text aggregated_tables].
      destruct (truthy t), (truthy b);
        cbn [fst snd aggregated_text aggregated_tables];
        rewrite ?app_nil_r, ?string_app_nil_r; reflexivity.
    + reflexivity.
    + destruct (is_JSONDecodeError e); [|reflexivity].
      rewrite <- !app_assoc. reflexivity.
  - rewrite <- !app_assoc. reflexivity.
Qed.

(** Every way a turn of the DOCX loop can go. *)
Lemma docx_image_run (prompt : string) (i : nat) (part : blob)
    (v : docx_locals) (ui : list event) :
  docx_image json_loads generate_content Image_open str_of prompt i part v ui =
  match Image_open part with
  | inl msg => (Ret tt, v, (ui ++ [image_status i; image_warning i msg])%list)
  | inr img =>
      match generate_content prompt img with
      | ApiFail msg =>
          (Ret tt, v,
           (ui ++ [image_status i; ApiCall prompt img;
                   StError ("An error occurred with the Gemini API: " ++ msg)])%list)
      | ApiText r =>
          if String.eqb r ""
          then (Ret tt, v, (ui ++ [image_status i; ApiCall prompt img])%list)
          else
            match unit_fields json_loads r with
            | Ret (Some fields) =>
                (Ret tt, add_image str_of i fields v,
                 (ui ++ [image_status i; ApiCall prompt img])%list)
            | Ret None =>
                (Ret tt, v, (ui ++ [image_status i; ApiCall prompt img])%list)
            | Raise e =>
                (Ret tt, v,
                 (ui ++ [image_status i; ApiCall prompt img;
                         image_warning i (exn_str e)])%list)
            end
      end
  end.
Proof.
  unfold docx_image, get_gemini_response, image_status, image_warning.
  run_monad.
  destruct (Image_open part) as [msg|img]; cbn beta iota.
  - rewrite <- !app_assoc. reflexivity.
  - destruct (generate_content prompt img) as [r|msg]; cbn beta iota.
    + rewrite <- !app_assoc. cbn [app].
      destruct (String.eqb r ""); cbn [negb]; unfold when; cbn beta iota;
        [reflexivity|].
      rewrite parse_response_pure.
      destruct (unit_fields json_loads r) as [[[t b]|]|e]; cbn beta iota.
      * unfold add_image. destruct v as [txt tbl].
        cbn [fst snd full_text all_tables_data].
        destruct (truthy t), (truthy b);
          cbn [fst snd full_text all_tables_data];
          rewrite ?app_nil_r; reflexivity.
      * reflexivity.
      * rewrite <- !app_assoc. reflexivity.
    + rewrite <- !app_assoc. reflexivity.
Qed.

End Turns.

(** ** Whole documents *)

Lemma for_enumerate_cons {V X} (n : nat) (x : X) (xs : list X)
    (body : nat -> X -> M V unit) (v : V) (ui : list event) :
  for_enumerate n (x :: xs) body v ui =
  match body n x v ui with
  | (Ret _, v', ui') => for_enumerate (S n) xs body v' ui'
  | (Raise e, v', ui') => (Raise e, v', ui')
  end.
Proof.
  cbn [for_enumerate]. unfold bind.
  destruct (body n x v ui) as [[[[]|e] v'] ui']; reflexivity.
Qed.

(** An invariant of the locals that every turn keeps is kept by the loop,
    however the loop ends. *)
Lemma for_enumerate_invariant {V X} (P : V -> Prop)
    (body : nat -> X -> M V unit) :
  (forall n x v ui, P v -> P (snd (fst (body n x v ui)))) ->
  forall xs n v ui, P v -> P (snd (fst (for_enumerate n xs body v ui))).
Proof.
  intros Hbody xs. induction xs as [|x xs IH]; intros n v ui Hv.
  - exact Hv.
  - rewrite for_enumerate_cons. specialize (Hbody n x v ui Hv).
    destruct (body n x v ui) as [[[[]|e] v'] ui']; cbn [fst snd] in *.
    + apply IH. exact Hbody.
    + exact Hbody.
Qed.

Section Documents.

Variable json_loads : string -> loads_result.
Variable generate_content : string -> image -> api_result.
Variable Image_open : blob -> string + image.
Variable str_of : py -> string.

Lemma valid_reply_fields (r : string) (fields : py * py) :
  valid_reply json_loads r fields ->
  negb (String.eqb r "") = true /\
  unit_fields json_loads r = Ret (Some fields).
Proof.
  intros (pre & mid & post & d & Hpre & Hpost & -> & Hjson & ->).
  split; [apply text_nonempty|].
  unfold unit_fields, parse_response.
  rewrite (braces_found pre mid post Hpre Hpost).
  destruct (braces_slice pre mid post Hpre Hpost) as (_ & _ & Hs).
  cbv zeta in Hs. rewrite Hs. unfold loads. rewrite Hjson. reflexivity.
Qed.

(** The PDF loop over pages that all yield a valid reply. *)
Lemma pdf_loop_valid (prompt : string) (pages : list image)
    (fields : list (py * py)) :
  Forall2 (fun page f =>
             exists r, generate_content prompt page = ApiText r
                       /\ valid_reply json_loads r f) pages fields ->
  forall (n : nat) (v : pdf_locals) (ui : list event),
  exists ui',
    for_enumerate n (map Rendered pages)
                  (pdf_page json_loads generate_content str_of prompt) v ui
    = (Ret tt,
       mk_pdf (aggregated_text v ++ pdf_sections str_of n fields)
              (aggregated_tables v ++ pdf_entries n fields),
       ui').
Proof.
  induction 1 as [|page f pages fields (r & Hapi & Hvalid) _ IH];
    intros n v ui.
  - exists ui. cbn. rewrite string_app_nil_r, app_nil_r.
    destruct v; reflexivity.
  - cbn [map]. rewrite for_enumerate_cons, pdf_page_run, Hapi.
    destruct (valid_reply_fields r f Hvalid) as [Hne Hf].
    apply negb_true_iff in Hne. rewrite Hne, Hf.
    destruct (IH (S n) (add_page str_of n f v)
                 (ui ++ page_events prompt n page)%list) as [ui' ->].
    exists ui'. unfold add_page.
    cbn [aggregated_text aggregated_tables pdf_sections pdf_entries].
    now rewrite string_app_assoc, <- app_assoc.
Qed.

End Documents.

(** ** What a decoder of objects guarantees *)

Lemma find_from_split (c : ascii) (s : string) (k : Z) :
  PyStr.find_from c s k <> (-1)%Z -> (0 <= k)%Z ->
  exists pre rest,
    s = pre ++ String c rest /\ PyStr.contains c pre = false /\
    PyStr.find_from c s k = (k + PyStr.len pre)%Z.
Proof.
  revert k. induction s as [|a s IH]; intros k H Hk; simpl in H.
  - congruence.
  - destruct (Ascii.eqb a c) eqn:Ha.
    + apply Ascii.eqb_eq in Ha. subst a. exists "", s. simpl.
      rewrite Ascii.eqb_refl. unfold PyStr.len. simpl. repeat split. lia.
    + destruct (IH (k + 1)%Z H ltac:(lia)) as (pre & rest & -> & Hpre & Hf).
      exists (String a pre), rest. simpl. rewrite Ha, Hpre, Hf.
      unfold PyStr.len. simpl String.length. repeat split. lia.
Qed.

Lemma substring_skip (pre t : string) (n : nat) :
  substring (String.length pre) n (pre ++ t) = substring 0 n t.
Proof. induction pre; simpl; [reflexivity|exact IHpre]. Qed.

(** The slice taken from the index [find] answers is empty or opens with
    the character searched. *)
Lemma slice_at_find (s : string) (c : ascii) (b : Z) :
  PyStr.find s c <> (-1)%Z ->
  PyStr.slice s (PyStr.find s c) b = ""
  \/ exists rest, PyStr.slice s (PyStr.find s c) b = String c rest.
Proof.
  intros H. unfold PyStr.find in *.
  destruct (find_from_split c s 0 H ltac:(lia)) as (pre & rest & -> & _ & ->).
  unfold PyStr.slice. set (n := PyStr.len (pre ++ String c rest)).
  assert (Hn : (PyStr.len pre < n)%Z).
  { unfold n, PyStr.len. rewrite string_length_app. simpl String.length. lia. }
  pose proof (len_nonneg pre) as Hp.
  replace (PyStr.norm_index n (0 + PyStr.len pre)) with (PyStr.len pre).
  2:{ unfold PyStr.norm_index.
      replace ((0 + PyStr.len pre <? 0)%Z) with false
        by (symmetry; apply Z.ltb_ge; lia).
      lia. }
  replace (Z.to_nat (PyStr.len pre)) with (String.length pre)
    by (unfold PyStr.len; lia).
  rewrite substring_skip.
  destruct (Z.to_nat _) as [|m]; simpl.
  - left. reflexivity.
  - right. eexists. reflexivity.
Qed.

Section DecoderLaw.

Variable json_loads : string -> loads_result.
Hypothesis json_loads_objects : decodes_objects json_loads.

(** With a decoder of objects what the parser raises is what
    [json.loads] raised: what it decodes is a dict, so [get] applies. An
    exception that is not a [JSONDecodeError] is the one
    [reply_escapes] tells. *)
Lemma unit_fields_raise (r : string) (e : exn) :
  unit_fields json_loads r = Raise e ->
  if is_JSONDecodeError e then reply_escapes json_loads r = None
  else reply_escapes json_loads r = Some e.
Proof.
  destruct json_loads_objects as [Hobj Hempty].
  unfold reply_escapes, unit_fields, parse_response, loads, get. run_monad.
  destruct (negb (PyStr.find r "{"%char =? -1)%Z
            && negb (PyStr.rfind r "}"%char =? -1)%Z) eqn:Hb; [|discriminate].
  apply andb_true_iff in Hb as [Hf _].
  apply negb_true_iff, Z.eqb_neq in Hf.
  destruct (slice_at_find r "{"%char (PyStr.rfind r "}"%char + 1) Hf)
    as [Hs|[rest Hs]]; rewrite Hs.
  - destruct (json_loads "") as [v|msg|msg|msg] eqn:Hj;
      [exfalso; exact (Hempty v eq_refl)|..];
      cbn; intros [= <-]; reflexivity.
  - destruct (json_loads (String "{"%char rest)) as [v|msg|msg|msg] eqn:Hj;
      [destruct (Hobj rest v Hj) as [d ->]; cbn; discriminate|..];
      cbn; intros [= <-]; reflexivity.
Qed.

(** A reply that escapes makes the parser raise that exception. *)
Lemma reply_escapes_raise (r : string) (e : exn) :
  reply_escapes json_loads r = Some e ->
  unit_fields json_loads r = Raise e /\ is_JSONDecodeError e = false.
Proof.
  unfold reply_escapes, unit_fields, parse_response, loads. run_monad.
  destruct (negb (PyStr.find r "{"%char =? -1)%Z
            && negb (PyStr.rfind r "}"%char =? -1)%Z); [|discriminate].
  destruct (json_loads _) as [v|msg|msg|msg]; try discriminate;
    intros [= <-]; split; reflexivity.
Qed.

(** A reply that does not escape leaves the parser with a result or a
    [JSONDecodeError]. *)
Lemma unit_fields_caught (r : string) (e : exn) :
  reply_escapes json_loads r = None ->
  unit_fields json_loads r = Raise e -> is_JSONDecodeError e = true.
Proof.
  intros Hnone Hraise. pose proof (unit_fields_raise r e Hraise) as H.
  destruct (is_JSONDecodeError e); [reflexivity|congruence].
Qed.

End DecoderLaw.

(** ** The reference decoder is a decoder of objects *)

Lemma JsonRef_value_object (fuel : nat) (s : string) (v : py) (rest : string) :
  JsonRef.value fuel (String "{"%char s) = JsonRef.Got v rest ->
  exists d, v = PDict d.
Proof.
  destruct fuel as [|f]; [discriminate|].
  cbn [JsonRef.value].
  change (Ascii.eqb "{"%char "034"%char) with false.
  change (Ascii.eqb "{"%char "{"%char) with true. cbn iota.
  destruct (JsonRef.skip_ws s) as [|[[] [] [] [] [] [] [] []] s1];
    try (destruct (JsonRef.members f _ []) as [d r| |k]);
    try discriminate; intros [= <- _]; eauto.
Qed.

Lemma JsonRef_decodes_objects : decodes_objects JsonRef.loads.
Proof.
  split.
  - intros s v. unfold JsonRef.loads.
    change (JsonRef.skip_ws (String "{"%char s)) with (String "{"%char s).
    destruct (JsonRef.value _ (String "{"%char s)) as [v' rest| |k] eqn:Hv;
      [|discriminate..].
    destruct (JsonRef_value_object _ _ _ _ Hv) as [d ->].
    destruct (JsonRef.skip_ws rest); [|discriminate].
    intros [= <-]. eauto.
  - intros v. discriminate.
Qed.

(** ** Loops over whole documents *)

Section Loops.

Variable json_loads : string -> loads_result.
Variable generate_content : string -> image -> api_result.
Variable Image_open : blob -> string + image.
Variable str_of : py -> string.

(** The DOCX loop always runs to its end; what it appends to the table
    list is one entry for each image that yielded a non-empty table, in
    enumeration order, numbered by the image. *)
Lemma docx_loop_tables (prompt : string) (parts : list blob) :
  forall (i : nat) (v : docx_locals) (ui : list event),
  exists (picks : list (option py)) (txt : list string) (ui' : list event),
    for_enumerate i parts
      (docx_image json_loads generate_content Image_open str_of prompt) v ui
    = (Ret tt, mk_docx txt (all_tables_data v ++ image_entries i picks), ui')
    /\ List.length picks = List.length parts
    /\ picks_nonempty picks.
Proof.
  induction parts as [|part parts IH]; intros i v ui.
  - exists [], (full_text v), ui. cbn. rewrite app_nil_r.
    destruct v; repeat split. constructor.
  - rewrite for_enumerate_cons, docx_image_run.
    assert (Hskip : forall ui1,
      exists picks txt ui',
        for_enumerate (S i) parts
          (docx_image json_loads generate_content Image_open str_of prompt)
          v ui1
        = (Ret tt, mk_docx txt (all_tables_data v ++ image_entries i picks), ui')
        /\ List.length picks = List.length (part :: parts)
        /\ picks_nonempty picks).
    { intros ui1. destruct (IH (S i) v ui1) as (picks & txt & ui' & -> & Hl & Hp).
      exists (None :: picks), txt, ui'. cbn. repeat split.
      - now rewrite Hl.
      - constructor; [exact I|exact Hp]. }
    destruct (Image_open part) as [msg|img]; [apply Hskip|].
    destruct (generate_content prompt img) as [r|msg]; [|apply Hskip].
    destruct (String.eqb r ""); [apply Hskip|].
    destruct (unit_fields json_loads r) as [[[t b]|]|e];
      [|apply Hskip|apply Hskip].
    destruct (IH (S i) (add_image str_of i (t, b) v)
                 (ui ++ [image_status i; ApiCall prompt img])%list)
      as (picks & txt & ui' & -> & Hl & Hp).
    unfold add_image. cbn [fst snd all_tables_data].
    destruct (truthy b) eqn:Hb.
    + exists (Some b :: picks), txt, ui'. cbn. repeat split.
      * now rewrite <- app_assoc.
      * now rewrite Hl.
      * constructor; [exact Hb|exact Hp].
    + exists (None :: picks), txt, ui'. cbn. rewrite app_nil_r. repeat split.
      * now rewrite Hl.
      * constructor; [exact I|exact Hp].
Qed.


(** Every turn of the PDF loop keeps the table list free of empty
    model-derived entries. *)
Lemma pdf_page_keeps (P : table_info -> Prop) (prompt : string) :
  (forall n t, truthy t = true -> P (page_table_entry n t)) ->
  forall n page v ui,
    Forall P (aggregated_tables v) ->
    Forall P (aggregated_tables
                (snd (fst (pdf_page json_loads generate_content str_of
                                    prompt n page v ui)))).
Proof.
  intros HP n [page|e] v ui Hv; [|exact Hv]. rewrite pdf_page_run.
  destruct (generate_content prompt page) as [r|msg]; [|exact Hv].
  destruct (String.eqb r ""); [exact Hv|].
  destruct (unit_fields json_loads r) as [[[t b]|]|e]; cbn [fst snd].
  - unfold add_page. cbn [fst snd aggregated_tables].
    apply Forall_app. split; [exact Hv|].
    destruct (truthy b) eqn:Hb; constructor; [now apply HP|constructor].
  - exact Hv.
  - destruct (is_JSONDecodeError e); exact Hv.
Qed.

End Loops.

(** ** The image branch of [main] *)

Lemma dict_get_default (d : list (string * py)) (k : string) (a b : py) :
  dict_get d k a = dict_get d k b
  \/ (dict_get d k a = a /\ dict_get d k b = b).
Proof.
  induction d as [|[k' x] d IH]; cbn.
  - right. split; reflexivity.
  - destruct (String.eqb k' k); [left; reflexivity|exact IH].
Qed.

Section ImageBranch.

Variable json_loads : string -> loads_result.
Variable generate_content : string -> image -> api_result.

(** Every way the image branch can go. *)
Lemma main_image_run (f : uploaded_file) (v : main_locals) (ui : list event) :
  main_image json_loads generate_content f v ui =
  let call := ApiCall prompt_template (opened_image f) in
  match generate_content prompt_template (opened_image f) with
  | ApiFail msg => (Ret tt, v, (ui ++ [call; api_error msg])%list)
  | ApiText r =>
      if String.eqb r "" then (Ret tt, v, (ui ++ [call])%list)
      else
        match unit_fields json_loads r with
        | Ret (Some fields) =>
            (Ret tt,
             mk_main (fst fields)
                     (if truthy (snd fields)
                      then [mk_table "Table from Image" (snd fields)]
                      else table_result v),
             (ui ++ [call])%list)
        | Ret None => (Ret tt, v, (ui ++ [call])%list)
        | Raise e =>
            if is_JSONDecodeError e
            then (Ret tt, v,
                  (ui ++ [call; StError "Failed to decode JSON from API."])%list)
            else (Raise e, v, (ui ++ [call])%list)
        end
  end.
Proof.
  unfold main_image, get_gemini_response, api_error. run_monad.
  destruct (generate_content prompt_template (opened_image f)) as [r|msg];
    cbn beta iota; [|now rewrite <- app_assoc].
  destruct (String.eqb r ""); cbn [negb]; unfold when; cbn beta iota;
    [reflexivity|].
  unfold unit_fields, parse_response, loads, get. run_monad.
  destruct (negb (PyStr.find r "{"%char =? -1)%Z
            && negb (PyStr.rfind r "}"%char =? -1)%Z); [|reflexivity].
  destruct (json_loads _) as [data|msg|msg|msg]; cbn beta iota;
    [|now rewrite <- app_assoc|reflexivity..].
  destruct data; cbn; try reflexivity.
  destruct v as [t0 tr0]. cbn.
  destruct (dict_get_default d "table" PNone (PList [])) as [->|[H1 H2]].
  - destruct (truthy (dict_get d "table" (PList []))); reflexivity.
  - rewrite H1, H2. reflexivity.
Qed.

End ImageBranch.

(** ** Whole-document properties of the extractors *)

Lemma pdf_sections_all (str_of : py -> string) (fields : list (py * py)) :
  Forall (fun f => truthy (fst f) = true) fields ->
  forall n, pdf_sections str_of n fields = all_sections str_of n fields.
Proof.
  induction 1 as [|f fields Hf _ IH]; intros n; cbn; [reflexivity|].
  now rewrite Hf, IH.
Qed.

Lemma pdf_entries_length (fields : list (py * py)) (n : nat) :
  List.length (pdf_entries n fields)
  = List.length (filter (fun f => truthy (snd f)) fields).
Proof.
  revert n. induction fields as [|f fields IH]; intros n; cbn; [reflexivity|].
  rewrite List.length_app, IH. destruct (truthy (snd f)); reflexivity.
Qed.

(** C2, as amended. For a PDF whose pages all get a reply that holds a
    well-formed JSON object, the extractor returns: as text, one section
    labelled with the 1-indexed page number for each page whose [text]
    field is non-empty, in page order (so one section per page, N in all,
    when no page has an empty text); as tables, one entry titled
    ["Table from Page N"] for each page whose [table] field is non-empty,
    numbered by the page, in page order. *)
Theorem pdf_aggregate_of_valid_pages
    (json_loads : string -> loads_result)
    (generate_content : string -> image -> api_result)
    (str_of : py -> string)
    (prompt : string) (pages : list image) (fields : list (py * py)) :
  Forall2 (fun page f =>
             exists r, generate_content prompt page = ApiText r
                       /\ valid_reply json_loads r f) pages fields ->
  (forall (V : Type) (v : V) (ui : list event),
      exists ui',
        extract_data_from_pdf json_loads generate_content str_of
                              (map Rendered pages) prompt v ui
        = (Ret (pdf_sections str_of 0 fields, pdf_entries 0 fields), v, ui'))
  /\ (Forall (fun f => truthy (fst f) = true) fields ->
      pdf_sections str_of 0 fields = all_sections str_of 0 fields)
  /\ List.length (pdf_entries 0 fields)
     = List.length (filter (fun f => truthy (snd f)) fields).
Proof.
  intros Hvalid. split; [|split].
  - intros V v ui. unfold extract_data_from_pdf. run_monad.
    destruct (pdf_loop_valid json_loads generate_content str_of prompt
                pages fields Hvalid 0 (mk_pdf "" [])
                (ui ++ [StStatus ("Processing "
                                    ++ PyStr.of_nat
                                         (List.length (map Rendered pages))
                                    ++ " pages...")])%list) as [ui' Hrun].
    rewrite Hrun. cbn. eexists. reflexivity.
  - intros Hall. now apply pdf_sections_all.
  - apply pdf_entries_length.
Qed.


Section Extractors.

Variable json_loads : string -> loads_result.
Variable generate_content : string -> image -> api_result.
Variable Image_open : blob -> string + image.
Variable str_of : py -> string.

(** The DOCX extractor stops before its first message when a
    relationship that holds ["image"] is external. *)
Lemma extract_docx_external (doc : document) (e : exn) (prompt : string)
    (V : Type) (v : V) (ui : list event) :
  image_parts doc = inl e ->
  extract_data_from_docx json_loads generate_content Image_open str_of
                         doc prompt v ui
  = (Raise e, v, ui).
Proof.
  intros Hparts. unfold extract_data_from_docx. run_monad.
  now rewrite Hparts.
Qed.

(** When the image relationships are all parts of the package, the DOCX
    extractor returns, and its table list is the native tables followed
    by the tables picked from the embedded images. *)
Lemma extract_docx_run (doc : document) (parts : list blob) (prompt : string)
    (V : Type) (v : V) (ui : list event) :
  image_parts doc = inr parts ->
  exists (picks : list (option py)) (text : string) (ui' : list event),
    extract_data_from_docx json_loads generate_content Image_open str_of
                           doc prompt v ui
    = (Ret (text, native_tables 0 (tables doc) ++ image_entries 0 picks)%list,
       v, ui')
    /\ List.length picks = List.length parts
    /\ picks_nonempty picks.
Proof.
  intros Hparts. unfold extract_data_from_docx. run_monad.
  rewrite Hparts. cbn beta iota.
  destruct parts as [|part parts].
  - exists [], (PyStr.join nl (paragraphs doc)), ui. cbn.
    rewrite app_nil_r. repeat split. constructor.
  - destruct (docx_loop_tables json_loads generate_content Image_open str_of
                prompt (part :: parts) 0
                (mk_docx (paragraphs doc) (native_tables 0 (tables doc)))
                (ui ++ [StStatus ("Found "
                                    ++ PyStr.of_nat (List.length (part :: parts))
                                    ++ " embedded images. Analyzing...")])%list)
      as (picks & txt & ui' & Hrun & Hl & Hp).
    rewrite Hrun. cbn. exists picks, (PyStr.join nl txt). eexists.
    repeat split; assumption.
Qed.


End Extractors.


Lemma native_tables_titles (ts : list (list (list string))) (n : nat) :
  map title (native_tables n ts)
  = map (fun i => "Native Table " ++ PyStr.of_nat (i + 1))
        (seq n (List.length ts)).
Proof.
  revert n. induction ts as [|t ts IH]; intros n; cbn; [reflexivity|].
  now rewrite IH.
Qed.

Lemma native_tables_data (ts : list (list (list string))) (n : nat) :
  map data (native_tables n ts)
  = map (fun t => PList (map (fun row => PList (map PStr row)) t)) ts.
Proof.
  revert n. induction ts as [|t ts IH]; intros n; cbn [native_tables map];
    [reflexivity|].
  now rewrite IH.
Qed.

Lemma image_entries_titles (picks : list (option py)) (i : nat) :
  map title (image_entries i picks)
  = map (fun k => "Table from Embedded Image " ++ PyStr.of_nat (k + 1))
        (positions i picks).
Proof.
  revert i. induction picks as [|[t|] picks IH]; intros i; cbn;
    [reflexivity| |apply IH].
  now rewrite IH.
Qed.

Lemma image_entries_data (picks : list (option py)) (i : nat) :
  map data (image_entries i picks) = yielded picks.
Proof.
  revert i. induction picks as [|[t|] picks IH]; intros i; cbn;
    [reflexivity| |apply IH].
  now rewrite IH.
Qed.

(** The places of the units that yielded something are numbers of
    units, in increasing order. *)
Lemma positions_bounds {A : Type} (picks : list (option A)) (i : nat) :
  Forall (fun k => (i <= k < i + List.length picks)%nat) (positions i picks)
  /\ (List.length (positions i picks) <= List.length picks)%nat.
Proof.
  revert i. induction picks as [|[a|] picks IH]; intros i; cbn [positions List.length].
  - split; [constructor|lia].
  - destruct (IH (S i)) as [Hall Hlen]. split; [|cbn; lia].
    constructor; [lia|].
    eapply Forall_impl; [|exact Hall]. cbn. intros k Hk. lia.
  - destruct (IH (S i)) as [Hall Hlen]. split; [|lia].
    eapply Forall_impl; [|exact Hall]. cbn. intros k Hk. lia.
Qed.

(** C5, at the failing input. A Word document one of whose
    relationships refers to something outside the package under an
    address that holds ["image"] (a hyperlink to a picture, a linked
    picture) makes the comprehension of lines 73-77 raise [ValueError]:
    the extractor returns no table list at all, whatever the native
    tables, the libraries and the prompt; so it is for [linked_docx],
    with its one native table. *)
Theorem docx_external_image_target_raises
    (json_loads : string -> loads_result)
    (generate_content : string -> image -> api_result)
    (Image_open : blob -> string + image)
    (str_of : py -> string)
    (prompt : string) (V : Type) (v : V) (ui : list event) :
  let refused :=
    ValueError "target_part property on _Relationship is undefined when target mode is External" in
  (forall doc,
      Exists (fun rel => PyStr.is_substring "image" (target_ref rel) = true
                         /\ target rel = External) (rels doc) ->
      extract_data_from_docx json_loads generate_content Image_open str_of
                             doc prompt v ui
      = (Raise refused, v, ui))
  /\ List.length (tables linked_docx) = 1%nat
  /\ extract_data_from_docx json_loads generate_content Image_open str_of
                            linked_docx prompt v ui
     = (Raise refused, v, ui).
Proof.
  intros refused. split; [|split; [reflexivity|]].
  - intros doc Hex. apply extract_docx_external. unfold image_parts.
    induction (rels doc) as [|rel rs IH]; [inversion Hex|].
    cbn [target_parts].
    destruct (PyStr.is_substring "image" (target_ref rel)) eqn:Himg.
    + destruct (target rel) eqn:Htarget; [|reflexivity].
      rewrite IH; [reflexivity|].
      inversion Hex as [? ? [_ Hext]|]; [congruence|assumption].
    + apply IH. inversion Hex as [? ? [Hin _]|]; [congruence|assumption].
  - now apply extract_docx_external.
Qed.

(** ** The dispatcher *)


Lemma native_not_model_derived (n : nat) (ts : list (list (list string))) :
  Forall nonempty_if_model_derived (native_tables n ts).
Proof.
  revert n. induction ts as [|t ts IH]; intros n; cbn; constructor.
  - intros H. discriminate H.
  - apply IH.
Qed.

Lemma image_entries_nonempty (picks : list (option py)) :
  picks_nonempty picks ->
  forall i, Forall nonempty_if_model_derived (image_entries i picks).
Proof.
  induction 1 as [|[t|] picks Ht _ IH]; intros i; cbn.
  - constructor.
  - constructor; [intros _; exact Ht|apply IH].
  - apply IH.
Qed.

Section Dispatcher.

Variable json_loads : string -> loads_result.
Variable generate_content : string -> image -> api_result.
Variable Image_open : blob -> string + image.
Variable str_of : py -> string.

(** The tables the PDF extractor returns, when it returns. *)
Lemma extract_pdf_nonempty (pages : list raster) (prompt : string)
    (V : Type) (v : V) (ui : list event) :
  match fst (fst (extract_data_from_pdf json_loads generate_content str_of
                                        pages prompt v ui)) with
  | Ret r => Forall nonempty_if_model_derived (snd r)
  | Raise _ => True
  end.
Proof.
  unfold extract_data_from_pdf. run_monad.
  set (ui0 := (ui ++ _)%list).
  pose proof (for_enumerate_invariant
                (fun w => Forall nonempty_if_model_derived (aggregated_tables w))
                (pdf_page json_loads generate_content str_of prompt)
                (pdf_page_keeps json_loads generate_content str_of
                   nonempty_if_model_derived prompt
                   (fun n t Ht _ => Ht))
                pages 0 (mk_pdf "" []) ui0 (Forall_nil _)) as Hinv.
  destruct (for_enumerate 0 pages _ _ ui0) as [[[[]|e] v'] ui']; cbn in *.
  - exact Hinv.
  - exact I.
Qed.

(** The image branch keeps the invariant of the result table list. *)
Lemma main_image_nonempty (f : uploaded_file) (v : main_locals)
    (ui : list event) :
  Forall nonempty_if_model_derived (table_result v) ->
  Forall nonempty_if_model_derived
         (table_result
            (snd (fst (main_image json_loads generate_content f v ui)))).
Proof.
  intros Hv. rewrite main_image_run. cbv zeta.
  destruct (generate_content _ _) as [r|msg]; [|exact Hv].
  destruct (String.eqb r ""); [exact Hv|].
  destruct (unit_fields json_loads r) as [[[t b]|]|e]; cbn [fst snd].
  - cbn [table_result]. destruct (truthy b) eqn:Hb; [|exact Hv].
    constructor; [intros _; exact Hb|constructor].
  - exact Hv.
  - destruct (is_JSONDecodeError e); exact Hv.
Qed.

(** The dispatcher on an upload with an image extension. *)
Lemma main_extract_image (f : uploaded_file) (ui : list event) :
  mem_string (file_extension f) image_extensions = true ->
  main_extract json_loads generate_content Image_open str_of f tt ui =
  match main_image json_loads generate_content f (mk_main (PStr "") []) ui with
  | (Ret _, v, ui') =>
      (Ret (text_result v, table_result v), tt,
       (ui' ++ [StSuccess "Data extracted successfully!"])%list)
  | (Raise e, _, ui') => (Raise e, tt, ui')
  end.
Proof.
  intros Hext. unfold main_extract. rewrite Hext. run_monad.
  destruct (main_image _ _ f _ ui) as [[[[]|e] v] ui']; reflexivity.
Qed.

End Dispatcher.

(** C10. In every result the dispatcher returns, from the image branch,
    the PDF extractor or the DOCX extractor, each entry whose title
    begins with ["Table from"] holds data that passed the truth test
    [if table:], so it is not the empty list; the same holds of what the
    two extractors return under any prompt. Native DOCX entries are
    titled ["Native Table ..."] and are not bound by it. *)
Theorem model_tables_nonempty
    (json_loads : string -> loads_result)
    (generate_content : string -> image -> api_result)
    (Image_open : blob -> string + image)
    (str_of : py -> string) :
  (forall (f : uploaded_file) (ui : list event),
      match fst (fst (main_extract json_loads generate_content Image_open
                                   str_of f tt ui)) with
      | Ret r => Forall nonempty_if_model_derived (snd r)
      | Raise _ => True
      end)
  /\ (forall pages prompt (V : Type) (v : V) ui,
      match fst (fst (extract_data_from_pdf json_loads generate_content str_of
                                            pages prompt v ui)) with
      | Ret r => Forall nonempty_if_model_derived (snd r)
      | Raise _ => True
      end)
  /\ (forall doc prompt (V : Type) (v : V) ui,
      match fst (fst (extract_data_from_docx json_loads generate_content
                                             Image_open str_of
                                             doc prompt v ui)) with
      | Ret r => Forall nonempty_if_model_derived (snd r)
      | Raise _ => True
      end)
  /\ (forall t, nonempty_if_model_derived t -> model_derived t = true ->
                data t <> PList [] /\ data t <> PNone /\ data t <> PStr "").
Proof.
  assert (Hdocx : forall doc prompt (V : Type) (v : V) ui,
      match fst (fst (extract_data_from_docx json_loads generate_content
                                             Image_open str_of
                                             doc prompt v ui)) with
      | Ret r => Forall nonempty_if_model_derived (snd r)
      | Raise _ => True
      end).
  { intros doc prompt V v ui.
    destruct (image_parts doc) as [e|parts] eqn:Hparts.
    - rewrite (extract_docx_external json_loads generate_content Image_open
                 str_of doc e prompt V v ui Hparts). exact I.
    - destruct (extract_docx_run json_loads generate_content Image_open str_of
                  doc parts prompt V v ui Hparts)
        as (picks & text & ui' & -> & _ & Hp).
      cbn. apply Forall_app. split.
      + apply native_not_model_derived.
      + now apply image_entries_nonempty. }
  split; [|split; [|split]].
  - intros f ui.
    destruct (mem_string (file_extension f) image_extensions) eqn:Hext.
    + rewrite main_extract_image by exact Hext.
      pose proof (main_image_nonempty json_loads generate_content f
                    (mk_main (PStr "") []) ui (Forall_nil _)) as Hinv.
      destruct (main_image _ _ f _ ui) as [[[[]|e] v] ui']; cbn in *;
        [exact Hinv|exact I].
    + unfold main_extract. rewrite Hext. run_monad.
      destruct (String.eqb (file_extension f) ".pdf").
      * pose proof (extract_pdf_nonempty json_loads generate_content str_of
                      (opened_pdf f) prompt_template main_locals
                      (mk_main (PStr "") []) ui) as Hpdf.
        destruct (extract_data_from_pdf _ _ _ _ _ _ ui)
          as [[[r|e] v] ui']; cbn in *; [exact Hpdf|exact I].
      * destruct (String.eqb (file_extension f) ".docx").
        -- pose proof (Hdocx (opened_docx f) prompt_for_embeds main_locals
                         (mk_main (PStr "") []) ui) as Hd.
           destruct (extract_data_from_docx _ _ _ _ _ _ _ ui)
             as [[[r|e] v] ui']; cbn in *; [exact Hd|exact I].
        -- cbn. constructor.
  - intros pages prompt V v ui. apply extract_pdf_nonempty.
  - exact Hdocx.
  - intros t Ht Hm. specialize (Ht Hm).
    repeat split; intros E; rewrite E in Ht; discriminate Ht.
Qed.


Section ImageUpload.

Variable json_loads : string -> loads_result.
Variable generate_content : string -> image -> api_result.
Variable Image_open : blob -> string + image.
Variable str_of : py -> string.
Variable f : uploaded_file.
Hypothesis f_is_image : mem_string (file_extension f) image_extensions = true.




End ImageUpload.


(** ** Export *)

Lemma re_sub_filter (s : string) :
  re_sub s = PyStr.filter_chars in_class s
  /\ re_sub_match s = PyStr.filter_chars in_class s.
Proof.
  induction s as [|c s [IH1 IH2]]; cbn; [split; reflexivity|].
  destruct (in_class c); rewrite ?IH1, ?IH2; split; reflexivity.
Qed.

Lemma safe_filename_filter (t : table_info) :
  safe_filename t = filter_filename (title t).
Proof.
  unfold safe_filename, filter_filename, PyStr.replace, PyStr.lower.
  apply re_sub_filter.
Qed.


Section ExportFacts.

Variable DataFrame_other : py -> option py -> exn + frame.
Variable to_string : frame -> string.
Variable to_csv : frame -> string.
Variable str_of : py -> string.

(** The constructor on rows of cells with no labels. *)
Lemma DataFrame_rows (rows : list py) (rs : list (list py)) :
  Pandas.as_rows rows = Some rs ->
  Pandas.DataFrame DataFrame_other (PList rows) None = inr (frame_of_data rs).
Proof.
  intros Hrs. destruct rows as [|x rows].
  - cbn in Hrs. injection Hrs as <-. reflexivity.
  - unfold Pandas.DataFrame. rewrite Hrs. reflexivity.
Qed.


(** One table of the flat-text loop, when its data is rows of cells. *)
Lemma txt_table_rows (t : table_info) (rs : list (list py))
    (txt : string) (ui : list event) :
  table_of_rows t rs ->
  txt_table DataFrame_other to_string t txt ui
  = (Ret tt, txt ++ table_heading t ++ to_string (frame_of_data rs), ui).
Proof.
  intros (rows & Hdata & Hrs). unfold txt_table, DataFrame. run_monad.
  rewrite Hdata, (DataFrame_rows rows rs Hrs). cbn.
  now rewrite string_app_assoc.
Qed.

(** Every way one table of the CSV loop can go: it never raises, never
    touches the locals, and shows nothing, one warning or one button. *)
Lemma csv_table_run (t : table_info) (txt : string) (ui : list event) :
  exists evs,
    csv_table DataFrame_other to_csv t txt ui = (Ret tt, txt, (ui ++ evs)%list)
    /\ (evs = [] \/ evs = [csv_warning t]
        \/ exists df, evs = [csv_download to_csv t df]).
Proof.
  unfold csv_table, rows_gt1, DataFrame, csv_warning, csv_download.
  run_monad.
  destruct (truthy (data t)); cbn beta iota.
  2:{ exists []. rewrite app_nil_r. split; [reflexivity|now left]. }
  destruct (py_len (data t) txt ui) as [[[n|e] txt1] ui1] eqn:Hlen.
  2:{ assert (txt1 = txt /\ ui1 = ui) as [-> ->]
        by (destruct (data t); cbn in Hlen; inversion Hlen; split; reflexivity).
      cbn. eexists. split; [reflexivity|right; left; reflexivity]. }
  assert (txt1 = txt /\ ui1 = ui) as [-> ->]
    by (destruct (data t); cbn in Hlen; inversion Hlen; split; reflexivity).
  cbn beta iota. destruct (1 <? n)%nat; cbn beta iota.
  2:{ exists []. rewrite app_nil_r. split; [reflexivity|now left]. }
  destruct (py_slice_from1 (data t) txt ui) as [[[body|e] txt1] ui1] eqn:Hb.
  2:{ assert (txt1 = txt /\ ui1 = ui) as [-> ->]
        by (destruct (data t); cbn in Hb; inversion Hb; split; reflexivity).
      cbn. eexists. split; [reflexivity|right; left; reflexivity]. }
  assert (txt1 = txt /\ ui1 = ui) as [-> ->]
    by (destruct (data t); cbn in Hb; inversion Hb; split; reflexivity).
  cbn beta iota.
  destruct (py_item0 (data t) txt ui) as [[[head|e] txt1] ui1] eqn:Hh.
  2:{ assert (txt1 = txt /\ ui1 = ui) as [-> ->]
        by (destruct (data t) as [| | | |[|]|[|]|]; cbn in Hh; inversion Hh;
            split; reflexivity).
      cbn. eexists. split; [reflexivity|right; left; reflexivity]. }
  assert (txt1 = txt /\ ui1 = ui) as [-> ->]
    by (destruct (data t) as [| | | |[|]|[|]|]; cbn in Hh; inversion Hh;
        split; reflexivity).
  cbn beta iota.
  destruct (Pandas.DataFrame DataFrame_other body (Some head)) as [e|df]; cbn.
  - eexists. split; [reflexivity|right; left; reflexivity].
  - eexists. split; [reflexivity|right; right; eexists; reflexivity].
Qed.

End ExportFacts.

Section ExportTheorems.

Variable DataFrame_other : py -> option py -> exn + frame.
Variable dataframe_refused : frame -> option exn.
Variable to_string : frame -> string.
Variable to_csv : frame -> string.
Variable str_of : py -> string.

(** The flat-text loop over tables that are all rows of cells. *)
Lemma txt_loop_rows (ts : list table_info) (rss : list (list (list py))) :
  Forall2 table_of_rows ts rss ->
  forall (n : nat) (txt : string) (ui : list event),
    for_enumerate n ts (fun _ t => txt_table DataFrame_other to_string t) txt ui
    = (Ret tt, txt ++ txt_sections to_string ts rss, ui).
Proof.
  induction 1 as [|t rs ts rss Ht _ IH]; intros n txt ui.
  - cbn. now rewrite string_app_nil_r.
  - rewrite for_enumerate_cons, (txt_table_rows _ _ t rs txt ui Ht), IH.
    cbn [txt_sections]. now rewrite !string_app_assoc.
Qed.

Lemma flat_text_export_rows (extracted_text : py) (ts : list table_info)
    (rss : list (list (list py))) (txt : string) (ui : list event) :
  Forall2 table_of_rows ts rss ->
  let content := txt_head str_of extracted_text ++ txt_sections to_string ts rss in
  flat_text_export DataFrame_other to_string str_of extracted_text ts txt ui
  = (Ret tt, content,
     (ui ++ [StMarkdown "---"; StHeader "Download Data";
             StDownload "Download All as TXT" content
                        "extracted_content.txt" "text/plain"])%list).
Proof.
  intros Hts content. unfold flat_text_export. run_monad.
  rewrite (txt_loop_rows ts rss Hts). cbn beta iota.
  rewrite <- !app_assoc. reflexivity.
Qed.



(** A table whose data is a non-empty text: the display loop and the CSV
    loop catch what pandas raises, the flat-text loop does not. *)
Lemma render_table_text (name : string) (c : ascii) (s : string)
    (txt : string) (ui : list event) :
  render_table DataFrame_other dataframe_refused
               (mk_table name (PStr (String c s))) txt ui
  = (Ret tt, txt,
     (ui ++ [StMarkdown ("**" ++ name ++ "**");
             StWarning "Could not format table. Displaying raw data.";
             StJson (PStr (String c s))])%list).
Proof.
  unfold render_table, rows_gt1, DataFrame. run_monad.
  cbn [data title truthy py_len String.eqb negb Ascii.eqb].
  destruct s as [|c' s]; cbn; rewrite <- !app_assoc; reflexivity.
Qed.

Lemma flat_text_export_text_table (extracted_text : py) (name : string)
    (c : ascii) (s : string) (ts : list table_info)
    (txt : string) (ui : list event) :
  let t := mk_table name (PStr (String c s)) in
  flat_text_export DataFrame_other to_string str_of extracted_text (t :: ts)
                   txt ui
  = (Raise (ValueError "DataFrame constructor not properly called!"),
     txt_head str_of extracted_text ++ table_heading t,
     (ui ++ [StMarkdown "---"; StHeader "Download Data"])%list).
Proof.
  intros t. unfold flat_text_export, txt_table, DataFrame. run_monad.
  cbn. rewrite <- !app_assoc. reflexivity.
Qed.

End ExportTheorems.


(** C8, at the failing input. A reply whose [table] field is a non-empty
    text is returned by the image branch as a table entry; for every
    such entry the display loop catches the refusal of pandas and shows
    the raw data, the CSV loop never raises, but the flat-text loop
    raises [ValueError] before the download button is shown, and so does
    [main_results], which never reaches the CSV loop. *)
Theorem flat_text_export_fails_on_text_table :
  fst (fst (main_extract JsonRef.loads (fun _ _ => ApiText text_table_reply)
                         open_unless_bad no_str (scan_png "img") tt []))
  = Ret (PStr "x", [mk_table "Table from Image" (PStr "abc")])
  /\ forall (DataFrame_other : py -> option py -> exn + frame)
            (dataframe_refused : frame -> option exn)
            (to_string to_csv : frame -> string) (str_of : py -> string)
            (extracted_text : py) (name : string) (c : ascii) (s : string)
            (txt : string) (ui : list event),
      let t := mk_table name (PStr (String c s)) in
      let refused := ValueError "DataFrame constructor not properly called!" in
      render_table DataFrame_other dataframe_refused t txt ui
      = (Ret tt, txt,
         (ui ++ [StMarkdown ("**" ++ name ++ "**");
                 StWarning "Could not format table. Displaying raw data.";
                 StJson (PStr (String c s))])%list)
      /\ (exists evs,
             csv_table DataFrame_other to_csv t txt ui
             = (Ret tt, txt, (ui ++ evs)%list))
      /\ (forall ts,
             flat_text_export DataFrame_other to_string str_of extracted_text
                              (t :: ts) txt ui
             = (Raise refused,
                txt_head str_of extracted_text ++ table_heading t,
                (ui ++ [StMarkdown "---"; StHeader "Download Data"])%list))
      /\ (exists txt' evs,
             main_results DataFrame_other dataframe_refused
                          to_string to_csv str_of
                          extracted_text [t] txt ui
             = (Raise refused, txt', (ui ++ evs)%list)
             /\ no_download evs = true).
Proof.
  split; [vm_compute; reflexivity|].
  intros DataFrame_other dataframe_refused to_string to_csv str_of
         extracted_text name c s txt ui t refused.
  split; [apply render_table_text|]. split; [|split].
  - destruct (csv_table_run DataFrame_other to_csv t txt ui) as (evs & H & _).
    exists evs. exact H.
  - intros ts. apply flat_text_export_text_table.
  - subst t refused. unfold main_results, render_results.
    cbn [for_enumerate]. run_monad. rewrite render_table_text.
    rewrite (flat_text_export_text_table DataFrame_other to_string str_of
               extracted_text name c s [] txt).
    eexists. eexists. split.
    + rewrite <- !app_assoc. reflexivity.
    + reflexivity.
Qed.

(** Character by character, the sanitiser keeps what the specification
    keeps. *)
Lemma sanitise_char (c : ascii) :
  let space_to_underscore (x : ascii) :=
    if Ascii.eqb x " "%char then "_"%char else x in
  let step (keep : ascii -> bool) (x : ascii) :=
    if keep x then String x "" else "" in
  step in_class (space_to_underscore (PyStr.lower_char c))
  = step (fun x => PyStr.contains x "abcdefghijklmnopqrstuvwxyz0123456789_")
         (space_to_underscore
            (small_letter "ABCDEFGHIJKLMNOPQRSTUVWXYZ"
                          "abcdefghijklmnopqrstuvwxyz" c)).
Proof. destruct c as [[] [] [] [] [] [] [] []]; vm_compute; reflexivity. Qed.

Lemma filter_filename_spec (s : string) : filter_filename s = spec_filename s.
Proof.
  unfold filter_filename, spec_filename.
  induction s as [|c s IH]; cbn [PyStr.map_chars PyStr.filter_chars];
    [reflexivity|].
  pose proof (sanitise_char c) as Hc. cbv beta zeta in Hc. cbv beta.
  set (x := if Ascii.eqb (PyStr.lower_char c) " "%char then _ else _) in *.
  set (y := if Ascii.eqb (small_letter _ _ c) " "%char then _ else _) in *.
  destruct (in_class x), (PyStr.contains y _); try discriminate Hc;
    rewrite IH; [|reflexivity].
  now injection Hc as ->.
Qed.

(** C9. The sanitiser of line 250 gives the table title lower-cased,
    with every space replaced by an underscore and every character
    removed that is not a small letter, a digit or the underscore, and
    nothing else is done to it; every download button the CSV loop shows
    for a table carries that name followed by [.csv]. So a page table
    is saved as [table_from_page_3.csv], and punctuation, capitals and
    spaces go as in ["Q3 Sales (EU): 50%!"], saved as
    [q3_sales_eu_50.csv]. *)
Theorem csv_filename_sanitised
    (DataFrame_other : py -> option py -> exn + frame)
    (to_csv : frame -> string)
    (t : table_info) (txt : string) (ui : list event) :
  safe_filename t = spec_filename (title t)
  /\ (exists evs,
         snd (csv_table DataFrame_other to_csv t txt ui) = (ui ++ evs)%list
         /\ downloads_named (spec_filename (title t) ++ ".csv") evs)
  /\ spec_filename "Table from Page 3" = "table_from_page_3"
  /\ spec_filename "Q3 Sales (EU): 50%!" = "q3_sales_eu_50".
Proof.
  assert (Hname : safe_filename t = spec_filename (title t))
    by (rewrite safe_filename_filter; apply filter_filename_spec).
  split; [exact Hname|]. split; [|split; reflexivity].
  destruct (csv_table_run DataFrame_other to_csv t txt ui)
    as (evs & Hrun & [->|[->|[df ->]]]);
    exists evs || eexists; rewrite Hrun; (split; [reflexivity|]);
    repeat constructor.
  unfold csv_download. now rewrite Hname.
Qed.

(** ** Concrete runs *)

(** The reply of scenario A through the parser of the PDF and DOCX paths. *)
Lemma response_parser_returns_fields_witness :
  parse_response (V := unit) JsonRef.loads scenario_reply tt []
  = (Ret (Some (PStr "Hello", scenario_table)), tt, []).
Proof.
  refine (proj1 (response_parser_returns_fields JsonRef.loads echo_model
                   "Here: "
                   (json_text "'text':'Hello','table':[['A','B'],['1','2']]")
                   " thanks"
                   [("text", PStr "Hello"); ("table", scenario_table)]
                   _ _ _) unit tt []);
    vm_compute; reflexivity.
Defined.

(** A reply in plain prose: nothing is extracted and nothing raised. *)
Lemma response_parser_no_braces_witness :
  parse_response (V := unit) JsonRef.loads "no table on this page" tt []
  = (Ret None, tt, []).
Proof.
  refine (proj1 (response_parser_no_braces JsonRef.loads echo_model
                   "no table on this page" _) unit tt []).
  left. reflexivity.
Defined.

(** Both pages of [two_pages] get a reply that holds a JSON object. *)
Lemma two_pages_valid :
  Forall2 (fun page f =>
             exists r, echo_model prompt_template page = ApiText r
                       /\ valid_reply JsonRef.loads r f)
          two_pages
          [(PStr "one", PList []); (PStr "", PList [PList [PStr "a"]])].
Proof.
  constructor; [|constructor; [|constructor]].
  - exists (json_text "{'text':'one'}"). split; [reflexivity|].
    exists "", (json_text "'text':'one'"), "", [("text", PStr "one")].
    repeat split; vm_compute; reflexivity.
  - exists (json_text "{'text':'','table':[['a']]}"). split; [reflexivity|].
    exists "", (json_text "'text':'','table':[['a']]"), "",
           [("text", PStr ""); ("table", PList [PList [PStr "a"]])].
    repeat split; vm_compute; reflexivity.
Defined.

(** The aggregate of [two_pages]: the section of page 1 and the table of
    page 2. *)
Lemma pdf_aggregate_of_valid_pages_witness :
  exists ui',
    extract_data_from_pdf (V := unit) JsonRef.loads echo_model no_str
                          (map Rendered two_pages) prompt_template tt []
    = (Ret (nl ++ nl ++ "--- Page 1 ---" ++ nl ++ "one",
            [mk_table "Table from Page 2" (PList [PList [PStr "a"]])]),
       tt, ui').
Proof.
  exact (proj1 (pdf_aggregate_of_valid_pages JsonRef.loads echo_model no_str
                  prompt_template two_pages
                  [(PStr "one", PList []); (PStr "", PList [PList [PStr "a"]])]
                  two_pages_valid) unit tt []).
Defined.

(** Two pages with valid replies, one section: the page whose text is
    empty has none. *)
Lemma pdf_page_with_empty_text_has_no_section :
  List.length two_pages = 2%nat
  /\ fst (fst (extract_data_from_pdf (V := unit) JsonRef.loads echo_model no_str
                                     (map Rendered two_pages)
                                     prompt_template tt []))
     = Ret (nl ++ nl ++ "--- Page 1 ---" ++ nl ++ "one",
            [mk_table "Table from Page 2" (PList [PList [PStr "a"]])])
  /\ PyStr.is_substring "--- Page 2 ---"
       (nl ++ nl ++ "--- Page 1 ---" ++ nl ++ "one") = false.
Proof. repeat split; vm_compute; reflexivity. Qed.

(** None of the replies to [three_pages] makes [json.loads] raise
    anything but [JSONDecodeError]. *)
Lemma three_pages_settle :
  Forall (fun page =>
            call_escapes JsonRef.loads (echo_model prompt_template page) = None)
         three_pages.
Proof. repeat constructor. Defined.





(** The CSV button of the table of scenario A carries the file name
    [table_from_image.csv]. *)
Lemma csv_filename_sanitised_witness :
  safe_filename (mk_table "Table from Image" scenario_table) = "table_from_image"
  /\ safe_filename (mk_table "Summary of Q3 / 2024 (final).XLS" PNone)
     = "summary_of_q3__2024_finalxls".
Proof.
  split.
  - refine (eq_trans (proj1 (csv_filename_sanitised no_other csv_print
                               (mk_table "Table from Image" scenario_table)
                               "" [])) _).
    vm_compute. reflexivity.
  - refine (eq_trans (proj1 (csv_filename_sanitised no_other csv_print
                               (mk_table "Summary of Q3 / 2024 (final).XLS" PNone)
                               "" [])) _).
    vm_compute. reflexivity.
Defined.


(** * Further properties of the code *)

(** ** The parser and the prose around the object *)

Lemma rfind_from_found (c : ascii) (s : string) (i last : Z) :
  PyStr.contains c s = true ->
  exists mid post,
    s = mid ++ String c post /\ PyStr.contains c post = false /\
    PyStr.rfind_from c s i last = (i + PyStr.len mid)%Z.
Proof.
  revert i last. induction s as [|a s IH]; intros i last H; [discriminate|].
  cbn [PyStr.rfind_from].
  destruct (PyStr.contains c s) eqn:Hs.
  - destruct (IH (i + 1)%Z (if Ascii.eqb a c then i else last) eq_refl)
      as (mid & post & -> & Hpost & Hr).
    exists (String a mid), post. rewrite Hr. unfold PyStr.len.
    cbn [String.length append]. repeat split; [exact Hpost|lia].
  - cbn in H. rewrite Hs, orb_false_r in H. rewrite H.
    apply Ascii.eqb_eq in H. subst a.
    exists "", s. rewrite rfind_from_absent by exact Hs.
    unfold PyStr.len. cbn. repeat split; [exact Hs|lia].
Qed.

Lemma string_app_split (a b c d : string) :
  a ++ b = c ++ d -> (String.length a < String.length c)%nat ->
  exists e x, c = a ++ String x e /\ b = String x e ++ d.
Proof.
  revert c. induction a as [|y a IH]; intros c H Hlen.
  - destruct c as [|x e]; [cbn in Hlen; lia|].
    exists e, x. cbn in *. split; [reflexivity|exact H].
  - destruct c as [|x c]; [cbn in Hlen; lia|].
    cbn in H. injection H as -> H.
    destruct (IH c H ltac:(cbn in Hlen; lia)) as (e & z & -> & ->).
    exists e, z. split; reflexivity.
Qed.

Lemma substring_zero (n : nat) (s : string) : substring n 0 s = "".
Proof.
  revert n. induction s as [|a s IH]; intros [|n]; cbn; try reflexivity.
  apply IH.
Qed.

(** A reply with both braces, read the way the parser cuts it: the last
    [}] lies before the first [{], or the reply is prose, an object text
    from the first [{] to the last [}], and prose. *)
Lemma braces_cases (r : string) :
  PyStr.find r "{"%char <> (-1)%Z ->
  PyStr.rfind r "}"%char <> (-1)%Z ->
  (PyStr.rfind r "}"%char < PyStr.find r "{"%char)%Z
  \/ exists pre mid post,
       r = pre ++ String "{"%char mid ++ String "}"%char post
       /\ PyStr.contains "{"%char pre = false
       /\ PyStr.contains "}"%char post = false.
Proof.
  intros Hf Hr.
  destruct (Z.ltb (PyStr.rfind r "}"%char) (PyStr.find r "{"%char)) eqn:Hlt;
    [left; now apply Z.ltb_lt|right].
  apply Z.ltb_ge in Hlt.
  unfold PyStr.find in *.
  destruct (find_from_split "{"%char r 0 Hf ltac:(lia))
    as (pre & rest & Hs & Hpre & Hfind).
  assert (Hc : PyStr.contains "}"%char r = true).
  { destruct (PyStr.contains "}"%char r) eqn:E; [reflexivity|].
    apply rfind_minus_one in E. contradiction. }
  unfold PyStr.rfind in *.
  destruct (rfind_from_found "}"%char r 0 (-1) Hc)
    as (m & post & Hm & Hpost & Hrfind).
  rewrite Hfind, Hrfind in Hlt. unfold PyStr.len in Hlt.
  assert (Hne : String.length pre <> String.length m).
  { intros E. rewrite Hs in Hm.
    assert (Hsub : substring (String.length pre) 1 (pre ++ String "{"%char rest)
                   = substring (String.length pre) 1 (m ++ String "}"%char post))
      by (now rewrite <- Hm).
    rewrite substring_skip in Hsub. rewrite E, substring_skip in Hsub.
    cbn in Hsub. rewrite !substring_zero in Hsub. discriminate Hsub. }
  rewrite Hs in Hm.
  destruct (string_app_split pre (String "{"%char rest) m (String "}"%char post)
              Hm ltac:(lia)) as (e & x & -> & He).
  cbn in He. injection He as <- ->.
  exists pre, e, post. repeat split; [|exact Hpre|exact Hpost].
  rewrite Hs. reflexivity.
Qed.

Lemma slice_reversed (s : string) (a b : Z) :
  (0 <= a)%Z -> (0 <= b)%Z -> (b <= a)%Z -> PyStr.slice s a b = "".
Proof.
  intros Ha Hb Hab. unfold PyStr.slice, PyStr.norm_index.
  replace ((a <? 0)%Z) with false by (symmetry; apply Z.ltb_ge; lia).
  replace ((b <? 0)%Z) with false by (symmetry; apply Z.ltb_ge; lia).
  replace (Z.to_nat (Z.min b (PyStr.len s) - Z.min a (PyStr.len s))) with 0%nat
    by lia.
  apply substring_zero.
Qed.

Lemma rfind_lower_bound (s : string) (c : ascii) : (-1 <= PyStr.rfind s c)%Z.
Proof.
  destruct (PyStr.contains c s) eqn:H.
  - pose proof (rfind_from_present c s 0 (-1) ltac:(lia) H).
    unfold PyStr.rfind. lia.
  - apply rfind_minus_one in H. lia.
Qed.

Lemma find_lower_bound (s : string) (c : ascii) : (-1 <= PyStr.find s c)%Z.
Proof.
  destruct (PyStr.contains c s) eqn:H.
  - pose proof (find_from_present c s 0 ltac:(lia) H). unfold PyStr.find. lia.
  - apply find_minus_one in H. lia.
Qed.

(** The parser on prose, object text and prose: the outcome of decoding
    the object text and reading its two fields. *)
Lemma unit_fields_of_object (json_loads : string -> loads_result)
    (pre mid post : string) :
  PyStr.contains "{"%char pre = false ->
  PyStr.contains "}"%char post = false ->
  unit_fields json_loads (pre ++ String "{"%char mid ++ String "}"%char post)
  = match json_loads (String "{"%char mid ++ "}") with
    | Decoded (PDict d) =>
        Ret (Some (dict_get d "text" (PStr ""), dict_get d "table" (PList [])))
    | Decoded _ => Raise (AttributeError "object has no attribute 'get'")
    | DecodeError msg => Raise (JSONDecodeError msg)
    | DigitsLimit msg => Raise (ValueError msg)
    | NestingLimit msg => Raise (RecursionError msg)
    end.
Proof.
  intros Hpre Hpost. unfold unit_fields, parse_response.
  rewrite (braces_found pre mid post Hpre Hpost).
  destruct (braces_slice pre mid post Hpre Hpost) as (_ & _ & Hs).
  cbv zeta in Hs. rewrite Hs. unfold loads, get. run_monad.
  destruct (json_loads _) as [[]| | |]; reflexivity.
Qed.

(** X1. Prose around the object does not matter: for a reply made of
    prose with no [{], a text from [{] to [}], and prose with no [}], the
    parser does exactly what it does on the text between the braces
    alone, whether or not that text is valid JSON. *)
Theorem parser_ignores_prose
    (json_loads : string -> loads_result) (pre mid post : string) :
  PyStr.contains "{"%char pre = false ->
  PyStr.contains "}"%char post = false ->
  forall (V : Type) (v : V) (ui : list event),
    parse_response json_loads
      (pre ++ String "{"%char mid ++ String "}"%char post) v ui
    = parse_response json_loads (String "{"%char mid ++ "}") v ui.
Proof.
  intros Hpre Hpost V v ui. rewrite !parse_response_pure. f_equal. f_equal.
  rewrite (unit_fields_of_object json_loads pre mid post Hpre Hpost).
  symmetry.
  exact (unit_fields_of_object json_loads "" mid "" eq_refl eq_refl).
Qed.

(** X2. What [json.loads] is given. For a reply with both braces, either
    the last [}] comes before the first [{], the slice is the empty text
    and a decoder that refuses the empty text makes the reply a parse
    failure; or the reply splits into prose, object text and prose, and
    the slice is the object text from the first [{] to the last [}]. *)
Theorem parser_input_shape
    (json_loads : string -> loads_result) (r : string) :
  PyStr.find r "{"%char <> (-1)%Z ->
  PyStr.rfind r "}"%char <> (-1)%Z ->
  let json_string :=
    PyStr.slice r (PyStr.find r "{"%char) (PyStr.rfind r "}"%char + 1) in
  ((PyStr.rfind r "}"%char < PyStr.find r "{"%char)%Z
   /\ json_string = ""
   /\ forall msg, json_loads "" = DecodeError msg ->
                  parse_failure json_loads r msg)
  \/ exists pre mid post,
       r = pre ++ String "{"%char mid ++ String "}"%char post
       /\ PyStr.contains "{"%char pre = false
       /\ PyStr.contains "}"%char post = false
       /\ json_string = String "{"%char mid ++ "}".
Proof.
  intros Hf Hr json_string.
  destruct (braces_cases r Hf Hr) as [Hlt|(pre & mid & post & Hs & Hpre & Hpost)].
  - left. pose proof (find_lower_bound r "{"%char).
    pose proof (rfind_lower_bound r "}"%char).
    assert (Hjs : json_string = "") by (apply slice_reversed; lia).
    repeat split; try assumption.
    fold json_string. now rewrite Hjs.
  - right. exists pre, mid, post. repeat split; try assumption.
    destruct (braces_slice pre mid post Hpre Hpost) as (_ & _ & Hslice).
    cbv zeta in Hslice. subst json_string. rewrite Hs. exact Hslice.
Qed.

(** ** Whole documents, whatever the replies *)

Lemma calls_of_app (ui ui' : list event) :
  calls_of (ui ++ ui') = (calls_of ui ++ calls_of ui')%list.
Proof. apply filter_app. Qed.

Lemma warnings_of_app (ui ui' : list event) :
  warnings_of (ui ++ ui') = (warnings_of ui ++ warnings_of ui')%list.
Proof. apply filter_app. Qed.

Section AnyReplies.

Variable json_loads : string -> loads_result.
Variable generate_content : string -> image -> api_result.
Variable Image_open : blob -> string + image.
Variable str_of : py -> string.

(** A reply that escapes is a text that makes the parser raise. *)
Lemma call_escapes_raise (reply : api_result) (e : exn) :
  call_escapes json_loads reply = Some e ->
  exists r, reply = ApiText r /\ String.eqb r "" = false
            /\ unit_fields json_loads r = Raise e
            /\ is_JSONDecodeError e = false.
Proof.
  destruct reply as [r|msg]; [|discriminate]. cbn [call_escapes]. intros He.
  destruct (reply_escapes_raise json_loads r e He) as [Hraise Hkind].
  exists r. repeat split; try assumption.
  destruct r; [discriminate He|reflexivity].
Qed.

(** The PDF loop in closed form, for a decoder of objects, over pages
    that render and whose replies settle. *)
Lemma pdf_loop_picks (prompt : string) (pages : list image) :
  decodes_objects json_loads ->
  Forall (settles json_loads generate_content prompt) pages ->
  forall (n : nat) (v : pdf_locals) (ui : list event),
    let picks := map (page_pick json_loads generate_content prompt) pages in
    for_enumerate n (map Rendered pages)
      (pdf_page json_loads generate_content str_of prompt) v ui
    = (Ret tt,
       mk_pdf (aggregated_text v ++ picked_sections str_of n picks)
              (aggregated_tables v ++ picked_entries n picks),
       (ui ++ pages_output json_loads generate_content prompt n pages)%list).
Proof.
  intros Hlaw. induction 1 as [|page pages Hpage _ IH]; intros n v ui picks.
  - cbn. rewrite string_app_nil_r, !app_nil_r. destruct v; reflexivity.
  - subst picks. cbn [map]. rewrite for_enumerate_cons, pdf_page_run.
    cbn [picked_sections picked_entries pages_output].
    set (rest := map (page_pick json_loads generate_content prompt) pages).
    unfold settles in Hpage. unfold page_pick, page_message, reply_pick.
    destruct (generate_content prompt page) as [r|msg].
    + destruct (String.eqb r "").
      * rewrite IH. cbv zeta. fold rest. rewrite app_nil_l, <- !app_assoc. reflexivity.
      * destruct (unit_fields json_loads r) as [[f|]|e] eqn:Hf.
        -- rewrite IH. cbv zeta. fold rest. unfold add_page.
           cbn [aggregated_text aggregated_tables].
           rewrite string_app_assoc, app_nil_l, <- !app_assoc. reflexivity.
        -- rewrite IH. cbv zeta. fold rest. rewrite app_nil_l, <- !app_assoc. reflexivity.
        -- rewrite (unit_fields_caught json_loads Hlaw r e Hpage Hf), IH.
           cbv zeta. fold rest. rewrite <- !app_assoc. reflexivity.
    + rewrite IH. cbv zeta. fold rest. unfold api_error. rewrite <- !app_assoc.
      reflexivity.
Qed.

(** One turn of the PDF loop on a page whose reply settles. *)
Lemma pdf_page_settled (prompt : string) (n : nat) (page : image)
    (v : pdf_locals) (ui : list event) :
  decodes_objects json_loads ->
  settles json_loads generate_content prompt page ->
  exists v',
    pdf_page json_loads generate_content str_of prompt n (Rendered page) v ui
    = (Ret tt, v',
       (ui ++ page_events prompt n page
           ++ page_message json_loads generate_content prompt n page)%list).
Proof.
  intros Hlaw Hpage. unfold settles in Hpage.
  rewrite pdf_page_run. unfold page_message.
  destruct (generate_content prompt page) as [r|msg];
    [|eexists; reflexivity].
  destruct (String.eqb r ""); [eexists; now rewrite app_nil_r|].
  destruct (unit_fields json_loads r) as [[f|]|e] eqn:Hf;
    try (eexists; now rewrite app_nil_r).
  rewrite (unit_fields_caught json_loads Hlaw r e Hpage Hf).
  eexists. reflexivity.
Qed.

(** The PDF loop stops at the first page whose reply escapes: the later
    pages are not looked at. *)
Lemma pdf_loop_escape (prompt : string) (front : list image) (page : image)
    (back : list raster) (e : exn) :
  decodes_objects json_loads ->
  Forall (settles json_loads generate_content prompt) front ->
  call_escapes json_loads (generate_content prompt page) = Some e ->
  forall (n : nat) (v : pdf_locals) (ui : list event),
  exists v',
    for_enumerate n (map Rendered front ++ Rendered page :: back)%list
      (pdf_page json_loads generate_content str_of prompt) v ui
    = (Raise e, v',
       (ui ++ pages_output json_loads generate_content prompt n front
           ++ page_events prompt (n + List.length front) page)%list).
Proof.
  intros Hlaw Hfront Hpage.
  destruct (call_escapes_raise _ e Hpage) as (r & Hr & Hne & Hraise & Hkind).
  induction Hfront as [|p front Hp _ IH]; intros n v ui.
  - exists v. cbn [map app List.length pages_output].
    rewrite for_enumerate_cons, pdf_page_run, Hr, Hne, Hraise, Hkind.
    now rewrite Nat.add_0_r.
  - cbn [map app]. rewrite for_enumerate_cons.
    destruct (pdf_page_settled prompt n p v ui Hlaw Hp) as [v1 ->].
    destruct (IH (S n) v1
                 (ui ++ page_events prompt n p
                     ++ page_message json_loads generate_content prompt n p)%list)
      as [v' ->].
    exists v'. cbn [pages_output List.length].
    rewrite <- !app_assoc, Nat.add_succ_comm. reflexivity.
Qed.

(** It stops the same way at the first page that does not render, after
    the status line of that page. *)
Lemma pdf_loop_unrendered (prompt : string) (front : list image)
    (back : list raster) (e : exn) :
  decodes_objects json_loads ->
  Forall (settles json_loads generate_content prompt) front ->
  forall (n : nat) (v : pdf_locals) (ui : list event),
  exists v',
    for_enumerate n (map Rendered front ++ RenderError e :: back)%list
      (pdf_page json_loads generate_content str_of prompt) v ui
    = (Raise e, v',
       (ui ++ pages_output json_loads generate_content prompt n front
           ++ [StStatus ("Analyzing page "
                           ++ PyStr.of_nat (n + List.length front + 1)
                           ++ "...")])%list).
Proof.
  intros Hlaw Hfront.
  induction Hfront as [|p front Hp _ IH]; intros n v ui.
  - exists v. cbn [map app List.length pages_output].
    rewrite for_enumerate_cons, pdf_page_unrendered.
    now rewrite Nat.add_0_r.
  - cbn [map app]. rewrite for_enumerate_cons.
    destruct (pdf_page_settled prompt n p v ui Hlaw Hp) as [v1 ->].
    destruct (IH (S n) v1
                 (ui ++ page_events prompt n p
                     ++ page_message json_loads generate_content prompt n p)%list)
      as [v' ->].
    exists v'. cbn [pages_output List.length].
    rewrite <- !app_assoc, Nat.add_succ_comm. reflexivity.
Qed.

Lemma pages_output_calls (prompt : string) (pages : list image) (n : nat) :
  calls_of (pages_output json_loads generate_content prompt n pages)
  = map (ApiCall prompt) pages.
Proof.
  revert n. induction pages as [|page pages IH]; intros n; [reflexivity|].
  cbn [pages_output map]. rewrite !calls_of_app, IH.
  unfold page_message, page_events, api_error, page_warning.
  destruct (generate_content prompt page) as [r|msg]; [|reflexivity].
  destruct (String.eqb r ""); [reflexivity|].
  destruct (unit_fields json_loads r); reflexivity.
Qed.

Lemma pages_output_warnings (prompt : string) (pages : list image) (n : nat) :
  warnings_of (pages_output json_loads generate_content prompt n pages)
  = failed_warnings json_loads generate_content prompt n pages.
Proof.
  revert n. induction pages as [|page pages IH]; intros n; [reflexivity|].
  cbn [pages_output failed_warnings]. rewrite !warnings_of_app, IH.
  unfold page_message, page_events, api_error, page_warning.
  destruct (generate_content prompt page) as [r|msg]; [|reflexivity].
  destruct (String.eqb r ""); [reflexivity|].
  destruct (unit_fields json_loads r); reflexivity.
Qed.

(** The DOCX loop in closed form, for any decoder. *)
Lemma docx_loop_picks (prompt : string) (parts : list blob) :
  forall (i : nat) (v : docx_locals) (ui : list event),
    let picks :=
      map (image_pick json_loads generate_content Image_open prompt) parts in
    for_enumerate i parts
      (docx_image json_loads generate_content Image_open str_of prompt) v ui
    = (Ret tt,
       mk_docx (full_text v ++ picked_image_sections str_of i picks)
               (all_tables_data v ++ picked_image_entries i picks),
       (ui ++ images_output json_loads generate_content Image_open
                            prompt i parts)%list).
Proof.
  induction parts as [|part parts IH]; intros i v ui picks.
  - cbn. rewrite !app_nil_r. destruct v; reflexivity.
  - subst picks. rewrite for_enumerate_cons, docx_image_run.
    cbn [map picked_image_sections picked_image_entries images_output].
    set (rest := map (image_pick json_loads generate_content Image_open prompt)
                     parts).
    unfold image_pick, image_message, reply_pick.
    destruct (Image_open part) as [msg|img].
    + rewrite IH. cbv zeta. fold rest.
      rewrite <- !app_assoc. reflexivity.
    + destruct (generate_content prompt img) as [r|msg].
      * destruct (String.eqb r "").
        -- rewrite IH. cbv zeta. fold rest.
           rewrite <- !app_assoc. reflexivity.
        -- destruct (unit_fields json_loads r) as [[f|]|e].
           ++ rewrite IH. cbv zeta. fold rest. unfold add_image.
              cbn [full_text all_tables_data].
              rewrite <- !app_assoc. reflexivity.
           ++ rewrite IH. cbv zeta. fold rest.
              rewrite <- !app_assoc. reflexivity.
           ++ rewrite IH. cbv zeta. fold rest.
              rewrite <- !app_assoc. reflexivity.
      * rewrite IH. cbv zeta. fold rest.
        unfold api_error. rewrite <- !app_assoc. reflexivity.
Qed.

Lemma images_output_calls (prompt : string) (parts : list blob) (i : nat) :
  calls_of (images_output json_loads generate_content Image_open prompt i parts)
  = map (ApiCall prompt) (opened_images Image_open parts).
Proof.
  revert i. induction parts as [|part parts IH]; intros i; [reflexivity|].
  cbn [images_output opened_images].
  change (image_status i :: ?l) with ([image_status i] ++ l)%list.
  rewrite !calls_of_app, IH.
  unfold image_message, image_status, image_warning, api_error.
  destruct (Image_open part) as [msg|img]; [reflexivity|].
  destruct (generate_content prompt img) as [r|msg]; [|reflexivity].
  destruct (String.eqb r ""); [reflexivity|].
  destruct (unit_fields json_loads r); reflexivity.
Qed.

(** The entries of the images, by their picks and by their tables. *)
Lemma picked_image_entries_tables (picks : list (option (py * py))) (i : nat) :
  picked_image_entries i picks = image_entries i (map table_pick picks).
Proof.
  revert i. induction picks as [|[f|] picks IH]; intros i;
    cbn [picked_image_entries map table_pick image_entries];
    [reflexivity| |apply IH].
  destruct (truthy (snd f)); cbn [image_entries app]; now rewrite IH.
Qed.

End AnyReplies.

Section AnyDocument.

Variable json_loads : string -> loads_result.
Variable generate_content : string -> image -> api_result.
Variable Image_open : blob -> string + image.
Variable str_of : py -> string.

(** The PDF extractor in closed form. *)
Lemma extract_pdf_run (pages : list image) (prompt : string)
    (V : Type) (v : V) (ui : list event) :
  decodes_objects json_loads ->
  Forall (settles json_loads generate_content prompt) pages ->
  let picks := map (page_pick json_loads generate_content prompt) pages in
  extract_data_from_pdf json_loads generate_content str_of
                        (map Rendered pages) prompt v ui
  = (Ret (picked_sections str_of 0 picks, picked_entries 0 picks), v,
     (ui ++ [StStatus ("Processing " ++ PyStr.of_nat (List.length pages)
                         ++ " pages...")]
         ++ pages_output json_loads generate_content prompt 0 pages
         ++ [StStatus "PDF processing complete!"])%list).
Proof.
  intros Hlaw Hpages picks. unfold extract_data_from_pdf. run_monad.
  rewrite (pdf_loop_picks json_loads generate_content str_of prompt pages
             Hlaw Hpages).
  cbv zeta. cbn. rewrite length_map, <- !app_assoc. reflexivity.
Qed.

(** The DOCX extractor in closed form, once its image parts are listed. *)
Lemma extract_docx_closed (doc : document) (parts : list blob)
    (prompt : string) (V : Type) (v : V) (ui : list event) :
  image_parts doc = inr parts ->
  let picks :=
    map (image_pick json_loads generate_content Image_open prompt) parts in
  extract_data_from_docx json_loads generate_content Image_open str_of
                         doc prompt v ui
  = (Ret (PyStr.join nl (paragraphs doc ++ picked_image_sections str_of 0 picks),
          native_tables 0 (tables doc) ++ picked_image_entries 0 picks)%list,
     v,
     match parts with
     | [] => ui
     | _ =>
         (ui ++ [StStatus ("Found "
                             ++ PyStr.of_nat (List.length parts)
                             ++ " embedded images. Analyzing...")]
             ++ images_output json_loads generate_content Image_open
                              prompt 0 parts
             ++ [StStatus "Image analysis complete!"])%list
     end).
Proof.
  intros Hparts picks. subst picks. unfold extract_data_from_docx. run_monad.
  rewrite Hparts. cbn beta iota.
  destruct parts as [|part parts].
  - cbn. rewrite !app_nil_r. reflexivity.
  - rewrite (docx_loop_picks json_loads generate_content Image_open str_of
               prompt (part :: parts)).
    cbv zeta. cbn beta iota. cbn [full_text all_tables_data].
    rewrite <- !app_assoc. reflexivity.
Qed.

End AnyDocument.

(** X3. Page numbers follow the position in the document. With a decoder
    of objects, for a PDF whose pages render and on whose replies
    [json.loads] raises nothing but [JSONDecodeError], the extractor
    returns the sections, headed ["--- Page N ---"], and the table
    entries, titled ["Table from Page N"], of the pages that
    contributed, N being the 1-indexed position of the page; a page
    whose call failed, whose reply was empty, had no braces or was not
    JSON contributes nothing and still takes its number. *)
Theorem pdf_aggregate_by_position
    (json_loads : string -> loads_result)
    (generate_content : string -> image -> api_result)
    (str_of : py -> string)
    (pages : list image) (prompt : string)
    (V : Type) (v : V) (ui : list event) :
  decodes_objects json_loads ->
  Forall (fun page =>
            call_escapes json_loads (generate_content prompt page) = None)
         pages ->
  let picks := map (page_pick json_loads generate_content prompt) pages in
  fst (extract_data_from_pdf json_loads generate_content str_of
                             (map Rendered pages) prompt v ui)
  = (Ret (picked_sections str_of 0 picks, picked_entries 0 picks), v).
Proof.
  intros Hlaw Hpages picks.
  now rewrite (extract_pdf_run json_loads generate_content str_of
                 pages prompt V v ui Hlaw Hpages).
Qed.

(** X4. One call per page. With a decoder of objects, for a PDF whose
    pages render and on whose replies [json.loads] raises nothing but
    [JSONDecodeError], the extractor calls the model exactly once for
    every page, in page order and with the prompt it was given: no page
    is skipped and none is retried. *)
Theorem pdf_one_call_per_page
    (json_loads : string -> loads_result)
    (generate_content : string -> image -> api_result)
    (str_of : py -> string)
    (pages : list image) (prompt : string)
    (V : Type) (v : V) (ui : list event) :
  decodes_objects json_loads ->
  Forall (fun page =>
            call_escapes json_loads (generate_content prompt page) = None)
         pages ->
  calls_of (snd (extract_data_from_pdf json_loads generate_content str_of
                                       (map Rendered pages) prompt v ui))
  = (calls_of ui ++ map (ApiCall prompt) pages)%list.
Proof.
  intros Hlaw Hpages.
  rewrite (extract_pdf_run json_loads generate_content str_of
             pages prompt V v ui Hlaw Hpages).
  cbn [snd]. rewrite !calls_of_app, pages_output_calls. cbn.
  now rewrite app_nil_r.
Qed.

(** X5. One warning per reply that is not JSON. With a decoder of
    objects, for a PDF whose pages render and on whose replies
    [json.loads] raises nothing but [JSONDecodeError], the warnings the
    extractor shows are exactly one
    ["Could not parse data from page N. Skipping."] for each page whose
    reply [json.loads] refused, in page order, with N the position of
    that page; a failed call, an empty reply and a reply without braces
    get none. *)
Theorem pdf_warnings_name_failed_pages
    (json_loads : string -> loads_result)
    (generate_content : string -> image -> api_result)
    (str_of : py -> string)
    (pages : list image) (prompt : string)
    (V : Type) (v : V) (ui : list event) :
  decodes_objects json_loads ->
  Forall (fun page =>
            call_escapes json_loads (generate_content prompt page) = None)
         pages ->
  warnings_of (snd (extract_data_from_pdf json_loads generate_content str_of
                                          (map Rendered pages) prompt v ui))
  = (warnings_of ui
       ++ failed_warnings json_loads generate_content prompt 0 pages)%list.
Proof.
  intros Hlaw Hpages.
  rewrite (extract_pdf_run json_loads generate_content str_of
             pages prompt V v ui Hlaw Hpages).
  cbn [snd]. rewrite !warnings_of_app, pages_output_warnings. cbn.
  now rewrite app_nil_r.
Qed.

(** X6. The result of a DOCX. For a document whose relationships that
    hold ["image"] are all parts of the package, and for any replies,
    the extractor returns as text the paragraphs followed by one section
    headed ["--- Text from Embedded Image i ---"] for each embedded
    image whose reply gave a non-empty text, all joined by line feeds,
    and as tables the native tables followed by one entry titled
    ["Table from Embedded Image i"] for each image whose reply gave a
    non-empty table, i being the position of the image among the image
    parts; an image that did not open or whose reply failed contributes
    nothing and still takes its number. *)
Theorem docx_aggregate_by_position
    (json_loads : string -> loads_result)
    (generate_content : string -> image -> api_result)
    (Image_open : blob -> string + image)
    (str_of : py -> string)
    (doc : document) (parts : list blob) (prompt : string)
    (V : Type) (v : V) (ui : list event) :
  image_parts doc = inr parts ->
  let picks :=
    map (image_pick json_loads generate_content Image_open prompt) parts in
  fst (extract_data_from_docx json_loads generate_content Image_open str_of
                              doc prompt v ui)
  = (Ret (PyStr.join nl (paragraphs doc ++ picked_image_sections str_of 0 picks),
          native_tables 0 (tables doc) ++ picked_image_entries 0 picks)%list,
     v).
Proof.
  intros Hparts picks.
  now rewrite (extract_docx_closed json_loads generate_content Image_open
                 str_of doc parts prompt V v ui Hparts).
Qed.

(** X7. Calls of the DOCX extractor. For a document whose relationships
    that hold ["image"] are all parts of the package, it calls the
    model exactly once for each image part that [Image.open] accepts, in
    enumeration order and with the prompt it was given; a part that
    does not open gets no call, and a document with no such relationship
    gets no call and shows nothing. *)
Theorem docx_one_call_per_opened_image
    (json_loads : string -> loads_result)
    (generate_content : string -> image -> api_result)
    (Image_open : blob -> string + image)
    (str_of : py -> string)
    (doc : document) (parts : list blob) (prompt : string)
    (V : Type) (v : V) (ui : list event) :
  image_parts doc = inr parts ->
  let run := extract_data_from_docx json_loads generate_content Image_open
                                    str_of doc prompt v ui in
  calls_of (snd run)
  = (calls_of ui ++ map (ApiCall prompt) (opened_images Image_open parts))%list
  /\ (parts = [] -> snd run = ui).
Proof.
  intros Hparts run. subst run.
  rewrite (extract_docx_closed json_loads generate_content Image_open
             str_of doc parts prompt V v ui Hparts).
  cbn [snd]. split.
  - destruct parts as [|part parts].
    + cbn. now rewrite app_nil_r.
    + rewrite !calls_of_app, images_output_calls. cbn.
      now rewrite app_nil_r.
  - intros ->. reflexivity.
Qed.

(** X19. The tables of a DOCX. For a document with T native tables whose
    K relationships that hold ["image"] are all parts of the package,
    the extractor returns, whatever the replies, a table list made of
    exactly T entries titled ["Native Table 1"] to ["Native Table T"],
    holding the cell texts of the tables in document order, followed by
    the entries of the images that yielded a table: at most K, titled
    ["Table from Embedded Image i"] with i the 1-indexed place of the
    image in the enumeration, in increasing order. *)
Theorem docx_tables_native_then_images
    (json_loads : string -> loads_result)
    (generate_content : string -> image -> api_result)
    (Image_open : blob -> string + image)
    (str_of : py -> string)
    (doc : document) (parts : list blob) (prompt : string)
    (V : Type) (v : V) (ui : list event) :
  image_parts doc = inr parts ->
  let picks :=
    map (fun part =>
           table_pick (image_pick json_loads generate_content Image_open
                                  prompt part)) parts in
  exists (text : string) (native from_images : list table_info)
         (ui' : list event),
    extract_data_from_docx json_loads generate_content Image_open str_of
                           doc prompt v ui
    = (Ret (text, native ++ from_images)%list, v, ui')
    /\ map title native
       = map (fun i => "Native Table " ++ PyStr.of_nat (i + 1))
             (seq 0 (List.length (tables doc)))
    /\ map data native
       = map (fun t => PList (map (fun row => PList (map PStr row)) t))
             (tables doc)
    /\ map title from_images
       = map (fun i => "Table from Embedded Image " ++ PyStr.of_nat (i + 1))
             (positions 0 picks)
    /\ map data from_images = yielded picks
    /\ Forall (fun i => (i < List.length parts)%nat) (positions 0 picks)
    /\ (List.length from_images <= List.length parts)%nat.
Proof.
  intros Hparts picks.
  rewrite (extract_docx_closed json_loads generate_content Image_open
             str_of doc parts prompt V v ui Hparts). cbv zeta.
  rewrite picked_image_entries_tables, map_map. fold picks.
  assert (Hl : List.length picks = List.length parts)
    by (unfold picks; apply length_map).
  destruct (positions_bounds picks 0) as [Hall Hlen].
  eexists. exists (native_tables 0 (tables doc)), (image_entries 0 picks).
  eexists. repeat split.
  - apply native_tables_titles.
  - apply native_tables_data.
  - apply image_entries_titles.
  - apply image_entries_data.
  - rewrite <- Hl. eapply Forall_impl; [|exact Hall]. cbn. intros i Hi. lia.
  - rewrite <- (length_map title), image_entries_titles, length_map, <- Hl.
    exact Hlen.
Qed.

(** X20. The PDF extractor stops at the first page it cannot get past.
    With a decoder of objects, when the pages before render and their
    replies settle: a page on whose reply [json.loads] raises
    [ValueError] or [RecursionError] makes the extractor raise that
    exception right after the call for that page; a page that does not
    render makes it raise before any call for that page. In both cases
    nothing is returned of what the earlier pages gave, and no later
    page is sent to the model. *)
Theorem pdf_stops_at_first_escape
    (json_loads : string -> loads_result)
    (generate_content : string -> image -> api_result)
    (str_of : py -> string)
    (front : list image) (back : list raster) (e : exn) (prompt : string)
    (V : Type) (v : V) (ui : list event) :
  decodes_objects json_loads ->
  Forall (fun page =>
            call_escapes json_loads (generate_content prompt page) = None)
         front ->
  (forall page,
      call_escapes json_loads (generate_content prompt page) = Some e ->
      let run := extract_data_from_pdf json_loads generate_content str_of
                   (map Rendered front ++ Rendered page :: back)%list
                   prompt v ui in
      fst run = (Raise e, v)
      /\ calls_of (snd run)
         = (calls_of ui ++ map (ApiCall prompt) (front ++ [page]))%list)
  /\ (let run := extract_data_from_pdf json_loads generate_content str_of
                   (map Rendered front ++ RenderError e :: back)%list
                   prompt v ui in
      fst run = (Raise e, v)
      /\ calls_of (snd run) = (calls_of ui ++ map (ApiCall prompt) front)%list).
Proof.
  intros Hlaw Hfront. split.
  - intros page Hpage run. subst run. unfold extract_data_from_pdf. run_monad.
    destruct (pdf_loop_escape json_loads generate_content str_of prompt
                front page back e Hlaw Hfront Hpage 0 (mk_pdf "" [])
                (ui ++ [StStatus ("Processing "
                                    ++ PyStr.of_nat
                                         (List.length
                                            (map Rendered front
                                               ++ Rendered page :: back))
                                    ++ " pages...")])%list) as [v' Hrun].
    rewrite Hrun. cbn [fst snd]. split; [reflexivity|].
    rewrite !calls_of_app, pages_output_calls, map_app. cbn.
    now rewrite app_nil_r.
  - intros run. subst run. unfold extract_data_from_pdf. run_monad.
    destruct (pdf_loop_unrendered json_loads generate_content str_of prompt
                front back e Hlaw Hfront 0 (mk_pdf "" [])
                (ui ++ [StStatus ("Processing "
                                    ++ PyStr.of_nat
                                         (List.length
                                            (map Rendered front
                                               ++ RenderError e :: back))
                                    ++ " pages...")])%list) as [v' Hrun].
    rewrite Hrun. cbn [fst snd]. split; [reflexivity|].
    rewrite !calls_of_app, pages_output_calls. cbn.
    now rewrite !app_nil_r.
Qed.

(** ** The dispatcher *)

Lemma lower_char_keeps (c : ascii) (a : ascii) :
  c = "."%char \/ c = "/"%char ->
  Ascii.eqb (PyStr.lower_char a) c = Ascii.eqb a c.
Proof.
  intros [->| ->]; destruct a as [[] [] [] [] [] [] [] []]; reflexivity.
Qed.

Lemma lower_char_idempotent (a : ascii) :
  PyStr.lower_char (PyStr.lower_char a) = PyStr.lower_char a.
Proof. destruct a as [[] [] [] [] [] [] [] []]; reflexivity. Qed.

Lemma lower_idempotent (s : string) : PyStr.lower (PyStr.lower s) = PyStr.lower s.
Proof.
  unfold PyStr.lower. induction s as [|a s IH]; cbn; [reflexivity|].
  now rewrite lower_char_idempotent, IH.
Qed.

Lemma length_map_chars (f : ascii -> ascii) (s : string) :
  String.length (PyStr.map_chars f s) = String.length s.
Proof. induction s; cbn; [reflexivity|]. now rewrite IHs. Qed.

Lemma substring_map_chars (f : ascii -> ascii) (s : string) (n m : nat) :
  substring n m (PyStr.map_chars f s) = PyStr.map_chars f (substring n m s).
Proof.
  revert n m. induction s as [|a s IH]; intros [|n] [|m]; cbn;
    rewrite ?IH; reflexivity.
Qed.

Lemma slice_map_chars (f : ascii -> ascii) (s : string) (a b : Z) :
  PyStr.slice (PyStr.map_chars f s) a b = PyStr.map_chars f (PyStr.slice s a b).
Proof.
  unfold PyStr.slice, PyStr.len. rewrite length_map_chars.
  apply substring_map_chars.
Qed.

Lemma rfind_from_lower (c : ascii) (s : string) (i last : Z) :
  c = "."%char \/ c = "/"%char ->
  PyStr.rfind_from c (PyStr.lower s) i last = PyStr.rfind_from c s i last.
Proof.
  intros Hc. unfold PyStr.lower. revert i last.
  induction s as [|a s IH]; intros i last; cbn; [reflexivity|].
  now rewrite lower_char_keeps, IH.
Qed.

Lemma all_dots_lower (s : string) :
  OsPath.all_dots (PyStr.lower s) = OsPath.all_dots s.
Proof.
  unfold PyStr.lower. induction s as [|a s IH]; cbn; [reflexivity|].
  rewrite lower_char_keeps by (left; reflexivity). now rewrite IH.
Qed.

(** Lower-casing a path and taking its extension commute. *)
Lemma splitext_lower (p : string) :
  OsPath.splitext_ext (PyStr.lower p) = PyStr.lower (OsPath.splitext_ext p).
Proof.
  unfold OsPath.splitext_ext, PyStr.rfind, PyStr.slice_from.
  rewrite !rfind_from_lower by auto.
  set (sep := PyStr.rfind_from "/"%char p 0 (-1)).
  set (dot := PyStr.rfind_from "."%char p 0 (-1)).
  assert (Hlen : PyStr.len (PyStr.lower p) = PyStr.len p)
    by (unfold PyStr.len, PyStr.lower; now rewrite length_map_chars).
  rewrite Hlen.
  assert (Hslice : forall a b,
             PyStr.slice (PyStr.lower p) a b = PyStr.lower (PyStr.slice p a b))
    by (intros a b; apply slice_map_chars).
  rewrite !Hslice, all_dots_lower.
  destruct (_ && _); reflexivity.
Qed.

(** X8. The case of an ASCII file name does not matter to the dispatch:
    an upload whose name holds ASCII characters only and the same upload
    under its lower-cased name have the same extension for the
    dispatcher, which does the same on both. (Beyond ASCII the small
    letter of a capital can depend on its place in the word, which
    [lower] taken character by character does not tell.) *)
Theorem dispatch_ignores_case
    (json_loads : string -> loads_result)
    (generate_content : string -> image -> api_result)
    (Image_open : blob -> string + image)
    (str_of : py -> string)
    (f : uploaded_file) (ui : list event) :
  all_chars is_ascii (name f) = true ->
  file_extension (rename f (PyStr.lower (name f))) = file_extension f
  /\ main_extract json_loads generate_content Image_open str_of
                  (rename f (PyStr.lower (name f))) tt ui
     = main_extract json_loads generate_content Image_open str_of f tt ui.
Proof.
  intros _.
  assert (Hext : file_extension (rename f (PyStr.lower (name f)))
                 = file_extension f).
  { unfold file_extension, rename. cbn [name].
    now rewrite splitext_lower, lower_idempotent. }
  split; [exact Hext|].
  unfold main_extract, main_image. rewrite Hext. reflexivity.
Qed.

Section NothingExtracted.

Variable json_loads : string -> loads_result.
Variable generate_content : string -> image -> api_result.
Variable Image_open : blob -> string + image.
Variable str_of : py -> string.



End NothingExtracted.


(** ** Display and CSV export, table by table *)

Section TableByTable.

Variable DataFrame_other : py -> option py -> exn + frame.
Variable dataframe_refused : frame -> option exn.
Variable to_string : frame -> string.
Variable to_csv : frame -> string.
Variable str_of : py -> string.

(** One table of the display loop: it never raises, leaves the locals
    alone, and shows the same whatever came before. *)
Lemma render_table_run (t : table_info) (txt : string) (ui : list event) :
  render_table DataFrame_other dataframe_refused t txt ui
  = (Ret tt, txt,
     (ui ++ render_events DataFrame_other dataframe_refused t)%list).
Proof.
  unfold render_events, render_table, rows_gt1, DataFrame, st_dataframe.
  run_monad.
  destruct (data t) as [ |b|z|fl|s|l|d];
    cbn [truthy py_len py_slice_from1 py_item0];
    unfold ret, raise; cbn beta iota.
  - now rewrite <- !app_assoc.
  - destruct b; cbn; now rewrite <- !app_assoc.
  - destruct (negb (z =? 0)%Z); cbn; now rewrite <- !app_assoc.
  - destruct (float_nonzero fl); cbn; now rewrite <- !app_assoc.
  - destruct s as [|c [|c' s]]; cbn; now rewrite <- !app_assoc.
  - destruct l as [|x [|y l]]; cbn beta iota.
    + now rewrite <- !app_assoc.
    + cbn [List.length Nat.ltb Nat.leb]. cbn beta iota.
      destruct (Pandas.DataFrame DataFrame_other (PList [x]) None) as [e|df];
        [|destruct (dataframe_refused df)];
        cbn; now rewrite <- !app_assoc.
    + cbn [List.length Nat.ltb Nat.leb tl]. cbn beta iota.
      destruct (Pandas.DataFrame DataFrame_other (PList (y :: l)) (Some x))
        as [e|df]; [|destruct (dataframe_refused df)];
        cbn; now rewrite <- !app_assoc.
  - destruct d as [|x [|y d]]; cbn beta iota.
    + now rewrite <- !app_assoc.
    + cbn [List.length Nat.ltb Nat.leb]. cbn beta iota.
      destruct (Pandas.DataFrame DataFrame_other (PDict [x]) None) as [e|df];
        [|destruct (dataframe_refused df)];
        cbn; now rewrite <- !app_assoc.
    + cbn [List.length Nat.ltb Nat.leb]. cbn. now rewrite <- !app_assoc.
Qed.

(** One table of the CSV loop, likewise. *)
Lemma csv_table_alone (t : table_info) (txt : string) (ui : list event) :
  csv_table DataFrame_other to_csv t txt ui
  = (Ret tt, txt, (ui ++ csv_events DataFrame_other to_csv t)%list).
Proof.
  unfold csv_events, csv_table, rows_gt1, DataFrame.
  run_monad.
  destruct (data t) as [ |b|z|fl|s|l|d];
    cbn [truthy py_len py_slice_from1 py_item0];
    unfold ret, raise; cbn beta iota.
  - now rewrite app_nil_r.
  - destruct b; cbn; now rewrite ?app_nil_r.
  - destruct (negb (z =? 0)%Z); cbn; now rewrite ?app_nil_r.
  - destruct (float_nonzero fl); cbn; now rewrite ?app_nil_r.
  - destruct s as [|c [|c' s]]; cbn; now rewrite ?app_nil_r.
  - destruct l as [|x [|y l]]; cbn beta iota.
    + now rewrite app_nil_r.
    + cbn. now rewrite app_nil_r.
    + cbn [List.length Nat.ltb Nat.leb tl]. cbn beta iota.
      destruct (Pandas.DataFrame DataFrame_other (PList (y :: l)) (Some x));
        cbn; reflexivity.
  - destruct d as [|x [|y d]]; cbn; now rewrite ?app_nil_r.
Qed.

Lemma render_loop (ts : list table_info) :
  forall (n : nat) (txt : string) (ui : list event),
    for_enumerate n ts (fun _ t => render_table DataFrame_other dataframe_refused t) txt ui
    = (Ret tt, txt, (ui ++ flat_map (render_events DataFrame_other dataframe_refused) ts)%list).
Proof.
  induction ts as [|t ts IH]; intros n txt ui.
  - cbn. now rewrite app_nil_r.
  - rewrite for_enumerate_cons, render_table_run, IH. cbn [flat_map].
    now rewrite <- app_assoc.
Qed.

Lemma csv_loop (ts : list table_info) :
  forall (n : nat) (txt : string) (ui : list event),
    for_enumerate n ts (fun _ t => csv_table DataFrame_other to_csv t) txt ui
    = (Ret tt, txt,
       (ui ++ flat_map (csv_events DataFrame_other to_csv) ts)%list).
Proof.
  induction ts as [|t ts IH]; intros n txt ui.
  - cbn. now rewrite app_nil_r.
  - rewrite for_enumerate_cons, csv_table_alone, IH. cbn [flat_map].
    now rewrite <- app_assoc.
Qed.

Lemma csv_events_cases (t : table_info) :
  csv_events DataFrame_other to_csv t = []
  \/ csv_events DataFrame_other to_csv t = [csv_warning t]
  \/ exists df, csv_events DataFrame_other to_csv t = [csv_download to_csv t df].
Proof.
  unfold csv_events.
  destruct (csv_table_run DataFrame_other to_csv t "" []) as (evs & Hrun & Hevs).
  rewrite Hrun. exact Hevs.
Qed.

Lemma csv_downloads_bound (ts : list table_info) :
  (List.length (downloads_of (flat_map (csv_events DataFrame_other to_csv) ts))
   <= List.length ts)%nat.
Proof.
  induction ts as [|t ts IH]; [cbn; lia|].
  cbn [flat_map]. unfold downloads_of in *. rewrite filter_app, List.length_app.
  destruct (csv_events_cases t) as [->|[->|[df ->]]]; cbn in *; lia.
Qed.

End TableByTable.

Section ExportRuns.

Variable DataFrame_other : py -> option py -> exn + frame.
Variable dataframe_refused : frame -> option exn.
Variable to_string : frame -> string.
Variable to_csv : frame -> string.
Variable str_of : py -> string.

Lemma render_results_run (extracted_text : py) (ts : list table_info)
    (txt : string) (ui : list event) :
  render_results DataFrame_other dataframe_refused extracted_text ts txt ui
  = (Ret tt, txt,
     (ui ++ [StMarkdown "---"; StHeader "Extracted Results";
             StHeader "Extracted Text";
             StTextArea "Text Content" extracted_text]
         ++ match ts with
            | [] => [StInfo "No tables were found in the file."]
            | _ => StHeader "Extracted Tables"
                   :: flat_map (render_events DataFrame_other dataframe_refused) ts
            end)%list).
Proof.
  unfold render_results. run_monad. destruct ts as [|t ts].
  - now rewrite <- !app_assoc.
  - rewrite render_loop. rewrite <- !app_assoc. reflexivity.
Qed.

Lemma csv_export_run (ts : list table_info) (txt : string) (ui : list event) :
  csv_export DataFrame_other to_csv ts txt ui
  = (Ret tt, txt,
     (ui ++ match ts with
            | [] => []
            | _ => [StMarkdown "---";
                    StHeader "Download Individual Tables as CSV"]
                   ++ flat_map (csv_events DataFrame_other to_csv) ts
            end)%list).
Proof.
  unfold csv_export. destruct ts as [|t ts].
  - cbn. now rewrite app_nil_r.
  - run_monad. rewrite csv_loop. rewrite <- !app_assoc. reflexivity.
Qed.

End ExportRuns.

(** X10. The display never fails. For any table list and any behaviour
    of pandas and of [st.dataframe], the display of the results raises
    nothing and leaves the locals alone; it shows the text, then
    ["No tables were found in the file."] for an empty list, or the
    tables one after the other, each shown exactly as it would be
    alone: what pandas refuses for one table changes nothing for the
    others. *)
Theorem display_never_fails
    (DataFrame_other : py -> option py -> exn + frame)
    (dataframe_refused : frame -> option exn)
    (extracted_text : py) (ts : list table_info)
    (txt : string) (ui : list event) :
  render_results DataFrame_other dataframe_refused extracted_text ts txt ui
  = (Ret tt, txt,
     (ui ++ [StMarkdown "---"; StHeader "Extracted Results";
             StHeader "Extracted Text";
             StTextArea "Text Content" extracted_text]
         ++ match ts with
            | [] => [StInfo "No tables were found in the file."]
            | _ => StHeader "Extracted Tables"
                   :: flat_map (render_events DataFrame_other dataframe_refused) ts
            end)%list).
Proof. apply render_results_run. Qed.

(** X11. The CSV export never fails. For any table list and any
    behaviour of pandas, the CSV loop raises nothing and leaves the
    locals alone; an empty list shows nothing, not even the heading;
    each table shows what it would show alone, which is nothing, its
    warning, or one download button, so there are at most as many
    buttons as tables. *)
Theorem csv_export_never_fails
    (DataFrame_other : py -> option py -> exn + frame)
    (to_csv : frame -> string) (ts : list table_info)
    (txt : string) (ui : list event) :
  let shown := flat_map (csv_events DataFrame_other to_csv) ts in
  csv_export DataFrame_other to_csv ts txt ui
  = (Ret tt, txt,
     (ui ++ match ts with
            | [] => []
            | _ => [StMarkdown "---";
                    StHeader "Download Individual Tables as CSV"] ++ shown
            end)%list)
  /\ (List.length (downloads_of shown) <= List.length ts)%nat
  /\ Forall (fun t =>
               csv_events DataFrame_other to_csv t = []
               \/ csv_events DataFrame_other to_csv t = [csv_warning t]
               \/ exists df, csv_events DataFrame_other to_csv t
                              = [csv_download to_csv t df]) ts.
Proof.
  intros shown. subst shown. split; [|split].
  - apply csv_export_run.
  - apply csv_downloads_bound.
  - apply Forall_forall. intros t _. apply csv_events_cases.
Qed.

(** ** File names *)

Lemma in_class_fixed (c : ascii) :
  in_class c = true ->
  PyStr.lower_char c = c /\ Ascii.eqb c " "%char = false.
Proof.
  destruct c as [[] [] [] [] [] [] [] []]; cbn; intros H;
    try discriminate H; split; reflexivity.
Qed.

Lemma filter_chars_all (p : ascii -> bool) (s : string) :
  all_chars p (PyStr.filter_chars p s) = true.
Proof.
  induction s as [|a s IH]; cbn; [reflexivity|].
  destruct (p a) eqn:Hp; cbn; [now rewrite Hp|exact IH].
Qed.

Lemma filter_chars_length (p : ascii -> bool) (s : string) :
  (String.length (PyStr.filter_chars p s) <= String.length s)%nat.
Proof.
  induction s as [|a s IH]; cbn; [lia|]. destruct (p a); cbn; lia.
Qed.

Lemma filter_filename_fixed (s : string) :
  all_chars in_class s = true -> filter_filename s = s.
Proof.
  unfold filter_filename. induction s as [|a s IH]; cbn; [reflexivity|].
  intros H. apply andb_true_iff in H as [Ha Hs].
  destruct (in_class_fixed a Ha) as [-> ->]. rewrite Ha. now rewrite IH.
Qed.

Lemma filter_filename_app (a b : string) :
  filter_filename (a ++ b) = filter_filename a ++ filter_filename b.
Proof.
  unfold filter_filename. induction a as [|x a IH]; cbn; [reflexivity|].
  destruct (in_class _); cbn; now rewrite IH.
Qed.

(** X12. A sanitised file name holds nothing but [a-z], [0-9] and [_]:
    no dot, no slash, no space, no upper-case letter; it is never longer
    than the title, and sanitising it again changes nothing. *)
Theorem safe_filename_is_safe (t : table_info) (d : py) :
  all_chars in_class (safe_filename t) = true
  /\ (String.length (safe_filename t) <= String.length (title t))%nat
  /\ safe_filename (mk_table (safe_filename t) d) = safe_filename t.
Proof.
  rewrite !safe_filename_filter. cbn [title].
  assert (Hall : all_chars in_class (filter_filename (title t)) = true)
    by apply filter_chars_all.
  split; [exact Hall|]. split.
  - unfold filter_filename.
    etransitivity; [apply filter_chars_length|].
    now rewrite !length_map_chars.
  - now apply filter_filename_fixed.
Qed.

Lemma of_nat_decode (n : nat) :
  option_map Nat.of_uint (NilZero.uint_of_string (PyStr.of_nat n)) = Some n.
Proof.
  unfold PyStr.of_nat.
  destruct (NilZero.usu_gen (Nat.to_uint n)) as [H|H]; rewrite H; cbn [option_map].
  - now rewrite DecimalNat.Unsigned.of_to.
  - assert (Hd : Nat.to_uint n = Decimal.Nil \/ Nat.to_uint n = Decimal.zero).
    { destruct (Nat.to_uint n) eqn:E; [left; reflexivity|right|..];
        rewrite NilZero.usu in H by discriminate;
        injection H as H; (exact (f_equal _ H) || discriminate H). }
    pose proof (DecimalNat.Unsigned.of_to n) as Hn.
    destruct Hd as [E|E]; rewrite E in Hn; cbn in Hn; subst n; reflexivity.
Qed.

Lemma of_nat_inj (n m : nat) : PyStr.of_nat n = PyStr.of_nat m -> n = m.
Proof.
  intros H. pose proof (of_nat_decode n) as Hn. rewrite H, of_nat_decode in Hn.
  now injection Hn.
Qed.

Lemma digits_in_class (d : Decimal.uint) :
  all_chars in_class (NilEmpty.string_of_uint d) = true.
Proof. induction d; cbn; try reflexivity; exact IHd. Qed.

Lemma of_nat_in_class (n : nat) : all_chars in_class (PyStr.of_nat n) = true.
Proof.
  unfold PyStr.of_nat, NilZero.string_of_uint.
  destruct (Nat.to_uint n) eqn:E; try reflexivity;
    rewrite <- E; pose proof (digits_in_class (Nat.to_uint n)) as H;
    rewrite E in *; exact H.
Qed.

Lemma string_app_inv_head (s t u : string) : s ++ t = s ++ u -> t = u.
Proof. induction s; cbn; [easy|]. intros [= H]. now apply IHs. Qed.

Lemma string_app_inv_tail (t s s' : string) : s ++ t = s' ++ t -> s = s'.
Proof.
  revert s'. induction s as [|a s IH]; intros [|b s'] H; cbn in H.
  - reflexivity.
  - exfalso. apply (f_equal String.length) in H.
    cbn in H. rewrite string_length_app in H. lia.
  - exfalso. apply (f_equal String.length) in H.
    cbn in H. rewrite string_length_app in H. lia.
  - injection H as -> H. f_equal. now apply IH.
Qed.

Lemma csv_name_inj (prefix : string) (n m : nat) :
  prefix ++ PyStr.of_nat (n + 1) ++ ".csv"
  = prefix ++ PyStr.of_nat (m + 1) ++ ".csv" -> n = m.
Proof.
  intros H. apply string_app_inv_head, string_app_inv_tail, of_nat_inj in H.
  lia.
Qed.

Lemma names_from_bound (name : nat -> string) (n : nat) (l : list string) :
  names_from name n l ->
  Forall (fun x => exists k, (n <= k)%nat /\ x = name k) l.
Proof.
  induction 1 as [n|n l _ IH|n l _ IH].
  - constructor.
  - eapply Forall_impl; [|exact IH].
    intros x (k & Hk & ->). exists k. split; [lia|reflexivity].
  - constructor; [exists n; split; [lia|reflexivity]|].
    eapply Forall_impl; [|exact IH].
    intros x (k & Hk & ->). exists k. split; [lia|reflexivity].
Qed.

(** Names taken in increasing order of index never repeat. *)
Lemma names_from_NoDup (name : nat -> string) (n : nat) (l : list string) :
  (forall a b, name a = name b -> a = b) ->
  names_from name n l -> NoDup l.
Proof.
  intros Hinj. induction 1 as [n|n l _ IH|n l Hl IH].
  - constructor.
  - exact IH.
  - constructor; [|exact IH].
    intros Hin. apply names_from_bound in Hl.
    rewrite Forall_forall in Hl.
    destruct (Hl _ Hin) as (k & Hk & E). apply Hinj in E. lia.
Qed.

Lemma page_entry_name (n : nat) (d : py) :
  safe_filename (page_table_entry n d) ++ ".csv" = page_csv_name n.
Proof.
  rewrite safe_filename_filter. unfold page_table_entry, page_csv_name.
  cbn [title]. rewrite filter_filename_app.
  rewrite (filter_filename_fixed _ (of_nat_in_class (n + 1))).
  change (filter_filename "Table from Page ") with "table_from_page_".
  now rewrite string_app_assoc.
Qed.

Lemma native_entry_name (i : nat) (t : list (list string)) :
  safe_filename (native_table_entry i t) ++ ".csv" = native_csv_name i.
Proof.
  rewrite safe_filename_filter. unfold native_table_entry, native_csv_name.
  cbn [title]. rewrite filter_filename_app.
  rewrite (filter_filename_fixed _ (of_nat_in_class (i + 1))).
  change (filter_filename "Native Table ") with "native_table_".
  now rewrite string_app_assoc.
Qed.

Lemma image_entry_name (i : nat) (d : py) :
  safe_filename (image_table_entry i d) ++ ".csv" = image_csv_name i.
Proof.
  rewrite safe_filename_filter. unfold image_table_entry, image_csv_name.
  cbn [title]. rewrite filter_filename_app.
  rewrite (filter_filename_fixed _ (of_nat_in_class (i + 1))).
  change (filter_filename "Table from Embedded Image ")
    with "table_from_embedded_image_".
  now rewrite string_app_assoc.
Qed.

Lemma csv_names_cons (t : table_info) (ts : list table_info) :
  csv_names (t :: ts) = (safe_filename t ++ ".csv") :: csv_names ts.
Proof. reflexivity. Qed.

Lemma picked_entries_names (picks : list (option (py * py))) (n : nat) :
  names_from page_csv_name n (csv_names (picked_entries n picks)).
Proof.
  revert n. induction picks as [|[f|] picks IH]; intros n;
    cbn [picked_entries].
  - constructor.
  - destruct (truthy (snd f)); cbn [app].
    + change (mk_table ("Table from Page " ++ PyStr.of_nat (n + 1)) (snd f))
        with (page_table_entry n (snd f)).
      rewrite csv_names_cons, page_entry_name. apply names_take, IH.
    + apply names_skip, IH.
  - apply names_skip, IH.
Qed.

Lemma native_tables_names_seq (ts : list (list (list string))) (n : nat) :
  csv_names (native_tables n ts) = map native_csv_name (seq n (List.length ts)).
Proof.
  revert n. induction ts as [|t ts IH]; intros n;
    cbn [native_tables List.length seq map]; [reflexivity|].
  now rewrite csv_names_cons, native_entry_name, IH.
Qed.

Lemma native_tables_names (ts : list (list (list string))) (n : nat) :
  names_from native_csv_name n (csv_names (native_tables n ts)).
Proof.
  revert n. induction ts as [|t ts IH]; intros n; cbn [native_tables].
  - constructor.
  - rewrite csv_names_cons, native_entry_name. apply names_take, IH.
Qed.

Lemma image_entries_names (picks : list (option py)) (i : nat) :
  names_from image_csv_name i (csv_names (image_entries i picks)).
Proof.
  revert i. induction picks as [|[d|] picks IH]; intros i;
    cbn [image_entries].
  - constructor.
  - rewrite csv_names_cons, image_entry_name. apply names_take, IH.
  - apply names_skip, IH.
Qed.

Lemma docx_names_NoDup (ts : list (list (list string)))
    (picks : list (option py)) :
  NoDup (csv_names (native_tables 0 ts ++ image_entries 0 picks)).
Proof.
  unfold csv_names. rewrite map_app.
  pose proof (native_tables_names ts 0) as Hn.
  pose proof (image_entries_names picks 0) as Hi.
  unfold csv_names in Hn, Hi.
  apply NoDup_app.
  - apply (names_from_NoDup native_csv_name 0); [|exact Hn].
    intros a b. apply csv_name_inj.
  - apply (names_from_NoDup image_csv_name 0); [|exact Hi].
    intros a b. apply csv_name_inj.
  - intros x Hx1 Hx2.
    apply names_from_bound in Hn, Hi. rewrite Forall_forall in Hn, Hi.
    destruct (Hn x Hx1) as (k & _ & ->). destruct (Hi _ Hx2) as (k' & _ & E).
    discriminate E.
Qed.

(** X13. The CSV file names of one result never collide. With a decoder
    of objects, for a PDF whose pages render and whose replies settle,
    the tables are saved as [table_from_page_N.csv] with N increasing.
    For a DOCX whose relationships that hold ["image"] are all parts of
    the package, and any decoder, the T native tables are saved as
    [native_table_1.csv] to [native_table_T.csv] and the tables of the
    images as [table_from_embedded_image_i.csv] with i increasing. So
    no two tables of one result get the same file name. *)
Theorem csv_names_never_collide
    (json_loads : string -> loads_result)
    (generate_content : string -> image -> api_result)
    (Image_open : blob -> string + image)
    (str_of : py -> string) :
  (decodes_objects json_loads ->
   forall pages prompt (V : Type) (v : V) ui,
     Forall (fun page =>
               call_escapes json_loads (generate_content prompt page) = None)
            pages ->
     exists text tables ui',
       extract_data_from_pdf json_loads generate_content str_of
                             (map Rendered pages) prompt v ui
       = (Ret (text, tables), v, ui')
       /\ names_from page_csv_name 0 (csv_names tables)
       /\ NoDup (csv_names tables))
  /\ (forall doc parts prompt (V : Type) (v : V) ui,
      image_parts doc = inr parts ->
      exists text native from_images ui',
        extract_data_from_docx json_loads generate_content Image_open str_of
                               doc prompt v ui
        = (Ret (text, native ++ from_images)%list, v, ui')
        /\ csv_names native
           = map native_csv_name (seq 0 (List.length (tables doc)))
        /\ names_from image_csv_name 0 (csv_names from_images)
        /\ NoDup (csv_names (native ++ from_images))).
Proof.
  split.
  - intros Hlaw pages prompt V v ui Hpages.
    rewrite (extract_pdf_run json_loads generate_content str_of
               pages prompt V v ui Hlaw Hpages). cbv zeta.
    eexists. eexists. eexists. split; [reflexivity|].
    split; [apply picked_entries_names|].
    apply (names_from_NoDup page_csv_name 0); [|apply picked_entries_names].
    intros a b. apply csv_name_inj.
  - intros doc parts prompt V v ui Hparts.
    rewrite (extract_docx_closed json_loads generate_content Image_open
               str_of doc parts prompt V v ui Hparts). cbv zeta.
    rewrite picked_image_entries_tables.
    eexists. eexists. eexists. eexists. split; [reflexivity|].
    split; [apply native_tables_names_seq|].
    split; [apply image_entries_names|].
    apply docx_names_NoDup.
Qed.

(** ** Native tables *)

Lemma native_table_rows (i : nat) (t : list (list string)) :
  table_of_rows (native_table_entry i t) (map (map PStr) t).
Proof.
  eexists. split; [reflexivity|].
  induction t as [|row t IH]; cbn; [reflexivity|]. now rewrite IH.
Qed.

Lemma native_tables_rows (ts : list (list (list string))) (n : nat) :
  Forall2 table_of_rows (native_tables n ts) (map (map (map PStr)) ts).
Proof.
  revert n. induction ts as [|t ts IH]; intros n; cbn; constructor.
  - apply native_table_rows.
  - apply IH.
Qed.

(** ** The flat-text export, table by table *)

Section FlatText.

Variable DataFrame_other : py -> option py -> exn + frame.
Variable to_string : frame -> string.
Variable to_csv : frame -> string.
Variable str_of : py -> string.

Lemma txt_table_built (t : table_info) (df : frame)
    (txt : string) (ui : list event) :
  Pandas.DataFrame DataFrame_other (data t) None = inr df ->
  txt_table DataFrame_other to_string t txt ui
  = (Ret tt, txt ++ table_heading t ++ to_string df, ui).
Proof.
  intros H. unfold txt_table, DataFrame. run_monad. rewrite H. cbn.
  now rewrite string_app_assoc.
Qed.

Lemma txt_table_refused (t : table_info) (e : exn)
    (txt : string) (ui : list event) :
  Pandas.DataFrame DataFrame_other (data t) None = inl e ->
  txt_table DataFrame_other to_string t txt ui
  = (Raise e, txt ++ table_heading t, ui).
Proof.
  intros H. unfold txt_table, DataFrame. run_monad. now rewrite H.
Qed.

(** The flat-text loop ends normally when pandas builds every frame. *)
Lemma txt_loop_built (ts : list table_info) :
  Forall (frame_built DataFrame_other) ts ->
  forall (n : nat) (txt : string) (ui : list event),
  exists txt',
    for_enumerate n ts (fun _ t => txt_table DataFrame_other to_string t) txt ui
    = (Ret tt, txt', ui).
Proof.
  induction 1 as [|t ts (df & Hdf) _ IH]; intros n txt ui.
  - exists txt. reflexivity.
  - rewrite for_enumerate_cons, (txt_table_built t df txt ui Hdf). apply IH.
Qed.

(** It raises, showing nothing, when pandas refuses one of them. *)
Lemma txt_loop_refused (ts : list table_info) :
  (forall t, In t ts ->
             frame_built DataFrame_other t \/ frame_refused DataFrame_other t) ->
  Exists (frame_refused DataFrame_other) ts ->
  forall (n : nat) (txt : string) (ui : list event),
  exists e txt',
    for_enumerate n ts (fun _ t => txt_table DataFrame_other to_string t) txt ui
    = (Raise e, txt', ui).
Proof.
  intros Hall Hex. induction Hex as [t ts (e & He)|t ts Hex IH];
    intros n txt ui.
  - rewrite for_enumerate_cons, (txt_table_refused t e txt ui He).
    eexists. eexists. reflexivity.
  - rewrite for_enumerate_cons.
    destruct (Hall t (or_introl eq_refl)) as [(df & Hdf)|(e & He)].
    + rewrite (txt_table_built t df txt ui Hdf).
      apply IH. intros t' Hin. apply Hall. now right.
    + rewrite (txt_table_refused t e txt ui He).
      eexists. eexists. reflexivity.
Qed.

Lemma frame_built_or_refused (t : table_info) :
  frame_built DataFrame_other t \/ frame_refused DataFrame_other t.
Proof.
  unfold frame_built, frame_refused.
  destruct (Pandas.DataFrame DataFrame_other (data t) None) as [e|df];
    [right|left]; eexists; reflexivity.
Qed.

End FlatText.

(** X15. The flat-text export is all or nothing. If pandas builds a
    frame from the data of every table, the export returns and shows
    the one button ["Download All as TXT"]; if it refuses the data of
    any one table, the export raises and shows no download button at
    all, whatever the other tables hold. *)
Theorem flat_text_all_or_nothing
    (DataFrame_other : py -> option py -> exn + frame)
    (to_string : frame -> string) (str_of : py -> string)
    (extracted_text : py) (ts : list table_info)
    (txt : string) (ui : list event) :
  let run := flat_text_export DataFrame_other to_string str_of
                              extracted_text ts txt ui in
  (Forall (frame_built DataFrame_other) ts ->
   exists content,
     run = (Ret tt, content,
            (ui ++ [StMarkdown "---"; StHeader "Download Data";
                    StDownload "Download All as TXT" content
                               "extracted_content.txt" "text/plain"])%list))
  /\ (Exists (frame_refused DataFrame_other) ts ->
      exists e txt',
        run = (Raise e, txt',
               (ui ++ [StMarkdown "---"; StHeader "Download Data"])%list)).
Proof.
  intros run. subst run. unfold flat_text_export. run_monad. split.
  - intros Hall.
    destruct (txt_loop_built DataFrame_other to_string ts Hall 0
                (txt_head str_of extracted_text)
                ((ui ++ [StMarkdown "---"]) ++ [StHeader "Download Data"])%list)
      as (txt' & Hrun).
    unfold txt_head in Hrun. rewrite Hrun. cbn beta iota.
    exists txt'. rewrite <- !app_assoc. reflexivity.
  - intros Hex.
    destruct (txt_loop_refused DataFrame_other to_string ts
                (fun t _ => frame_built_or_refused DataFrame_other t) Hex 0
                (txt_head str_of extracted_text)
                ((ui ++ [StMarkdown "---"]) ++ [StHeader "Download Data"])%list)
      as (e & txt' & Hrun).
    unfold txt_head in Hrun. rewrite Hrun. cbn beta iota.
    exists e, txt'. rewrite <- !app_assoc. reflexivity.
Qed.

(** The whole results page, for tables that are rows of cells. *)
Lemma main_results_rows
    (DataFrame_other : py -> option py -> exn + frame)
    (dataframe_refused : frame -> option exn)
    (to_string to_csv : frame -> string) (str_of : py -> string)
    (extracted_text : py) (ts : list table_info)
    (rss : list (list (list py))) (txt : string) (ui : list event) :
  Forall2 table_of_rows ts rss ->
  let content := txt_head str_of extracted_text ++ txt_sections to_string ts rss in
  main_results DataFrame_other dataframe_refused to_string to_csv str_of
               extracted_text ts txt ui
  = (Ret tt, content,
     (ui ++ [StMarkdown "---"; StHeader "Extracted Results";
             StHeader "Extracted Text";
             StTextArea "Text Content" extracted_text]
         ++ match ts with
            | [] => [StInfo "No tables were found in the file."]
            | _ => StHeader "Extracted Tables"
                   :: flat_map (render_events DataFrame_other dataframe_refused) ts
            end
         ++ [StMarkdown "---"; StHeader "Download Data";
             StDownload "Download All as TXT" content
                        "extracted_content.txt" "text/plain"]
         ++ match ts with
            | [] => []
            | _ => [StMarkdown "---";
                    StHeader "Download Individual Tables as CSV"]
                   ++ flat_map (csv_events DataFrame_other to_csv) ts
            end)%list).
Proof.
  intros Hts content. unfold main_results.
  unfold bind at 1 2.
  rewrite render_results_run.
  rewrite (flat_text_export_rows DataFrame_other to_string str_of
             extracted_text ts rss _ _ Hts).
  cbv zeta. rewrite csv_export_run. fold content.
  rewrite <- !app_assoc. reflexivity.
Qed.

(** No relationship holds ["image"]: the list of image parts is empty. *)
Lemma no_image_parts (rs : list relationship) :
  Forall (fun rel => PyStr.is_substring "image" (target_ref rel) = false) rs ->
  target_parts rs = inr [].
Proof.
  induction 1 as [|rel rs Hrel _ IH]; cbn [target_parts]; [reflexivity|].
  now rewrite Hrel.
Qed.

(** The sections of the native tables in the flat text. *)
Lemma txt_sections_native (to_string : frame -> string)
    (ts : list (list (list string))) (n : nat) :
  txt_sections to_string (native_tables n ts) (map (map (map PStr)) ts)
  = native_sections to_string n ts.
Proof.
  revert n. induction ts as [|t ts IH]; intros n;
    cbn [native_tables map txt_sections native_sections]; [reflexivity|].
  rewrite IH. unfold table_heading, rule, native_table_entry, frame_of_data,
    frame_of_rows, Pandas.range_labels.
  cbn [title PyStr.repeat]. rewrite !string_app_assoc. reflexivity.
Qed.

(** X16. A Word document none of whose relationships holds ["image"]
    always exports. For any behaviour of the libraries, the extractor
    calls the model never, shows nothing and returns the paragraphs
    joined by line feeds and the native tables; on that result the whole
    results page runs to its end: the display, the flat-text download
    holding the head, the text and, for every native table, three line
    feeds, its title ["Native Table i"], a rule of twenty [=] and the
    grid of its cell texts, and the CSV loop. *)
Theorem docx_without_images_exports
    (json_loads : string -> loads_result)
    (generate_content : string -> image -> api_result)
    (Image_open : blob -> string + image)
    (DataFrame_other : py -> option py -> exn + frame)
    (dataframe_refused : frame -> option exn)
    (to_string to_csv : frame -> string) (str_of : py -> string)
    (doc : document) (prompt : string) (txt : string) (ui : list event) :
  Forall (fun rel => PyStr.is_substring "image" (target_ref rel) = false)
         (rels doc) ->
  let text := PyStr.join nl (paragraphs doc) in
  let ts := native_tables 0 (tables doc) in
  let content :=
    "Extracted Text" ++ nl ++ "====================" ++ nl ++ text
      ++ native_sections to_string 0 (tables doc) in
  extract_data_from_docx json_loads generate_content Image_open
                         str_of doc prompt tt ui
  = (Ret (text, ts), tt, ui)
  /\ main_results DataFrame_other dataframe_refused to_string to_csv str_of
                  (PStr text) ts txt ui
     = (Ret tt, content,
        (ui ++ [StMarkdown "---"; StHeader "Extracted Results";
                StHeader "Extracted Text";
                StTextArea "Text Content" (PStr text)]
            ++ match ts with
               | [] => [StInfo "No tables were found in the file."]
               | _ => StHeader "Extracted Tables"
                      :: flat_map (render_events DataFrame_other
                                                 dataframe_refused) ts
               end
            ++ [StMarkdown "---"; StHeader "Download Data";
                StDownload "Download All as TXT" content
                           "extracted_content.txt" "text/plain"]
            ++ match ts with
               | [] => []
               | _ => [StMarkdown "---";
                       StHeader "Download Individual Tables as CSV"]
                      ++ flat_map (csv_events DataFrame_other to_csv) ts
               end)%list).
Proof.
  intros Hrels text ts content. split.
  - rewrite (extract_docx_closed json_loads generate_content Image_open str_of
               doc [] prompt unit tt ui (no_image_parts (rels doc) Hrels)).
    cbv zeta. cbn [map picked_image_sections picked_image_entries].
    subst text ts. rewrite !app_nil_r. reflexivity.
  - rewrite (main_results_rows DataFrame_other dataframe_refused to_string
               to_csv str_of (PStr text) ts (map (map (map PStr)) (tables doc))
               txt ui (native_tables_rows (tables doc) 0)).
    cbv zeta. subst ts. rewrite txt_sections_native.
    unfold txt_head, rule. cbn [PyStr.repeat]. subst content.
    rewrite !string_app_assoc. reflexivity.
Qed.

(** ** Splitting a PDF *)

Lemma picked_sections_app (str_of : py -> string)
    (ps qs : list (option (py * py))) :
  forall n,
    picked_sections str_of n (ps ++ qs)
    = picked_sections str_of n ps
        ++ picked_sections str_of (n + List.length ps) qs.
Proof.
  induction ps as [|[f|] ps IH]; intros n; cbn [picked_sections app List.length].
  - now rewrite Nat.add_0_r.
  - rewrite IH, string_app_assoc. now rewrite Nat.add_succ_comm.
  - rewrite IH. now rewrite Nat.add_succ_comm.
Qed.

Lemma picked_entries_app (ps qs : list (option (py * py))) :
  forall n,
    picked_entries n (ps ++ qs)
    = (picked_entries n ps ++ picked_entries (n + List.length ps) qs)%list.
Proof.
  induction ps as [|[f|] ps IH]; intros n; cbn [picked_entries app List.length].
  - now rewrite Nat.add_0_r.
  - rewrite IH, <- app_assoc. now rewrite Nat.add_succ_comm.
  - rewrite IH. now rewrite Nat.add_succ_comm.
Qed.

(** X17. Appending pages to a PDF only appends to its result. With a
    decoder of objects, for pages that render and whose replies settle,
    the result for the pages [front ++ back] is the result for [front]
    alone, followed by the sections and the table entries of the pages
    of [back] numbered from where [front] ends: what the later pages
    hold does not change what the earlier ones gave. *)
Theorem pdf_pages_compose
    (json_loads : string -> loads_result)
    (generate_content : string -> image -> api_result)
    (str_of : py -> string)
    (front back : list image) (prompt : string)
    (V : Type) (v : V) (ui : list event) :
  decodes_objects json_loads ->
  Forall (fun page =>
            call_escapes json_loads (generate_content prompt page) = None)
         (front ++ back) ->
  exists text tables_data,
    fst (extract_data_from_pdf json_loads generate_content str_of
                               (map Rendered front) prompt v ui)
    = (Ret (text, tables_data), v)
    /\ fst (extract_data_from_pdf json_loads generate_content str_of
                                  (map Rendered (front ++ back)) prompt v ui)
       = (Ret (text ++ picked_sections str_of (List.length front)
                         (map (page_pick json_loads generate_content prompt)
                              back),
               (tables_data
                  ++ picked_entries (List.length front)
                       (map (page_pick json_loads generate_content prompt)
                            back))%list),
          v).
Proof.
  intros Hlaw Hall.
  pose proof (proj1 (Forall_app _ _ _) Hall) as [Hfront _].
  rewrite (extract_pdf_run json_loads generate_content str_of
             front prompt V v ui Hlaw Hfront).
  rewrite (extract_pdf_run json_loads generate_content str_of
             (front ++ back)%list prompt V v ui Hlaw Hall).
  cbn [fst]. eexists. eexists. split; [reflexivity|].
  rewrite map_app, picked_sections_app, picked_entries_app.
  rewrite !length_map. reflexivity.
Qed.

(** ** The model list *)

(** X18. The model list never fails. [list_available_models] raises
    nothing and leaves the locals alone; it shows its info line and
    then exactly one element: the error with the text of the exception
    when listing raised, the warning when no model supports
    [generateContent], and otherwise a table of two columns with one
    row of name and description for each supporting model, in listing
    order. *)
Theorem model_list_never_fails (list_models : exn + list model_info)
    (V : Type) (v : V) (ui : list event) :
  exists shown,
    list_available_models list_models v ui
    = (Ret tt, v, (ui ++ [StInfo "Fetching available models..."; shown])%list)
    /\ match list_models with
       | inl e =>
           shown = StError ("Could not retrieve the model list: " ++ exn_str e)
       | inr ms =>
           (existsb supports_generation ms = false ->
            shown = StWarning
              "No models supporting 'generateContent' were found for your API key.")
           /\ (existsb supports_generation ms = true ->
               exists df,
                 shown = StDataframe df
                 /\ columns df = [PStr "Model Name"; PStr "Description"]
                 /\ rows df
                    = map (fun m => [PStr (model_name m);
                                     PStr (model_description m)])
                          (filter supports_generation ms)
                 /\ rows df <> [])
       end.
Proof.
  unfold list_available_models. run_monad.
  destruct list_models as [e|ms]; cbn beta iota.
  - eexists. split; [|reflexivity]. now rewrite <- app_assoc.
  - destruct (filter supports_generation ms) as [|m ms'] eqn:Hf; cbn beta iota.
    + eexists. split; [now rewrite <- app_assoc|]. split; [reflexivity|].
      intros Hex. apply existsb_exists in Hex. destruct Hex as (m & Hin & Hm).
      assert (Hm' : In m (filter supports_generation ms))
        by (apply filter_In; now split).
      rewrite Hf in Hm'. destruct Hm'.
    + eexists. split; [now rewrite <- app_assoc|]. split.
      * intros Hex.
        assert (Hm : In m (filter supports_generation ms))
          by (rewrite Hf; now left).
        apply filter_In in Hm. destruct Hm as (Hin & Hm).
        assert (Hex' : existsb supports_generation ms = true)
          by (apply existsb_exists; now exists m).
        congruence.
      * intros _. eexists. split; [reflexivity|]. cbn. repeat split.
        discriminate.
Qed.

(** ** Concrete runs *)

(** The scenario reply parses as its object alone does. *)
Lemma parser_ignores_prose_witness :
  parse_response (V := unit) JsonRef.loads scenario_reply tt []
  = parse_response JsonRef.loads scenario_object tt [].
Proof.
  exact (parser_ignores_prose JsonRef.loads "Here: "
           (json_text "'text':'Hello','table':[['A','B'],['1','2']]")
           " thanks" eq_refl eq_refl unit tt []).
Defined.

(** A reply whose only braces are reversed is a parse failure for the
    reference decoder. *)
Lemma parser_input_shape_witness :
  let r := "} no object {" in
  let json_string :=
    PyStr.slice r (PyStr.find r "{"%char) (PyStr.rfind r "}"%char + 1) in
  ((PyStr.rfind r "}"%char < PyStr.find r "{"%char)%Z
   /\ json_string = ""
   /\ forall msg, JsonRef.loads "" = DecodeError msg ->
                  parse_failure JsonRef.loads r msg)
  \/ exists pre mid post,
       r = pre ++ String "{"%char mid ++ String "}"%char post
       /\ PyStr.contains "{"%char pre = false
       /\ PyStr.contains "}"%char post = false
       /\ json_string = String "{"%char mid ++ "}".
Proof.
  apply (parser_input_shape JsonRef.loads "} no object {");
    vm_compute; discriminate.
Defined.

(** Three pages, the second with a reply that is not JSON: sections and
    tables of pages 1 and 3. *)
Lemma pdf_aggregate_by_position_witness :
  fst (extract_data_from_pdf (V := unit) JsonRef.loads echo_model no_str
                             (map Rendered three_pages) prompt_template tt [])
  = (Ret (nl ++ nl ++ "--- Page 1 ---" ++ nl ++ "one"
             ++ nl ++ nl ++ "--- Page 3 ---" ++ nl ++ "three",
          [mk_table "Table from Page 1" (PList [PList [PStr "a"]; PList [PStr "b"]]);
           mk_table "Table from Page 3" (PList [PList [PStr "c"]])]),
     tt).
Proof.
  refine (eq_trans (pdf_aggregate_by_position JsonRef.loads echo_model no_str
                      three_pages prompt_template unit tt []
                      JsonRef_decodes_objects three_pages_settle) _).
  vm_compute. reflexivity.
Defined.

Lemma pdf_one_call_per_page_witness :
  calls_of (snd (extract_data_from_pdf (V := unit) JsonRef.loads echo_model
                   no_str (map Rendered three_pages) prompt_template tt []))
  = map (ApiCall prompt_template) three_pages.
Proof.
  exact (pdf_one_call_per_page JsonRef.loads echo_model no_str
           three_pages prompt_template unit tt [] JsonRef_decodes_objects
           three_pages_settle).
Defined.

Lemma pdf_warnings_name_failed_pages_witness :
  warnings_of (snd (extract_data_from_pdf (V := unit) JsonRef.loads echo_model
                      no_str (map Rendered three_pages) prompt_template tt []))
  = [StWarning "Could not parse data from page 2. Skipping."].
Proof.
  refine (eq_trans (pdf_warnings_name_failed_pages JsonRef.loads echo_model
                      no_str three_pages prompt_template unit tt []
                      JsonRef_decodes_objects three_pages_settle) _).
  vm_compute. reflexivity.
Defined.

(** Scenario C: the paragraph and the text read off the image; the
    native table and then the table read off the image. *)
Lemma docx_aggregate_by_position_witness :
  fst (extract_data_from_docx (V := unit) JsonRef.loads echo_model
         open_unless_bad no_str scenario_docx prompt_for_embeds tt [])
  = (Ret ("Report" ++ nl ++ nl ++ "--- Text from Embedded Image 1 ---"
             ++ nl ++ "seen",
          [mk_table "Native Table 1"
                    (PList [PList [PStr "A"; PStr "B"];
                            PList [PStr "1"; PStr "2"]]);
           mk_table "Table from Embedded Image 1"
                    (PList [PList [PStr "x"; PStr "y"];
                            PList [PStr "3"; PStr "4"]])]),
     tt).
Proof.
  refine (eq_trans (docx_aggregate_by_position JsonRef.loads echo_model
                      open_unless_bad no_str scenario_docx _
                      prompt_for_embeds unit tt [] eq_refl) _).
  vm_compute. reflexivity.
Defined.

Lemma docx_one_call_per_opened_image_witness :
  calls_of (snd (extract_data_from_docx (V := unit) JsonRef.loads echo_model
                   open_unless_bad no_str scenario_docx prompt_for_embeds tt []))
  = [ApiCall prompt_for_embeds
             (json_text "{'text':'seen','table':[['x','y'],['3','4']]}")].
Proof.
  exact (proj1 (docx_one_call_per_opened_image JsonRef.loads echo_model
                  open_unless_bad no_str scenario_docx _
                  prompt_for_embeds unit tt [] eq_refl)).
Defined.

(** Scenario C: the titles of the table list. *)
Lemma docx_tables_native_then_images_witness :
  exists text tables_data ui',
    extract_data_from_docx (V := unit) JsonRef.loads echo_model
      open_unless_bad no_str scenario_docx prompt_for_embeds tt []
    = (Ret (text, tables_data), tt, ui')
    /\ map title tables_data = ["Native Table 1"; "Table from Embedded Image 1"].
Proof.
  destruct (docx_tables_native_then_images JsonRef.loads echo_model
              open_unless_bad no_str scenario_docx _
              prompt_for_embeds unit tt [] eq_refl)
    as (text & native & from_images & ui' & Hrun & Hn & _ & Hi & _).
  exists text, (native ++ from_images)%list, ui'. split; [exact Hrun|].
  rewrite map_app, Hn, Hi. vm_compute. reflexivity.
Defined.

(** An upload named [Scan.PNG] goes the way of [scan.png]. *)
Lemma dispatch_ignores_case_witness :
  file_extension (mk_upload "Scan.PNG" "img" [] (mk_document [] [] [])) = ".png"
  /\ main_extract JsonRef.loads echo_model open_unless_bad no_str
                  (mk_upload "scan.png" "img" [] (mk_document [] [] [])) tt []
     = main_extract JsonRef.loads echo_model open_unless_bad no_str
                    (mk_upload "Scan.PNG" "img" [] (mk_document [] [] [])) tt [].
Proof.
  destruct (dispatch_ignores_case JsonRef.loads echo_model open_unless_bad
              no_str (mk_upload "Scan.PNG" "img" [] (mk_document [] [] []))
              [] eq_refl) as [Hext Hrun].
  split; [|exact Hrun].
  refine (eq_trans (eq_sym Hext) _). vm_compute. reflexivity.
Defined.


Lemma csv_names_never_collide_witness :
  exists text tables_data ui',
    extract_data_from_pdf (V := unit) JsonRef.loads echo_model no_str
                          (map Rendered three_pages) prompt_template tt []
    = (Ret (text, tables_data), tt, ui')
    /\ names_from page_csv_name 0 (csv_names tables_data)
    /\ NoDup (csv_names tables_data).
Proof.
  exact (proj1 (csv_names_never_collide JsonRef.loads echo_model
                  open_unless_bad no_str) JsonRef_decodes_objects
               three_pages prompt_template unit tt [] three_pages_settle).
Defined.

(** A document of two paragraphs and two native tables: what the
    extractor returns, and the flat text of the results page. *)
Lemma docx_without_images_exports_witness :
  extract_data_from_docx JsonRef.loads echo_model open_unless_bad no_str
                         plain_docx prompt_for_embeds tt []
  = (Ret ("Title" ++ nl ++ "Body",
          [mk_table "Native Table 1"
                    (PList [PList [PStr "A"; PStr "B"];
                            PList [PStr "1"; PStr "2"]]);
           mk_table "Native Table 2" (PList [PList [PStr "x"]])]),
     tt, [])
  /\ fst (main_results no_other shows_all grid_print csv_print no_str
                       (PStr ("Title" ++ nl ++ "Body"))
                       (native_tables 0 (tables plain_docx)) "" [])
     = (Ret tt,
        "Extracted Text" ++ nl ++ "====================" ++ nl ++ "Title" ++ nl ++ "Body"
          ++ nl ++ nl ++ nl ++ "Native Table 1" ++ nl ++ "====================" ++ nl
          ++ "A B" ++ nl ++ "1 2"
          ++ nl ++ nl ++ nl ++ "Native Table 2" ++ nl ++ "====================" ++ nl ++ "x").
Proof.
  destruct (docx_without_images_exports JsonRef.loads echo_model
              open_unless_bad no_other shows_all grid_print csv_print no_str
              plain_docx prompt_for_embeds "" [] (Forall_nil _))
    as [Hrun Hpage].
  split.
  - refine (eq_trans Hrun _). vm_compute. reflexivity.
  - refine (eq_trans (f_equal fst Hpage) _). vm_compute. reflexivity.
Defined.

(** The first page alone, then all three. *)
Lemma pdf_pages_compose_witness :
  exists text tables_data,
    fst (extract_data_from_pdf (V := unit) JsonRef.loads echo_model no_str
           (map Rendered (firstn 1 three_pages)) prompt_template tt [])
    = (Ret (text, tables_data), tt)
    /\ fst (extract_data_from_pdf (V := unit) JsonRef.loads echo_model no_str
              (map Rendered (firstn 1 three_pages ++ skipn 1 three_pages))
              prompt_template tt [])
       = (Ret (text ++ picked_sections no_str 1
                         (map (page_pick JsonRef.loads echo_model prompt_template)
                              (skipn 1 three_pages)),
               (tables_data
                  ++ picked_entries 1
                       (map (page_pick JsonRef.loads echo_model prompt_template)
                            (skipn 1 three_pages)))%list),
          tt).
Proof.
  exact (pdf_pages_compose JsonRef.loads echo_model no_str
           (firstn 1 three_pages) (skipn 1 three_pages) prompt_template
           unit tt [] JsonRef_decodes_objects three_pages_settle).
Defined.

(** A reply that holds an integer of 4301 digits, on the second of three
    pages: the extractor raises [ValueError] after two calls. *)
Lemma pdf_stops_at_first_escape_witness :
  fst (extract_data_from_pdf (V := unit) JsonRef.loads echo_model no_str
         [Rendered (json_text "{'text':'one'}");
          Rendered long_int_reply;
          Rendered (json_text "{'text':'three'}")]
         prompt_template tt [])
  = (Raise (ValueError "Exceeds the limit (4300 digits) for integer string conversion: value has 4301 digits; use sys.set_int_max_str_digits() to increase the limit"),
     tt)
  /\ calls_of
       (snd (extract_data_from_pdf (V := unit) JsonRef.loads echo_model no_str
               [Rendered (json_text "{'text':'one'}");
                Rendered long_int_reply;
                Rendered (json_text "{'text':'three'}")]
               prompt_template tt []))
     = [ApiCall prompt_template (json_text "{'text':'one'}");
        ApiCall prompt_template long_int_reply].
Proof.
  apply (proj1 (pdf_stops_at_first_escape JsonRef.loads echo_model no_str
                  [json_text "{'text':'one'}"]
                  [Rendered (json_text "{'text':'three'}")]
                  _ prompt_template unit tt [] JsonRef_decodes_objects
                  ltac:(repeat constructor))
               long_int_reply).
  vm_compute. reflexivity.
Defined.
